(** * SN-autopost-bot: the wizard, the widgets, the post store and the
      publish scheduler of [bot.py], embedded shallowly.

    The file follows the source top-down: first the pieces of the Python
    standard library the bot relies on ([datetime], [calendar]), then the
    post store, the bot state with its state-and-exception monad, the two
    widgets, the conversation handlers and the scheduler; the theorems come
    last. *)

From Stdlib Require Import ZArith Lia List Bool String Ascii.
From stdpp Require Import base tactics option list sorting gmap strings pretty.

Local Open Scope Z_scope.

(** ** Python exceptions and results *)

Inductive exn : Type :=
| ValueError | OverflowError | TypeError | KeyError | IndexError | IllegalMonthError.

(** What running a piece of Python gives: a value, an exception, or
    [OutOfFuel] when the model stopped a loop that had not finished (no
    [except] clause catches that). *)
Inductive res (A : Type) : Type :=
| Ok (a : A)
| Raise (e : exn)
| OutOfFuel.
Arguments Ok {A} a.
Arguments Raise {A} e.
Arguments OutOfFuel {A}.

Definition res_bind {A B} (r : res A) (k : A -> res B) : res B :=
  match r with
  | Ok a => k a
  | Raise e => Raise e
  | OutOfFuel => OutOfFuel
  end.

(** A library call that signals failure by one exception. *)
Definition or_raise {A} (e : exn) (o : option A) : res A :=
  match o with
  | Some a => Ok a
  | None => Raise e
  end.

Definition is_ok {A} (r : res A) : bool :=
  match r with Ok _ => true | _ => false end.

(** ** [datetime]: the proleptic Gregorian calendar of CPython's [datetime] *)

Module PyDatetime.

Definition MINYEAR : Z := 1.
Definition MAXYEAR : Z := 9999.
(** [date.max.toordinal()] *)
Definition _MAXORDINAL : Z := 3652059.

Definition _DAYS_IN_MONTH (month : Z) : Z :=
  match month with
  | 1 => 31 | 2 => 28 | 3 => 31 | 4 => 30 | 5 => 31 | 6 => 30
  | 7 => 31 | 8 => 31 | 9 => 30 | 10 => 31 | 11 => 30 | 12 => 31
  | _ => -1
  end.

Definition _DAYS_BEFORE_MONTH (month : Z) : Z :=
  match month with
  | 1 => 0 | 2 => 31 | 3 => 59 | 4 => 90 | 5 => 120 | 6 => 151
  | 7 => 181 | 8 => 212 | 9 => 243 | 10 => 273 | 11 => 304 | 12 => 334
  | _ => -1
  end.

(** [year % 4 == 0 and (year % 100 != 0 or year % 400 == 0)] *)
Definition _is_leap (year : Z) : bool :=
  (year mod 4 =? 0) && (negb (year mod 100 =? 0) || (year mod 400 =? 0)).

Definition _days_before_year (year : Z) : Z :=
  let y := year - 1 in
  y * 365 + y / 4 - y / 100 + y / 400.

Definition _days_in_month (year month : Z) : Z :=
  if (month =? 2) && _is_leap year then 29 else _DAYS_IN_MONTH month.

Definition _days_before_month (year month : Z) : Z :=
  _DAYS_BEFORE_MONTH month + (if (2 <? month) && _is_leap year then 1 else 0).

Definition _ymd2ord (year month day : Z) : Z :=
  _days_before_year year + _days_before_month year month + day.

Definition _DI400Y : Z := 146097.
Definition _DI100Y : Z := 36524.
Definition _DI4Y : Z := 1461.

(** The end of [_ord2ymd]: month and day from the zero-based day [n] of a
    year, estimated as [(n + 50) >> 5] and corrected downwards. *)
Definition _month_day (leapyear : bool) (n : Z) : Z * Z :=
  let month := Z.shiftr (n + 50) 5 in
  let preceding :=
    _DAYS_BEFORE_MONTH month + (if (2 <? month) && leapyear then 1 else 0) in
  if n <? preceding then
    let month := month - 1 in
    let preceding :=
      preceding
      - (_DAYS_IN_MONTH month + (if (month =? 2) && leapyear then 1 else 0)) in
    (month, n - preceding + 1)
  else (month, n - preceding + 1).

(** The part of [_ord2ymd] after the 400-year cycle has been split off:
    [n] is the zero-based day inside the cycle, the year returned is
    relative to the start of the cycle (1-based). *)
Definition _ord2ymd_cycle (n : Z) : Z * Z * Z :=
  let n100 := n / _DI100Y in
  let n := n mod _DI100Y in
  let n4 := n / _DI4Y in
  let n := n mod _DI4Y in
  let n1 := n / 365 in
  let n := n mod 365 in
  let year := 1 + n100 * 100 + n4 * 4 + n1 in
  if (n1 =? 4) || (n100 =? 4) then (year - 1, 12, 31)
  else
    let leapyear := (n1 =? 3) && (negb (n4 =? 24) || (n100 =? 3)) in
    let '(month, day) := _month_day leapyear n in
    (year, month, day).

Definition _ord2ymd (n : Z) : Z * Z * Z :=
  let n := n - 1 in
  let n400 := n / _DI400Y in
  let n := n mod _DI400Y in
  let '(y, m, d) := _ord2ymd_cycle n in
  (n400 * 400 + y, m, d).

(** *** [datetime.date] *)

Record date : Type := mkdate { d_year : Z; d_month : Z; d_day : Z }.

(** [_check_date_fields] *)
Definition check_date_fields (y m d : Z) : bool :=
  (MINYEAR <=? y) && (y <=? MAXYEAR)
  && (1 <=? m) && (m <=? 12)
  && (1 <=? d) && (d <=? _days_in_month y m).

(** The constructors of the C implementation first convert each integer
    argument to a C [int]: a value that does not fit is an
    [OverflowError], before any range is checked. *)
Definition c_int (z : Z) : bool := (-2147483648 <=? z) && (z <=? 2147483647).

(** [datetime.date(year, month, day)] *)
Definition date_new (y m d : Z) : res date :=
  if c_int y && c_int m && c_int d then
    if check_date_fields y m d then Ok (mkdate y m d) else Raise ValueError
  else Raise OverflowError.

Definition valid_date (d : date) : bool :=
  check_date_fields (d_year d) (d_month d) (d_day d).

Definition date_toordinal (d : date) : Z :=
  _ymd2ord (d_year d) (d_month d) (d_day d).

Definition date_fromordinal (n : Z) : date :=
  let '(y, m, d) := _ord2ymd n in mkdate y m d.

Definition date_weekday (d : date) : Z := (date_toordinal d + 6) mod 7.

(** Dates compare as the tuples (year, month, day). *)
Definition date_cmp (a b : date) : comparison :=
  match d_year a ?= d_year b with
  | Eq => match d_month a ?= d_month b with
          | Eq => d_day a ?= d_day b
          | c => c
          end
  | c => c
  end.

Definition date_lt (a b : date) : bool :=
  match date_cmp a b with Lt => true | _ => false end.

(** *** [datetime.datetime] *)

(** [tzinfo] is [None] for a naive value and carries the UTC offset, in
    microseconds, for an aware one. *)
Record datetime : Type := mkdatetime {
  year : Z; month : Z; day : Z;
  hour : Z; minute : Z; second : Z; microsecond : Z;
  tzinfo : option Z
}.

(** [_check_time_fields] *)
Definition check_time_fields (h mi s us : Z) : bool :=
  (0 <=? h) && (h <=? 23) && (0 <=? mi) && (mi <=? 59)
  && (0 <=? s) && (s <=? 59) && (0 <=? us) && (us <=? 999999).

Definition valid_datetime (t : datetime) : bool :=
  check_date_fields (year t) (month t) (day t)
  && check_time_fields (hour t) (minute t) (second t) (microsecond t).

Definition dt_date (t : datetime) : date := mkdate (year t) (month t) (day t).

Definition toordinal (t : datetime) : Z := _ymd2ord (year t) (month t) (day t).

(** [datetime.weekday()]: Monday is 0, Sunday is 6. *)
Definition weekday (t : datetime) : Z := (toordinal t + 6) mod 7.

(** [self + timedelta(days=n)]: the value is turned into a timedelta of
    days, seconds and microseconds, the days are added, and the sum is
    turned back; a day count outside [1, _MAXORDINAL] overflows. *)
Definition add_days (t : datetime) (n : Z) : res datetime :=
  let days := toordinal t + n in
  let seconds := hour t * 3600 + minute t * 60 + second t in
  let h := seconds / 3600 in
  let rem := seconds mod 3600 in
  let mi := rem / 60 in
  let s := rem mod 60 in
  if (0 <? days) && (days <=? _MAXORDINAL) then
    let '(y, m, d) := _ord2ymd days in
    Ok (mkdatetime y m d h mi s (microsecond t) (tzinfo t))
  else Raise OverflowError.

(** [self.replace(hour=h, minute=mi)] *)
Definition replace_hour_minute (t : datetime) (h mi : Z) : res datetime :=
  if c_int h && c_int mi then
    if check_date_fields (year t) (month t) (day t)
       && check_time_fields h mi (second t) (microsecond t)
    then Ok (mkdatetime (year t) (month t) (day t) h mi (second t)
               (microsecond t) (tzinfo t))
    else Raise ValueError
  else Raise OverflowError.

Definition lex (c : comparison) (k : comparison) : comparison :=
  match c with Eq => k | _ => c end.

(** Naive values compare as the tuples of their fields. *)
Definition naive_cmp (a b : datetime) : comparison :=
  lex (year a ?= year b) (lex (month a ?= month b) (lex (day a ?= day b)
  (lex (hour a ?= hour b) (lex (minute a ?= minute b)
  (lex (second a ?= second b) (microsecond a ?= microsecond b)))))).

(** Microseconds since ordinal 0, shifted to UTC: what two aware values
    are compared by. *)
Definition utc_key (t : datetime) (off : Z) : Z :=
  ((toordinal t * 86400 + hour t * 3600 + minute t * 60 + second t) * 1000000
   + microsecond t) - off.

(** [datetime._cmp]: mixing a naive and an aware value is a [TypeError]
    for the ordering operators. *)
Definition dt_cmp (a b : datetime) : res comparison :=
  match tzinfo a, tzinfo b with
  | None, None => Ok (naive_cmp a b)
  | Some oa, Some ob => Ok (utc_key a oa ?= utc_key b ob)
  | _, _ => Raise TypeError
  end.

Definition dt_lt (a b : datetime) : res bool :=
  res_bind (dt_cmp a b) (fun c => Ok match c with Lt => true | _ => false end).

Definition dt_le (a b : datetime) : res bool :=
  res_bind (dt_cmp a b) (fun c => Ok match c with Gt => false | _ => true end).

(** *** Checks by evaluation

    The Gregorian calendar repeats every 400 years.  Inside a cycle the
    conversions are checked by evaluation on the days of a common and of a
    leap year and on the ways a day count splits into centuries, four-year
    groups and years; arithmetic extends this to every day. *)

Fixpoint forall_range (f : Z -> bool) (lo : Z) (n : nat) : bool :=
  match n with
  | O => true
  | S n' => f lo && forall_range f (lo + 1) n'
  end.

Definition days_in_month_of (leap : bool) (month : Z) : Z :=
  if (month =? 2) && leap then 29 else _DAYS_IN_MONTH month.

Definition days_before_month_of (leap : bool) (month : Z) : Z :=
  _DAYS_BEFORE_MONTH month + (if (2 <? month) && leap then 1 else 0).

(** Day [n] of a year is a valid month and day, [n] days after 1 January. *)
Definition day_of_year_ok (leap : bool) (n : Z) : bool :=
  let '(m, d) := _month_day leap n in
  (1 <=? m) && (m <=? 12) && (1 <=? d) && (d <=? days_in_month_of leap m)
  && (days_before_month_of leap m + d =? n + 1).

(** A valid month and day is found back from its day of the year; only 31
    December of a leap year is day 365. *)
Definition month_day_ok (leap : bool) (m d : Z) : bool :=
  (days_in_month_of leap m <? d)
  || (let n := days_before_month_of leap m + d - 1 in
      (0 <=? n) && (n <=? 365)
      && ((364 <? n)
          || (let '(m', d') := _month_day leap n in (m' =? m) && (d' =? d)))
      && ((n <? 365) || (leap && (m =? 12) && (d =? 31)))).

(** A day count of [q1] centuries, [q2] four-year groups and [q3] years is
    the start of year [100 q1 + 4 q2 + q3 + 1], whose leap flag is the one
    [_ord2ymd] computes; when [q3] or [q1] is 4 it is the last day of the
    leap year before. *)
Definition year_split_ok (q1 q2 q3 : Z) : bool :=
  let y := q1 * 100 + q2 * 4 + q3 in
  let base := _DI100Y * q1 + _DI4Y * q2 + 365 * q3 in
  if q1 =? 4 then
    negb ((q2 =? 0) && (q3 =? 0))
    || (_is_leap y && (_days_before_year y + 365 =? base))
  else if q3 =? 4 then
    (23 <? q2) || (_is_leap y && (_days_before_year y + 365 =? base))
  else
    (_days_before_year (y + 1) =? base)
    && Bool.eqb ((q3 =? 3) && (negb (q2 =? 24) || (q1 =? 3))) (_is_leap (y + 1)).

End PyDatetime.

Import PyDatetime.

(** ** [calendar]: month grids with Monday as the first weekday *)

Module PyCalendar.

(** [calendar.weekday]: a year outside [MINYEAR, MAXYEAR] is mapped into
    the 400-year cycle that starts at 2000. *)
Definition weekday (year month day : Z) : res Z :=
  let year :=
    if (MINYEAR <=? year) && (year <=? MAXYEAR) then year
    else 2000 + year mod 400 in
  res_bind (date_new year month day) (fun d => Ok (date_weekday d)).

(** [calendar.monthrange]: the weekday of the first day and the number
    of days of the month. *)
Definition monthrange (year month : Z) : res (Z * Z) :=
  if (1 <=? month) && (month <=? 12) then
    res_bind (weekday year month 1) (fun day1 =>
    Ok (day1, _DAYS_IN_MONTH month
              + (if (month =? 2) && _is_leap year then 1 else 0)))
  else Raise IllegalMonthError.

(** [Calendar.itermonthdays] with [firstweekday = 0]: the days of the
    month padded with zeros to whole weeks. *)
Definition itermonthdays (year month : Z) : res (list Z) :=
  res_bind (monthrange year month) (fun '(day1, ndays) =>
  let days_before := day1 mod 7 in
  let days_after := (0 - day1 - ndays) mod 7 in
  Ok (replicate (Z.to_nat days_before) 0
      ++ seqZ 1 ndays
      ++ replicate (Z.to_nat days_after) 0)).

(** [[days[i:i+7] for i in range(0, len(days), 7)]] *)
Fixpoint weeks_of (fuel : nat) (days : list Z) : list (list Z) :=
  match fuel with
  | O => []
  | S fuel' =>
      match days with
      | [] => []
      | _ => take 7 days :: weeks_of fuel' (drop 7 days)
      end
  end.

(** [calendar.monthcalendar] *)
Definition monthcalendar (year month : Z) : res (list (list Z)) :=
  res_bind (itermonthdays year month) (fun days =>
  Ok (weeks_of (length days) days)).

End PyCalendar.

(** ** The library functions taken as given

    String parsing and formatting of the standard library is not part of
    the repository; the model is parameterised by it. *)

Class PyLib : Type := {
  (** [str.lower] *)
  str_lower : string -> string;
  (** [str.strip] *)
  str_strip : string -> string;
  (** [datetime.datetime.fromisoformat]: [None] stands for the
      [ValueError] raised on a string that is not an ISO timestamp *)
  fromisoformat : string -> option datetime;
  (** [datetime.isoformat] *)
  isoformat : datetime -> string;
  (** [datetime.datetime.strptime(s, '%Y-%m-%d')]: midnight of the date
      written in [s]; [None] stands for the [ValueError] raised otherwise *)
  strptime_ymd : string -> option datetime
}.

(** ** The post store: rows of the [posts] table *)

Abbreviation bytes := (list Byte.byte).

(** A value of a [TEXT] column: SQLite keeps text as text and stores a blob
    unchanged; [get_posts] hands the former over as [str], the latter as
    [bytes]. *)
Inductive sqltext : Type :=
| Text (s : string)
| Blob (b : bytes).

Module Post.
Record t : Type := mk {
  id : Z;
  content : string;
  photo_data : option bytes;
  photo_filename : option string;
  scheduled_time : sqltext;
  is_recurring : bool;
  is_posted : bool;
  created_at : string
}.
End Post.

(** The keyword arguments of [update_post]: one optional new value per
    column that may be set. *)
Module Fields.
Record t : Type := mk {
  content : option string;
  photo_data : option (option bytes);
  photo_filename : option (option string);
  scheduled_time : option string;
  is_recurring : option bool;
  is_posted : option bool
}.
Definition none : t := mk None None None None None None.
Definition is_empty (f : t) : bool :=
  match f with
  | mk None None None None None None => true
  | _ => false
  end.
End Fields.

(** ** Inline keyboards

    A button is a dict with a [text] and a [callback_data].  The
    [callback_data] strings are written by f-strings such as
    [f"cal_day_{year}_{month}_{day}"] and read back by
    [callback_data.split("_")] and [int]; each format is a constructor
    that carries the interpolated integers. *)

Inductive callback : Type :=
| add_new
| delete_ (post_id : Z)
| confirm_delete_ (post_id : Z)
| cancel_delete_ (post_id : Z)
| back_to_list
| recurring_yes
| recurring_no
| skip_text
| skip_photo
| cal_nav_ (year month : Z)
| cal_day_ (year month day : Z)
| cal_confirm_ (year month day : Z)
| cal_cancel
| cal_ignore
| time_hour_inc_ (hour minute : Z)
| time_hour_dec_ (hour minute : Z)
| time_min_inc_ (hour minute : Z)
| time_min_dec_ (hour minute : Z)
| time_quick_ (hour minute : Z)
| time_quick_now
| time_confirm_ (hour minute : Z)
| time_cancel
| time_ignore.

(** The button captions, one constructor per literal or f-string of the
    source. *)
Inductive label : Type :=
| L_prev                           (* "◀️" *)
| L_month_year (month year : Z)    (* f"{month_names[month-1]} {year}" *)
| L_next                           (* "▶️" *)
| L_weekday (name : string)        (* "Mo" .. "Su" *)
| L_blank                          (* " " *)
| L_past (day : Z)                 (* f"◽{day}" *)
| L_selected (day : Z)             (* f"🔹{day}" *)
| L_day (day : Z)                  (* str(day) *)
| L_confirm_date                   (* "✅ Confirm Date" *)
| L_cancel                         (* "❌ Cancel" *)
| L_time_selected (hour minute : Z) (* f"🕐 Selected: {hour:02d}:{minute:02d}" *)
| L_quick (text : string)          (* "08:00" .. "22:30" *)
| L_now                            (* "Now" *)
| L_hour_minus | L_hour_plus | L_min_minus | L_min_plus
| L_confirm_time                   (* "✅ Confirm Time" *)
| L_skip_text | L_skip_photo
| L_recurring_yes | L_recurring_no
| L_delete_post (post_id : Z)
| L_add_new_post
| L_yes_delete.

Record button : Type := Button { text : label; callback_data : callback }.

(** The value of ["inline_keyboard"]: a list of rows of buttons. *)
Abbreviation keyboard := (list (list button)).

(** [user_state['post_data']]: the draft; a key that is absent is [None]. *)
Module Draft.
Record t : Type := mk {
  content : option string;
  photo_data : option bytes;
  photo_filename : option string;
  selected_date : option string;
  scheduled_time : option string
}.
Definition empty : t := mk None None None None None.
End Draft.

(** ** Messages

    The texts the bot sends, one constructor per literal or f-string of the
    source, with the interpolated values as arguments. *)
Inductive message : Type :=
| M_content (s : string)                     (* a post's own text *)
| M_post_with_info (p : Post.t)              (* f"{post['content']}\n\n{post_info}" *)
| M_post_info (p : Post.t)                   (* f"{post_info}" *)
| M_manage_this_post
| M_no_posts
| M_list_header (n : Z)
| M_remaining (n : Z)
| M_create_new
| M_step1
| M_step2 (content : string)
| M_step2_skipped
| M_send_photo_or_skip
| M_use_calendar
| M_step3_calendar_photo_added                (* status "✅ Photo added!" *)
| M_step3_calendar_no_photo                   (* status "ℹ️ No photo will be added." *)
| M_step3_calendar_again                      (* shown after "time_cancel" *)
| M_step3_time (selected_date : date)
| M_step4_now
| M_step4 (scheduled : datetime)
| M_no_date_selected
| M_past_time                                (* "❌ Cannot schedule posts in the past! ..." *)
| M_datetime_error (e : exn)
| M_validation_error                         (* "❌ Error: Post must have either text content or a photo!" *)
| M_created (post_id : Z) (scheduled : datetime) (recurring : bool) (d : Draft.t)
| M_save_error (e : exn)
| M_cancelled
| M_start_over
| M_edit_time_picker (post_id : Z) (selected_date : date)
| M_scheduled_immediately
| M_update_failed (post_id : Z)
| M_rescheduled (post_id : Z) (scheduled : datetime)
| M_text_removed | M_text_updated
| M_photo_removed | M_photo_updated
| M_send_photo_or_delete
| M_use_calendar_edit
| M_delete_confirm (p : Post.t)
| M_deleted (post_id : Z)
| M_delete_failed (post_id : Z)
| M_not_found (post_id : Z)
| M_access_required
| M_use_help                                  (* "Please use /help to see available commands." *)
| M_current (* the text of the message the pressed button belongs to *).

(** What leaves the process: Bot API requests, and the detached timer that
    re-sends the list of posts two seconds later. *)
Inductive effect : Type :=
| sendMessage (chat_id : string) (text : message) (reply_markup : option keyboard)
| sendPhoto (chat_id : string) (photo : bytes) (caption : message)
    (filename : option string)
| editMessageText (chat_id : string) (message_id : Z) (text : message)
    (reply_markup : option keyboard)
| answerCallbackQuery (query_id : string) (text : option message)
| Timer_show_posts_list (chat_id : string) (user_id : Z).

(** ** Sessions: the values of [self.user_states]

    A session dict has the key ['state'] and, depending on the flow, the
    keys ['post_data'] (wizard), ['post_id'], ['message_id'] and
    ['selected_date'] (edit flows); an absent key is [None].  The keys
    ['user_info'] and ['edit_type'] are written but read by no handler
    below, and are left out. *)

Inductive state_name : Type :=
| waiting_for_password
| waiting_for_content
| waiting_for_photo
| waiting_for_schedule
| waiting_for_recurring
| editing_text
| editing_photo
| editing_time
| editing_post.

Record user_state : Type := UserState {
  state : state_name;
  post_data : option Draft.t;
  post_id : option Z;
  message_id : option Z;
  selected_date : option string
}.

(** ** The bot

    [posts] is the table in rowid order, [sqlite_sequence] the value SQLite
    keeps for [AUTOINCREMENT], [log] everything sent so far (newest last), and
    [telegram k] tells whether the request that is entry [k] of the log is
    answered with ["ok": true]. *)
Record bot : Type := Bot {
  target_chat_id : string;
  posts : list Post.t;
  sqlite_sequence : Z;
  authorized_users : gset Z;
  user_states : gmap Z user_state;
  log : list effect;
  telegram : nat -> bool
}.

Definition set_posts (b : bot) (ps : list Post.t) : bot :=
  Bot (target_chat_id b) ps (sqlite_sequence b) (authorized_users b)
    (user_states b) (log b) (telegram b).

Definition set_user_states (b : bot) (us : gmap Z user_state) : bot :=
  Bot (target_chat_id b) (posts b) (sqlite_sequence b) (authorized_users b)
    us (log b) (telegram b).

Definition set_log (b : bot) (l : list effect) : bot :=
  Bot (target_chat_id b) (posts b) (sqlite_sequence b) (authorized_users b)
    (user_states b) l (telegram b).

(** ** The state-and-exception monad of the handlers

    A method of [TelegramBot] reads and writes the bot and either returns or
    raises; what it wrote before raising stays written. *)

Definition M (A : Type) : Type := bot -> res A * bot.

Definition ret {A} (a : A) : M A := fun b => (Ok a, b).

Definition bind {A B} (m : M A) (k : A -> M B) : M B :=
  fun b =>
    match m b with
    | (Ok a, b') => k a b'
    | (Raise e, b') => (Raise e, b')
    | (OutOfFuel, b') => (OutOfFuel, b')
    end.

Definition raise {A} (e : exn) : M A := fun b => (Raise e, b).

(** A pure computation that may raise. *)
Definition lift {A} (r : res A) : M A := fun b => (r, b).

(** [try: m except Exception as e: h e] *)
Definition try_except {A} (m : M A) (h : exn -> M A) : M A :=
  fun b =>
    match m b with
    | (Ok a, b') => (Ok a, b')
    | (Raise e, b') => h e b'
    | (OutOfFuel, b') => (OutOfFuel, b')
    end.

Definition gets {A} (f : bot -> A) : M A := fun b => (Ok (f b), b).

Definition modify (f : bot -> bot) : M unit := fun b => (Ok tt, f b).

Declare Scope py_scope.
Delimit Scope py_scope with py.
Notation "'let*' x ':=' m 'in' k" := (bind m (fun x => k))
  (at level 10, x pattern, m at level 100, k at level 200) : py_scope.
Notation "m ';;' k" := (bind m (fun _ => k))
  (at level 100, k at level 200, right associativity) : py_scope.
Notation "'pass'" := (ret tt) : py_scope.
Local Open Scope py_scope.

(** [x = d[key]] for a key that may be absent. *)
Definition getitem {A} (o : option A) : M A :=
  match o with
  | Some a => ret a
  | None => raise KeyError
  end.

(** Run a handler from a bot; the pair of its outcome and the bot after. *)
Definition run {A} (m : M A) (b : bot) : res A * bot := m b.
Definition after {A} (m : M A) (b : bot) : bot := snd (m b).
Definition outcome {A} (m : M A) (b : bot) : res A := fst (m b).

(** ** The Bot API *)

(** [make_request]: every exception is caught inside and turned into
    [{"ok": False}], so it never raises; what is returned is the ["ok"]
    field of the answer. *)
Definition make_request (e : effect) : M bool :=
  fun b => (Ok (telegram b (length (log b))), set_log b (log b ++ [e])).

Definition send_message (chat_id : string) (text : message)
    (reply_markup : option keyboard) : M bool :=
  make_request (sendMessage chat_id text reply_markup).

Definition send_photo (chat_id : string) (photo : bytes) (caption : message)
    (filename : option string) : M bool :=
  make_request (sendPhoto chat_id photo caption filename).

Definition edit_message_text (chat_id : string) (message_id : Z)
    (text : message) (reply_markup : option keyboard) : M bool :=
  make_request (editMessageText chat_id message_id text reply_markup).

(** [threading.Timer(2.0, lambda: self.show_posts_list(chat_id, user_id)).start()] *)
Definition start_timer (chat_id : string) (user_id : Z) : M unit :=
  modify (fun b => set_log b (log b ++ [Timer_show_posts_list chat_id user_id])).

(** ** The post store *)

(** [ORDER BY scheduled_time]: text sorts before blobs, text by its bytes. *)
Definition bytes_leb (a b : bytes) : bool :=
  String.leb (string_of_list_ascii (map ascii_of_byte a))
             (string_of_list_ascii (map ascii_of_byte b)).

Definition sqltext_leb (a b : sqltext) : bool :=
  match a, b with
  | Text s, Text t => String.leb s t
  | Text _, Blob _ => true
  | Blob _, Text _ => false
  | Blob x, Blob y => bytes_leb x y
  end.

Definition sched_le (p q : Post.t) : Prop :=
  sqltext_leb (Post.scheduled_time p) (Post.scheduled_time q) = true.

#[global] Instance sched_le_dec (p q : Post.t) : Decision (sched_le p q) :=
  decide (sqltext_leb (Post.scheduled_time p) (Post.scheduled_time q) = true).

Definition rowid_max (ps : list Post.t) (z : Z) : Z :=
  fold_right (fun p acc => Z.max (Post.id p) acc) z ps.

(** An [INTEGER] of SQLite has 64 bits.  [sqlite3] binds a Python [int]
    that fits; for one that does not, [execute] raises [OverflowError]
    before the statement runs.  [rowid_limit] is the largest rowid. *)
Definition sqlite_int (z : Z) : bool :=
  (-9223372036854775808 <=? z) && (z <=? 9223372036854775807).

Definition rowid_limit : Z := 9223372036854775807.

(** [add_post]: the new row gets the next [AUTOINCREMENT] id and the column
    defaults [is_posted = 0] and [created_at = CURRENT_TIMESTAMP].  The
    ids below [rowid_limit] are modelled: once [rowid_limit] itself has
    been used SQLite refuses the insert, and what is stated of [add_post]
    itself assumes that it has not. *)
Definition add_post (content : string) (photo_data : option bytes)
    (photo_filename : option string) (scheduled_time : string)
    (is_recurring : bool) (current_timestamp : string) : M Z :=
  fun b =>
    let post_id := rowid_max (posts b) (sqlite_sequence b) + 1 in
    let row := Post.mk post_id content photo_data photo_filename
                 (Text scheduled_time) is_recurring false current_timestamp in
    (Ok post_id,
     Bot (target_chat_id b) (posts b ++ [row]) post_id (authorized_users b)
       (user_states b) (log b) (telegram b)).

(** The sorter of [ORDER BY scheduled_time] takes the rows as the table
    scan delivers them, in rowid order, and keeps rows of equal
    [scheduled_time] in that order: a row goes before the first row whose
    value is not smaller. *)
Fixpoint insert_by_scheduled_time (p : Post.t) (l : list Post.t)
    : list Post.t :=
  match l with
  | [] => [p]
  | q :: l' =>
      if sqltext_leb (Post.scheduled_time p) (Post.scheduled_time q)
      then p :: l
      else q :: insert_by_scheduled_time p l'
  end.

Definition order_by_scheduled_time (l : list Post.t) : list Post.t :=
  fold_right insert_by_scheduled_time [] l.

(** [get_posts]: all rows, or those with [is_posted = 0], ordered by
    [scheduled_time]. *)
Definition get_posts (include_posted : bool) : M (list Post.t) :=
  gets (fun b =>
    order_by_scheduled_time
      (if include_posted then posts b
       else List.filter (fun p => negb (Post.is_posted p)) (posts b))).

(** [delete_post]: [True] when a row was deleted; [post_id] is bound as
    the parameter of the statement. *)
Definition delete_post (post_id : Z) : M bool :=
  fun b =>
    if sqlite_int post_id then
      (Ok (existsb (fun p => Post.id p =? post_id) (posts b)),
       set_posts b
         (List.filter (fun p => negb (Post.id p =? post_id)) (posts b)))
    else (Raise OverflowError, b).

Definition default {A} (o : option A) (a : A) : A :=
  match o with Some x => x | None => a end.

(** [UPDATE posts SET <the fields given> WHERE id = ?] on one row. *)
Definition set_fields (kw : Fields.t) (p : Post.t) : Post.t :=
  Post.mk (Post.id p)
    (default (Fields.content kw) (Post.content p))
    (default (Fields.photo_data kw) (Post.photo_data p))
    (default (Fields.photo_filename kw) (Post.photo_filename p))
    (match Fields.scheduled_time kw with
     | Some s => Text s
     | None => Post.scheduled_time p
     end)
    (default (Fields.is_recurring kw) (Post.is_recurring p))
    (default (Fields.is_posted kw) (Post.is_posted p))
    (Post.created_at p).

(** [update_post]: [False] without keyword arguments, else whether a row
    had the id.  The ids with [sqlite_int post_id] are modelled: binding
    another raises as in [delete_post], and what is stated of
    [update_post] itself assumes that the id can be bound. *)
Definition update_post (post_id : Z) (kw : Fields.t) : M bool :=
  if Fields.is_empty kw then ret false
  else fun b =>
    (Ok (existsb (fun p => Post.id p =? post_id) (posts b)),
     set_posts b
       (map (fun p => if Post.id p =? post_id then set_fields kw p else p)
          (posts b))).

(** [mark_post_as_posted]: [self.update_post(post_id, is_posted=1)] *)
Definition mark_post_as_posted (post_id : Z) : M unit :=
  update_post post_id
    (Fields.mk None None None None None (Some true)) ;;
  pass.

(** [is_user_authorized] *)
Definition is_user_authorized (user_id : Z) : M bool :=
  gets (fun b => bool_decide (user_id ∈ authorized_users b)).

(** ** Python truthiness *)

Definition truthy_int (o : option Z) : bool :=
  match o with Some z => negb (z =? 0) | None => false end.

Definition truthy_str (o : option string) : bool :=
  match o with Some "" | None => false | Some _ => true end%string.

Definition truthy_bytes (o : option bytes) : bool :=
  match o with Some [] | None => false | Some _ => true end.

Definition nonempty (s : string) : bool := truthy_str (Some s).

(** [chat_id.startswith('-')]: a group or a channel *)
Definition is_group (chat_id : string) : bool := String.prefix "-" chat_id.

(** ** The calendar widget *)

Fixpoint res_map {A B} (f : A -> res B) (l : list A) : res (list B) :=
  match l with
  | [] => Ok []
  | x :: l' =>
      res_bind (f x) (fun y => res_bind (res_map f l') (fun ys => Ok (y :: ys)))
  end.

(** [month_names[month-1]] on the list of twelve names: only the index
    matters, and Python accepts -12 .. 11. *)
Definition month_names_index (month : Z) : res unit :=
  if (-12 <=? month - 1) && (month - 1 <=? 11) then Ok tt else Raise IndexError.

Definition weekday_row : list button :=
  map (fun day => Button (L_weekday day) cal_ignore)
    ["Mo"; "Tu"; "We"; "Th"; "Fr"; "Sa"; "Su"]%string.

(** The body of [for day in week]: one cell. *)
Definition day_cell (today : date) (year month : Z) (selected_day : option Z)
    (day : Z) : res button :=
  if day =? 0 then Ok (Button L_blank cal_ignore)
  else
    res_bind (date_new year month day) (fun day_date =>
    if date_lt day_date today then
      Ok (Button (L_past day) cal_ignore)
    else if bool_decide (Some day = selected_day) then
      Ok (Button (L_selected day) (cal_day_ year month day))
    else
      Ok (Button (L_day day) (cal_day_ year month day))).

Definition control_row (year month : Z) (selected_day : option Z) : list button :=
  (if truthy_int selected_day
   then [Button L_confirm_date (cal_confirm_ year month (default selected_day 0))]
   else [])
  ++ [Button L_cancel cal_cancel].

(** [generate_calendar(year, month, selected_day=None)]; [today] is
    [datetime.date.today()]. *)
Definition generate_calendar (today : date) (year month : Z)
    (selected_day : option Z) : res keyboard :=
  let prev_month := if 1 <? month then month - 1 else 12 in
  let prev_year := if 1 <? month then year else year - 1 in
  let next_month := if month <? 12 then month + 1 else 1 in
  let next_year := if month <? 12 then year else year + 1 in
  res_bind (month_names_index month) (fun _ =>
  let nav_row :=
    [Button L_prev (cal_nav_ prev_year prev_month);
     Button (L_month_year month year) cal_ignore;
     Button L_next (cal_nav_ next_year next_month)] in
  res_bind (PyCalendar.monthcalendar year month) (fun cal =>
  res_bind (res_map (res_map (day_cell today year month selected_day)) cal)
    (fun week_rows =>
  Ok ([nav_row; weekday_row] ++ week_rows
      ++ [control_row year month selected_day])))).

(** ** The time picker widget *)

Definition quick_times : list Z := [8; 9; 10; 11; 12; 14; 16; 18; 20; 21; 22].
Definition quick_minutes : list Z := [0; 30].

Definition in_list (z : Z) (l : list Z) : bool := existsb (Z.eqb z) l.

Definition quick_rows : keyboard :=
  [ [Button (L_quick "08:00") (time_quick_ 8 0);
     Button (L_quick "08:30") (time_quick_ 8 30);
     Button (L_quick "09:00") (time_quick_ 9 0);
     Button (L_quick "09:30") (time_quick_ 9 30)];
    [Button (L_quick "10:00") (time_quick_ 10 0);
     Button (L_quick "10:30") (time_quick_ 10 30);
     Button (L_quick "11:00") (time_quick_ 11 0);
     Button (L_quick "11:30") (time_quick_ 11 30)];
    [Button (L_quick "12:00") (time_quick_ 12 0);
     Button (L_quick "12:30") (time_quick_ 12 30);
     Button (L_quick "14:00") (time_quick_ 14 0);
     Button (L_quick "14:30") (time_quick_ 14 30)];
    [Button (L_quick "16:00") (time_quick_ 16 0);
     Button (L_quick "16:30") (time_quick_ 16 30);
     Button (L_quick "18:00") (time_quick_ 18 0);
     Button (L_quick "18:30") (time_quick_ 18 30)];
    [Button (L_quick "20:00") (time_quick_ 20 0);
     Button (L_quick "20:30") (time_quick_ 20 30);
     Button (L_quick "21:00") (time_quick_ 21 0);
     Button (L_quick "21:30") (time_quick_ 21 30)];
    [Button (L_quick "22:00") (time_quick_ 22 0);
     Button (L_quick "22:30") (time_quick_ 22 30);
     Button L_now time_quick_now] ].

Definition adjust_row (hour minute : Z) : list button :=
  [Button L_hour_minus (time_hour_dec_ hour minute);
   Button L_hour_plus (time_hour_inc_ hour minute);
   Button L_min_minus (time_min_dec_ hour minute);
   Button L_min_plus (time_min_inc_ hour minute)].

(** [generate_time_picker(hour=12, minute=0)] *)
Definition generate_time_picker (hour minute : Z) : keyboard :=
  [[Button (L_time_selected hour minute) time_ignore]]
  ++ quick_rows
  ++ (if negb (in_list hour quick_times) || negb (in_list minute quick_minutes)
      then [adjust_row hour minute] else [])
  ++ [[Button L_confirm_time (time_confirm_ hour minute);
       Button L_cancel time_cancel]].

(** ** The clock

    What a handler reads from the system while it runs:
    [datetime.datetime.now()], [datetime.date.today()] and SQLite's
    [CURRENT_TIMESTAMP]. *)
Record clock : Type := Clock {
  now : datetime;
  today : date;
  current_timestamp : string
}.

(** [f"{z:02d}"] *)
Definition pad2 (z : Z) : string :=
  if (0 <=? z) && (z <? 10) then ("0" +:+ pretty z)%string else pretty z.

(** [f"{year}-{month:02d}-{day:02d}"] *)
Definition format_ymd (year month day : Z) : string :=
  (pretty year +:+ "-" +:+ pad2 month +:+ "-" +:+ pad2 day)%string.

(** ** The conversation state machine *)

Section Handlers.

Context {lib : PyLib}.

(** The access gate and the command table are collaborators outside the
    modelled core: [_handle_password_attempt] and the branch of
    [process_message] taken for a line that starts with ["/"]
    ([process_command]). *)
Variable _handle_password_attempt : string -> Z -> string -> M unit.
Variable process_command : string -> Z -> string -> M unit.

Variable clk : clock.

Definition lookup_session (user_id : Z) : M (option user_state) :=
  gets (fun b => user_states b !! user_id).

(** Assignments through [user_state] and [post_data] mutate the dict that
    [self.user_states] holds. *)
Definition mutate_session (user_id : Z) (f : user_state -> user_state) : M unit :=
  modify (fun b => set_user_states b (alter f user_id (user_states b))).

Definition set_state (st : state_name) (u : user_state) : user_state :=
  UserState st (post_data u) (post_id u) (message_id u) (selected_date u).

Definition set_selected_date (d : string) (u : user_state) : user_state :=
  UserState (state u) (post_data u) (post_id u) (message_id u) (Some d).

Definition mutate_draft (f : Draft.t -> Draft.t) (u : user_state) : user_state :=
  UserState (state u) (f <$> post_data u) (post_id u) (message_id u)
    (selected_date u).

Definition draft_set_content (c : string) (d : Draft.t) : Draft.t :=
  Draft.mk (Some c) (Draft.photo_data d) (Draft.photo_filename d)
    (Draft.selected_date d) (Draft.scheduled_time d).

Definition draft_set_photo (ph : bytes) (fn : string) (d : Draft.t) : Draft.t :=
  Draft.mk (Draft.content d) (Some ph) (Some fn)
    (Draft.selected_date d) (Draft.scheduled_time d).

Definition draft_set_selected_date (sd : string) (d : Draft.t) : Draft.t :=
  Draft.mk (Draft.content d) (Draft.photo_data d) (Draft.photo_filename d)
    (Some sd) (Draft.scheduled_time d).

Definition draft_set_scheduled_time (t : string) (d : Draft.t) : Draft.t :=
  Draft.mk (Draft.content d) (Draft.photo_data d) (Draft.photo_filename d)
    (Draft.selected_date d) (Some t).

(** [del self.user_states[user_id]] *)
Definition del_session (user_id : Z) : M unit :=
  fun b =>
    match user_states b !! user_id with
    | Some _ => (Ok tt, set_user_states b (delete user_id (user_states b)))
    | None => (Raise KeyError, b)
    end.

(** [if user_id in self.user_states: del self.user_states[user_id]] *)
Definition discard_session (user_id : Z) : M unit :=
  modify (fun b => set_user_states b (delete user_id (user_states b))).

Definition _handle_unauthorized_user (chat_id : string) (user_id : Z) : M unit :=
  if negb (is_group chat_id) then
    modify (fun b => set_user_states b
      (<[user_id := UserState waiting_for_password None None None None]>
         (user_states b))) ;;
    send_message chat_id M_access_required None ;;
    pass
  else pass.

Definition start_add_post_flow (chat_id : string) (user_id : Z) : M unit :=
  if is_group chat_id then pass
  else
    modify (fun b => set_user_states b
      (<[user_id := UserState waiting_for_content (Some Draft.empty)
                      None None None]> (user_states b))) ;;
    send_message chat_id M_step1 (Some [[Button L_skip_text skip_text]]) ;;
    pass.

Definition delete_button (p : Post.t) : keyboard :=
  [[Button (L_delete_post (Post.id p)) (delete_ (Post.id p))]].

(** The body of the loop of [show_posts_list]. *)
Definition show_post (chat_id : string) (p : Post.t) : M unit :=
  if truthy_bytes (Post.photo_data p) && nonempty (Post.content p) then
    send_photo chat_id (default (Post.photo_data p) []) (M_post_with_info p)
      (Post.photo_filename p) ;;
    send_message chat_id M_manage_this_post (Some (delete_button p)) ;;
    pass
  else if truthy_bytes (Post.photo_data p) then
    send_photo chat_id (default (Post.photo_data p) []) (M_post_info p)
      (Post.photo_filename p) ;;
    send_message chat_id M_manage_this_post (Some (delete_button p)) ;;
    pass
  else
    send_message chat_id (M_post_with_info p) (Some (delete_button p)) ;;
    pass.

Fixpoint for_each {A} (l : list A) (body : A -> M unit) : M unit :=
  match l with
  | [] => pass
  | x :: l' => body x ;; for_each l' body
  end.

Definition show_posts_list (chat_id : string) (user_id : Z) : M unit :=
  if is_group chat_id then pass
  else
    let* ps := get_posts false in
    match ps with
    | [] => send_message chat_id M_no_posts None ;; pass
    | _ =>
        send_message chat_id (M_list_header (Z.of_nat (length ps))) None ;;
        for_each (take 10 ps) (show_post chat_id) ;;
        (if (10 <? Z.of_nat (length ps))
         then send_message chat_id (M_remaining (Z.of_nat (length ps) - 10)) None ;; pass
         else pass) ;;
        send_message chat_id M_create_new
          (Some [[Button L_add_new_post add_new]]) ;;
        pass
    end.

Definition recurring_markup : keyboard :=
  [[Button L_recurring_yes recurring_yes; Button L_recurring_no recurring_no]].

Definition _show_calendar_for_scheduling (chat_id : string) (user_id : Z)
    (text : message) : M unit :=
  let* calendar_markup :=
    lift (generate_calendar (today clk) (year (now clk)) (month (now clk)) None) in
  send_message chat_id text (Some calendar_markup) ;;
  pass.

Definition _show_time_picker_for_scheduling (chat_id : string) (user_id : Z)
    (selected_date : date) (message_id : option Z) : M unit :=
  let default_hour := if hour (now clk) <? 23 then hour (now clk) + 1 else 12 in
  let default_minute := 0 in
  let time_markup := generate_time_picker default_hour default_minute in
  if truthy_int message_id then
    edit_message_text chat_id (default message_id 0)
      (M_step3_time selected_date) (Some time_markup) ;; pass
  else
    send_message chat_id (M_step3_time selected_date) (Some time_markup) ;; pass.

Definition finish_add_post (chat_id : string) (user_id : Z)
    (is_recurring : bool) : M unit :=
  let* user_state := lookup_session user_id in
  match user_state with
  | None => pass
  | Some user_state =>
      let* post_data := getitem (post_data user_state) in
      (* Validate we have either content or photo *)
      let has_content := truthy_str (Draft.content post_data) in
      let has_photo := truthy_bytes (Draft.photo_data post_data) in
      if negb has_content && negb has_photo then
        send_message chat_id M_validation_error None ;; pass
      else
        try_except
          (let* scheduled_time := getitem (Draft.scheduled_time post_data) in
           let* post_id :=
             add_post (default (Draft.content post_data) "")
               (Draft.photo_data post_data) (Draft.photo_filename post_data)
               scheduled_time is_recurring (current_timestamp clk) in
           (* Clear user state *)
           del_session user_id ;;
           let* display_time :=
             lift (or_raise ValueError (fromisoformat scheduled_time)) in
           send_message chat_id
             (M_created post_id display_time is_recurring post_data) None ;;
           pass)
          (fun e => send_message chat_id (M_save_error e) None ;; pass)
  end.

Definition _handle_edit_time_confirm_now (chat_id : string) (user_id : Z)
    (message_id : Z) : M unit :=
  let* user_state := lookup_session user_id in
  match user_state with
  | Some (UserState editing_time _ pid _ _) =>
      let* post_id := getitem pid in
      let* updated :=
        update_post post_id
          (Fields.mk None None None (Some (isoformat (now clk))) None None) in
      (if updated
       then edit_message_text chat_id message_id M_scheduled_immediately None
       else edit_message_text chat_id message_id (M_update_failed post_id) None) ;;
      del_session user_id ;;
      start_timer chat_id user_id
  | _ => pass
  end.

Definition _handle_time_confirm_now (chat_id : string) (user_id : Z)
    (message_id : Z) : M unit :=
  let* user_state := lookup_session user_id in
  match user_state with
  | None => pass
  | Some user_state =>
      match post_data user_state with
      | Some _ =>
          (* New post creation *)
          let scheduled_time := isoformat (now clk) in
          mutate_session user_id
            (mutate_draft (draft_set_scheduled_time scheduled_time)) ;;
          (* Move to recurring step *)
          mutate_session user_id (set_state waiting_for_recurring) ;;
          edit_message_text chat_id message_id M_step4_now
            (Some recurring_markup) ;;
          pass
      | None =>
          (* Edit operation *)
          _handle_edit_time_confirm_now chat_id user_id message_id
      end
  end.

Definition _handle_edit_time_confirm (chat_id : string) (user_id : Z)
    (message_id : Z) (hour minute : Z) : M unit :=
  let* user_state := lookup_session user_id in
  match user_state with
  | Some (UserState editing_time _ pid _ sel) =>
      let* post_id := getitem pid in
      if negb (truthy_str sel) then
        edit_message_text chat_id message_id M_no_date_selected None ;; pass
      else
        try_except
          (let* date_obj :=
             lift (or_raise ValueError (strptime_ymd (default sel ""))) in
           let* scheduled_datetime :=
             lift (replace_hour_minute date_obj hour minute) in
           (* Check if in the past *)
           let* past := lift (dt_lt scheduled_datetime (now clk)) in
           if past then
             edit_message_text chat_id message_id M_past_time None ;; pass
           else
             let* updated :=
               update_post post_id
                 (Fields.mk None None None
                    (Some (isoformat scheduled_datetime)) None None) in
             (if updated
              then edit_message_text chat_id message_id
                     (M_rescheduled post_id scheduled_datetime) None
              else edit_message_text chat_id message_id
                     (M_update_failed post_id) None) ;;
             del_session user_id ;;
             start_timer chat_id user_id)
          (fun e =>
             edit_message_text chat_id message_id (M_datetime_error e) None ;;
             pass)
  | _ => pass
  end.

Definition _handle_time_confirm (chat_id : string) (user_id : Z)
    (message_id : Z) (hour minute : Z) : M unit :=
  let* user_state := lookup_session user_id in
  match user_state with
  | None => pass
  | Some user_state =>
      match post_data user_state with
      | Some post_data =>
          (* New post creation *)
          let selected_date := Draft.selected_date post_data in
          if negb (truthy_str selected_date) then
            edit_message_text chat_id message_id M_no_date_selected None ;; pass
          else
            (* Combine date and time *)
            try_except
              (let* date_obj :=
                 lift (or_raise ValueError
                         (strptime_ymd (default selected_date ""))) in
               let* scheduled_datetime :=
                 lift (replace_hour_minute date_obj hour minute) in
               (* Check if in the past *)
               let* past := lift (dt_lt scheduled_datetime (now clk)) in
               if past then
                 edit_message_text chat_id message_id M_past_time None ;; pass
               else
                 mutate_session user_id
                   (mutate_draft
                      (draft_set_scheduled_time (isoformat scheduled_datetime))) ;;
                 (* Move to recurring step *)
                 mutate_session user_id (set_state waiting_for_recurring) ;;
                 edit_message_text chat_id message_id
                   (M_step4 scheduled_datetime) (Some recurring_markup) ;;
                 pass)
              (fun e =>
                 edit_message_text chat_id message_id (M_datetime_error e) None ;;
                 pass)
      | None =>
          (* Edit operation *)
          _handle_edit_time_confirm chat_id user_id message_id hour minute
      end
  end.

(** [[p for p in self.get_posts(include_posted=True) if p['id'] == post_id]] *)
Definition posts_with_id (post_id : Z) : M (list Post.t) :=
  let* ps := get_posts true in
  ret (List.filter (fun p => Post.id p =? post_id) ps).

(** [fromisoformat(post['scheduled_time'])]: the column value is passed
    as it is, and a [bytes] argument is a [TypeError]. *)
Definition parse_scheduled_time (v : sqltext) : res datetime :=
  match v with
  | Text s => or_raise ValueError (fromisoformat s)
  | Blob _ => Raise TypeError
  end.

Definition _handle_calendar_edit_confirm (chat_id : string) (user_id : Z)
    (message_id : Z) (year month day : Z) : M unit :=
  let* user_state := lookup_session user_id in
  match user_state with
  | Some (UserState editing_time _ pid _ _) =>
      mutate_session user_id (set_selected_date (format_ymd year month day)) ;;
      let* selected_date := lift (date_new year month day) in
      let* post_id := getitem pid in
      let* posts := posts_with_id post_id in
      let '(default_hour, default_minute) :=
        match posts with
        | p :: _ =>
            match parse_scheduled_time (Post.scheduled_time p) with
            | Ok current_time => (hour current_time, minute current_time)
            | _ => (12, 0)
            end
        | [] => (12, 0)
        end in
      edit_message_text chat_id message_id
        (M_edit_time_picker post_id selected_date)
        (Some (generate_time_picker default_hour default_minute)) ;;
      pass
  | _ => pass
  end.

Definition handle_delete_post (chat_id : string) (user_id : Z)
    (message_id : Z) (post_id : Z) : M unit :=
  let* posts := posts_with_id post_id in
  match posts with
  | [] => edit_message_text chat_id message_id (M_not_found post_id) None ;; pass
  | post :: _ =>
      edit_message_text chat_id message_id (M_delete_confirm post)
        (Some [[Button L_yes_delete (confirm_delete_ post_id);
                Button L_cancel (cancel_delete_ post_id)]]) ;;
      pass
  end.

Definition is_editing (st : state_name) : bool :=
  match st with
  | editing_text | editing_photo | editing_time | editing_post => true
  | _ => false
  end.

(** [message_text.lower().strip() == word] *)
Definition says (message_text word : string) : bool :=
  String.eqb (str_strip (str_lower message_text)) word.

(** [_handle_edit_message]: [True] when the message was consumed by an
    edit in progress. *)
Definition _handle_edit_message (chat_id : string) (user_id : Z)
    (message_text : string) (photo_data : option bytes)
    (photo_filename : option string) : M bool :=
  let* user_state := lookup_session user_id in
  match user_state with
  | None => ret false
  | Some user_state =>
      if negb (is_editing (state user_state)) then ret false
      else
        let* post_id := getitem (post_id user_state) in
        let finish : M bool :=
          (* Clear user state and return to post list *)
          del_session user_id ;;
          start_timer chat_id user_id ;;
          ret true in
        let report (updated : bool) (success_msg : message) : M unit :=
          (if updated then send_message chat_id success_msg None
           else send_message chat_id (M_update_failed post_id) None) ;;
          pass in
        match state user_state with
        | editing_text =>
            let '(new_content, success_msg) :=
              if says message_text "delete"
              then (""%string, M_text_removed)
              else (message_text, M_text_updated) in
            let* updated :=
              update_post post_id
                (Fields.mk (Some new_content) None None None None None) in
            report updated success_msg ;;
            finish
        | editing_photo =>
            if says message_text "delete" then
              let* updated :=
                update_post post_id
                  (Fields.mk None (Some None) (Some None) None None None) in
              report updated M_photo_removed ;;
              finish
            else if truthy_bytes photo_data then
              let* updated :=
                update_post post_id
                  (Fields.mk None (Some photo_data) (Some photo_filename)
                     None None None) in
              report updated M_photo_updated ;;
              finish
            else
              send_message chat_id M_send_photo_or_delete None ;;
              ret true
        | editing_time =>
            send_message chat_id M_use_calendar_edit None ;;
            ret true
        | _ => finish
        end
  end.

Definition skip_photo_markup : keyboard := [[Button L_skip_photo skip_photo]].

(** [process_message]: one incoming message, dispatched on the user's
    state. *)
Definition process_message (chat_id : string) (user_id : Z)
    (message_text : string) (photo_data : option bytes)
    (photo_filename : option string) : M unit :=
  let* user_state := lookup_session user_id in
  if match user_state with
     | Some u => match state u with waiting_for_password => true | _ => false end
     | None => false
     end
  then _handle_password_attempt chat_id user_id message_text
  else
    let* edited :=
      _handle_edit_message chat_id user_id message_text photo_data
        photo_filename in
    if edited then pass
    else
      match user_state with
      | None =>
          (* No active state, treat as command *)
          if String.prefix "/" message_text then
            process_command chat_id user_id message_text
          else
            let* authorized := is_user_authorized user_id in
            if negb authorized then
              if is_group chat_id then pass
              else _handle_unauthorized_user chat_id user_id
            else if negb (is_group chat_id) then
              send_message chat_id M_use_help None ;; pass
            else pass
      | Some user_state =>
          let current_state := state user_state in
          let* post_data := getitem (post_data user_state) in
          match current_state with
          | waiting_for_content =>
              (* Step 1: Get content/caption *)
              let content :=
                if says message_text "skip" then ""%string else message_text in
              mutate_session user_id (mutate_draft (draft_set_content content)) ;;
              (* Move to photo step *)
              mutate_session user_id (set_state waiting_for_photo) ;;
              send_message chat_id (M_step2 content) (Some skip_photo_markup) ;;
              pass
          | waiting_for_photo =>
              (* Step 2: Get photo (optional) *)
              if truthy_bytes photo_data then
                mutate_session user_id
                  (mutate_draft
                     (draft_set_photo (default photo_data [])
                        (if truthy_str photo_filename
                         then default photo_filename ""
                         else "photo.jpg"))) ;;
                mutate_session user_id (set_state waiting_for_schedule) ;;
                _show_calendar_for_scheduling chat_id user_id
                  M_step3_calendar_photo_added
              else if says message_text "skip" then
                mutate_session user_id (set_state waiting_for_schedule) ;;
                _show_calendar_for_scheduling chat_id user_id
                  M_step3_calendar_no_photo
              else
                send_message chat_id M_send_photo_or_skip None ;; pass
          | waiting_for_schedule =>
              (* Step 3: Use calendar interface *)
              send_message chat_id M_use_calendar None ;; pass
          | waiting_for_recurring =>
              (* Step 4: Get recurring preference *)
              let is_recurring :=
                existsb (says message_text) ["yes"; "y"; "daily"; "repeat"]%string in
              (* Create the post *)
              finish_add_post chat_id user_id is_recurring
          | _ => pass
          end
      end.

(** The fields of a [callback_query] update that the handler reads. *)
Record callback_query : Type := CallbackQuery {
  cq_id : string;
  cq_data : callback;
  cq_chat_id : string;
  cq_from_id : Z;
  cq_message_id : Z
}.

(** [callback_data.startswith(('delete_', 'confirm_delete_', 'cancel_delete_'))] *)
Definition is_delete_callback (c : callback) : bool :=
  match c with
  | delete_ _ | confirm_delete_ _ | cancel_delete_ _ => true
  | _ => false
  end.

(** [callback_data.startswith(('cal_', 'time_', 'recurring_', 'skip_'))] *)
Definition is_widget_callback (c : callback) : bool :=
  match c with
  | add_new | delete_ _ | confirm_delete_ _ | cancel_delete_ _
  | back_to_list => false
  | _ => true
  end.

(** The [if]/[elif] chain of [process_callback_query]. *)
Definition dispatch_callback (query_id chat_id : string) (user_id : Z)
    (message_id : Z) (callback_data : callback) : M unit :=
  match callback_data with
  | add_new => start_add_post_flow chat_id user_id
  | delete_ post_id => handle_delete_post chat_id user_id message_id post_id
  | recurring_yes => finish_add_post chat_id user_id true
  | recurring_no => finish_add_post chat_id user_id false
  | skip_text =>
      let* user_state := lookup_session user_id in
      match user_state ≫= post_data with
      | Some _ =>
          mutate_session user_id (mutate_draft (draft_set_content "")) ;;
          mutate_session user_id (set_state waiting_for_photo) ;;
          edit_message_text chat_id message_id M_step2_skipped
            (Some skip_photo_markup) ;;
          pass
      | None =>
          make_request (answerCallbackQuery query_id (Some M_start_over)) ;; pass
      end
  | skip_photo =>
      let* user_state := lookup_session user_id in
      match user_state ≫= post_data with
      | Some _ =>
          mutate_session user_id (set_state waiting_for_schedule) ;;
          _show_calendar_for_scheduling chat_id user_id M_step3_calendar_no_photo
      | None =>
          make_request (answerCallbackQuery query_id (Some M_start_over)) ;; pass
      end
  | confirm_delete_ post_id =>
      let* deleted := delete_post post_id in
      if deleted then
        edit_message_text chat_id message_id (M_deleted post_id) None ;;
        start_timer chat_id user_id
      else
        edit_message_text chat_id message_id (M_delete_failed post_id) None ;;
        pass
  | cancel_delete_ _ => show_posts_list chat_id user_id
  | back_to_list =>
      discard_session user_id ;;
      show_posts_list chat_id user_id
  (* Calendar navigation callbacks *)
  | cal_nav_ year month =>
      let* calendar_markup :=
        lift (generate_calendar (today clk) year month None) in
      edit_message_text chat_id message_id M_current (Some calendar_markup) ;;
      pass
  | cal_day_ year month day =>
      let* calendar_markup :=
        lift (generate_calendar (today clk) year month (Some day)) in
      edit_message_text chat_id message_id M_current (Some calendar_markup) ;;
      pass
  | cal_confirm_ year month day =>
      let* user_state := lookup_session user_id in
      match user_state ≫= post_data with
      | Some _ =>
          mutate_session user_id
            (mutate_draft (draft_set_selected_date (format_ymd year month day))) ;;
          let* selected_date := lift (date_new year month day) in
          _show_time_picker_for_scheduling chat_id user_id selected_date
            (Some message_id)
      | None =>
          _handle_calendar_edit_confirm chat_id user_id message_id year month day
      end
  | cal_cancel =>
      let* user_state := lookup_session user_id in
      match user_state ≫= post_data with
      | Some _ =>
          del_session user_id ;;
          edit_message_text chat_id message_id M_cancelled None ;;
          pass
      | None =>
          discard_session user_id ;;
          show_posts_list chat_id user_id
      end
  | cal_ignore => pass
  (* Time picker callbacks *)
  | time_hour_inc_ hour minute =>
      let hour := (hour + 1) mod 24 in
      edit_message_text chat_id message_id M_current
        (Some (generate_time_picker hour minute)) ;;
      pass
  | time_hour_dec_ hour minute =>
      let hour := (hour - 1) mod 24 in
      edit_message_text chat_id message_id M_current
        (Some (generate_time_picker hour minute)) ;;
      pass
  | time_min_inc_ hour minute =>
      let minute := (minute + 30) mod 60 in
      edit_message_text chat_id message_id M_current
        (Some (generate_time_picker hour minute)) ;;
      pass
  | time_min_dec_ hour minute =>
      let minute := (minute - 30) mod 60 in
      edit_message_text chat_id message_id M_current
        (Some (generate_time_picker hour minute)) ;;
      pass
  | time_quick_now => _handle_time_confirm_now chat_id user_id message_id
  | time_quick_ hour minute =>
      _handle_time_confirm chat_id user_id message_id hour minute
  | time_confirm_ hour minute =>
      _handle_time_confirm chat_id user_id message_id hour minute
  | time_cancel =>
      let* user_state := lookup_session user_id in
      match user_state ≫= post_data with
      | Some _ =>
          let* calendar_markup :=
            lift (generate_calendar (today clk) (year (now clk))
                    (month (now clk)) None) in
          edit_message_text chat_id message_id M_step3_calendar_again
            (Some calendar_markup) ;;
          pass
      | None =>
          discard_session user_id ;;
          show_posts_list chat_id user_id
      end
  | time_ignore => pass
  end.

Definition process_callback_query (q : callback_query) : M unit :=
  let query_id := cq_id q in
  let callback_data := cq_data q in
  let chat_id := cq_chat_id q in
  let user_id := cq_from_id q in
  let message_id := cq_message_id q in
  (* Answer callback query to remove loading state *)
  make_request (answerCallbackQuery query_id None) ;;
  if is_delete_callback callback_data && is_group chat_id then pass
  else
    let* authorized := is_user_authorized user_id in
    if negb (is_widget_callback callback_data) && negb authorized then
      if is_group chat_id then pass
      else _handle_unauthorized_user chat_id user_id
    else dispatch_callback query_id chat_id user_id message_id callback_data.

(** ** The publish scheduler *)

(** [while next_time.weekday() >= 5: next_time += timedelta(days=1)] *)
Fixpoint skip_weekend (fuel : nat) (next_time : datetime) : res datetime :=
  if 5 <=? weekday next_time then
    match fuel with
    | O => OutOfFuel
    | S fuel' =>
        res_bind (add_days next_time 1) (skip_weekend fuel')
    end
  else Ok next_time.

(** [_get_next_weekday]: a week always holds a weekday, seven rounds of
    the loop are more than it can take. *)
Definition _get_next_weekday (current_time : datetime) : res datetime :=
  (* Start with tomorrow *)
  res_bind (add_days current_time 1) (fun next_time =>
  (* Keep adding days until we find a weekday (Monday=0, Sunday=6) *)
  skip_weekend 7 next_time).

(** The [try] block that schedules the next occurrence of a recurring
    post. *)
Definition reschedule (post : Post.t) : M unit :=
  let* current_time := lift (parse_scheduled_time (Post.scheduled_time post)) in
  let* next_time := lift (_get_next_weekday current_time) in
  (* Update the scheduled time for next occurrence *)
  update_post (Post.id post)
    (Fields.mk None None None (Some (isoformat next_time)) None (Some false)) ;;
  pass.

(** The request that publishes a post: photo with caption, photo only,
    or text only. *)
Definition send_post (post : Post.t) : M bool :=
  let* target := gets target_chat_id in
  let content := Post.content post in
  let photo_data := Post.photo_data post in
  if truthy_bytes photo_data && nonempty content then
    send_photo target (default photo_data []) (M_content content)
      (Post.photo_filename post)
  else if truthy_bytes photo_data then
    send_photo target (default photo_data []) (M_content "")
      (Post.photo_filename post)
  else
    send_message target (M_content content) None.

Definition _publish_post (post : Post.t) : M unit :=
  try_except
    (let post_id := Post.id post in
     let* ok := send_post post in
     if ok then
       (* Handle recurring posts *)
       if Post.is_recurring post then
         try_except (reschedule post)
           (fun e =>
              (* Mark as posted anyway to prevent infinite retries *)
              mark_post_as_posted post_id)
       else
         (* Mark one-time post as completed *)
         mark_post_as_posted post_id
     else pass)
    (fun e => pass).

(** The body of the loop of [_check_and_publish_posts]. *)
Definition check_post (post : Post.t) : M unit :=
  try_except
    (match Post.scheduled_time post with
     | Blob _ => pass     (* not a str: continue *)
     | Text s =>
         let* scheduled_time := lift (or_raise ValueError (fromisoformat s)) in
         (* Check if it's time to publish *)
         let* due := lift (dt_le scheduled_time (now clk)) in
         if due then _publish_post post else pass
     end)
    (fun e => pass).

Definition _check_and_publish_posts : M unit :=
  (* Get all unpublished posts *)
  let* posts := get_posts false in
  for_each posts check_post.

End Handlers.

(** ** A small instance of the library

    ASCII case folding and white space, and timestamps written
    [YYYY-MM-DDTHH:MM:SS]; it serves to run the model on concrete data. *)

Module AsciiLib.

Definition lower_ascii (c : ascii) : ascii :=
  let n := N_of_ascii c in
  if ((65 <=? n) && (n <=? 90))%N then ascii_of_N (n + 32) else c.

Fixpoint lower (s : string) : string :=
  match s with
  | EmptyString => EmptyString
  | String c s' => String (lower_ascii c) (lower s')
  end.

Definition is_space (c : ascii) : bool :=
  let n := N_of_ascii c in
  (((9 <=? n) && (n <=? 13)) || (n =? 32))%N.

Fixpoint lstrip (s : string) : string :=
  match s with
  | String c s' => if is_space c then lstrip s' else s
  | EmptyString => EmptyString
  end.

Fixpoint rev_onto (s acc : string) : string :=
  match s with
  | EmptyString => acc
  | String c s' => rev_onto s' (String c acc)
  end.

Definition strip (s : string) : string :=
  rev_onto (lstrip (rev_onto (lstrip s) EmptyString)) EmptyString.

Definition digit (c : ascii) : option Z :=
  let n := N_of_ascii c in
  if ((48 <=? n) && (n <=? 57))%N then Some (Z.of_N n - 48) else None.

(** The number written by the first [width] characters, all digits, and
    the rest of the string. *)
Fixpoint number (width : nat) (acc : Z) (s : string) : option (Z * string) :=
  match width with
  | O => Some (acc, s)
  | S w =>
      match s with
      | String c s' =>
          match digit c with
          | Some d => number w (acc * 10 + d) s'
          | None => None
          end
      | EmptyString => None
      end
  end.

Definition expect (c : ascii) (s : string) : option string :=
  match s with
  | String c' s' => if Ascii.eqb c c' then Some s' else None
  | EmptyString => None
  end.

Definition parse_date (s : string) : option (Z * Z * Z * string) :=
  '(y, s) ← number 4 0 s;
  s ← expect "-" s;
  '(m, s) ← number 2 0 s;
  s ← expect "-" s;
  '(d, s) ← number 2 0 s;
  Some (y, m, d, s).

Definition checked (y m d h mi sec : Z) : option datetime :=
  if check_date_fields y m d && check_time_fields h mi sec 0
  then Some (mkdatetime y m d h mi sec 0 None)
  else None.

Definition parse_iso (s : string) : option datetime :=
  match
    ('(y, m, d, s) ← parse_date s;
     s ← expect "T" s;
     '(h, s) ← number 2 0 s;
     s ← expect ":" s;
     '(mi, s) ← number 2 0 s;
     s ← expect ":" s;
     '(sec, s) ← number 2 0 s;
     Some (y, m, d, h, mi, sec, s))
  with
  | Some (y, m, d, h, mi, sec, EmptyString) => checked y m d h mi sec
  | _ => None
  end.

Definition parse_ymd (s : string) : option datetime :=
  match parse_date s with
  | Some (y, m, d, EmptyString) => checked y m d 0 0 0
  | _ => None
  end.

Definition pad4 (z : Z) : string :=
  if z <? 10 then ("000" +:+ pretty z)%string
  else if z <? 100 then ("00" +:+ pretty z)%string
  else if z <? 1000 then ("0" +:+ pretty z)%string
  else pretty z.

Definition print_iso (t : datetime) : string :=
  (pad4 (year t) +:+ "-" +:+ pad2 (month t) +:+ "-" +:+ pad2 (day t)
   +:+ "T" +:+ pad2 (hour t) +:+ ":" +:+ pad2 (minute t)
   +:+ ":" +:+ pad2 (second t))%string.

Definition lib : PyLib :=
  {| str_lower := lower;
     str_strip := strip;
     fromisoformat := parse_iso;
     isoformat := print_iso;
     strptime_ymd := parse_ymd |}.

End AsciiLib.

(** ** The recurrence rule in the words of the specification

    Days are counted by their ordinal; [r] is the next weekday after [o]
    when it is the first day after [o] that is not a Saturday or Sunday. *)

Definition weekday_of_ordinal (o : Z) : Z := (o + 6) mod 7.

Definition first_weekday_after (o r : Z) : Prop :=
  o < r
  /\ weekday_of_ordinal r <= 4
  /\ forall k, o < k < r -> 5 <= weekday_of_ordinal k.

(** How many days after a day of weekday [w] the next weekday comes:
    three after a Friday, two after a Saturday, else one. *)
Definition days_to_next_weekday (w : Z) : Z :=
  if w =? 4 then 3 else if w =? 5 then 2 else 1.

(** How many rounds of the weekend loop a day of weekday [w] takes. *)
Definition weekend_offset (w : Z) : Z :=
  if w =? 5 then 2 else if w =? 6 then 1 else 0.

(** Sample instants: Friday 5 January 2024 and Wednesday 3 January 2024 at
    09:00, and the last representable day. *)
Definition friday_0900 : datetime := mkdatetime 2024 1 5 9 0 0 0 None.
Definition wednesday_0900 : datetime := mkdatetime 2024 1 3 9 0 0 0 None.
Definition last_day_0900 : datetime := mkdatetime 9999 12 31 9 0 0 0 None.

Definition time_of_day (t : datetime) : Z * Z * Z * Z * option Z :=
  (hour t, minute t, second t, microsecond t, tzinfo t).

(** ** Notions used to state what the scheduler does to the store *)

Section SchedulerNotions.

Context {lib : PyLib}.

(** A row with its posted flag set to [v] and every other column as it
    was. *)
Definition with_posted (v : bool) (p : Post.t) : Post.t :=
  Post.mk (Post.id p) (Post.content p) (Post.photo_data p)
    (Post.photo_filename p) (Post.scheduled_time p) (Post.is_recurring p)
    v (Post.created_at p).

(** A row moved to the instant [next] and put back into the due pool. *)
Definition rescheduled (next : datetime) (p : Post.t) : Post.t :=
  Post.mk (Post.id p) (Post.content p) (Post.photo_data p)
    (Post.photo_filename p) (Text (isoformat next)) (Post.is_recurring p)
    false (Post.created_at p).

(** The table with [f] applied to the rows of id [post_id]. *)
Definition update_row (post_id : Z) (f : Post.t -> Post.t)
    (ps : list Post.t) : list Post.t :=
  map (fun p => if Post.id p =? post_id then f p else p) ps.

(** The request by which [post] is published to [target]. *)
Definition publish_request (target : string) (post : Post.t) : effect :=
  if truthy_bytes (Post.photo_data post) && nonempty (Post.content post) then
    sendPhoto target (default (Post.photo_data post) [])
      (M_content (Post.content post)) (Post.photo_filename post)
  else if truthy_bytes (Post.photo_data post) then
    sendPhoto target (default (Post.photo_data post) []) (M_content "")
      (Post.photo_filename post)
  else sendMessage target (M_content (Post.content post)) None.

(** The next occurrence of a post, from its stored scheduled instant. *)
Definition next_occurrence (post : Post.t) : res datetime :=
  res_bind (parse_scheduled_time (Post.scheduled_time post)) _get_next_weekday.

(** What a successful publish of [post] does to the stored row. *)
Definition publish_update (post : Post.t) : Post.t -> Post.t :=
  if Post.is_recurring post then
    match next_occurrence post with
    | Ok next => rescheduled next
    | _ => with_posted true
    end
  else with_posted true.

(** A record is due when its instant parses and is not after [now]. *)
Definition is_due (now : datetime) (p : Post.t) : bool :=
  match Post.scheduled_time p with
  | Text s =>
      match fromisoformat s with
      | Some t => match dt_le t now with Ok true => true | _ => false end
      | None => false
      end
  | Blob _ => false
  end.

(** A record whose stored instant cannot be parsed. *)
Definition unparseable (p : Post.t) : bool :=
  negb (is_ok (parse_scheduled_time (Post.scheduled_time p))).

Definition ids (ps : list Post.t) : list Z := map Post.id ps.

(** What the body of the scheduler's loop does to the rows of the id of
    [x], started in [b]. *)
Definition step_update (now : datetime) (b : bot) (x : Post.t)
    : Post.t -> Post.t :=
  if is_due now x && telegram b (length (log b))
  then publish_update x else fun p => p.

(** What a handler leaves alone apart from the table and the log. *)
Definition same_frame (b b' : bot) : Prop :=
  target_chat_id b' = target_chat_id b
  /\ sqlite_sequence b' = sqlite_sequence b
  /\ authorized_users b' = authorized_users b
  /\ user_states b' = user_states b
  /\ telegram b' = telegram b.

(** The fate of the stored row [p] in a pass over the records [L] that
    starts in [b] and ends in [b']: a due record of [L] has been sent, as
    entry [k] of the log, and the row is what the answer to that request
    makes of it; any other row is untouched. *)
Definition pass_row (now : datetime) (L : list Post.t) (b b' : bot)
    (p p' : Post.t) : Prop :=
  if bool_decide (Post.id p ∈ ids L) && is_due now p then
    exists k : nat,
      (length (log b) <= k)%nat
      /\ log b' !! k = Some (publish_request (target_chat_id b) p)
      /\ p' = (if telegram b k then publish_update p p else p)
  else p' = p.

(** The same for one tick of the scheduler, which passes over the
    unposted records. *)
Definition tick_row (now : datetime) (b b' : bot) (p p' : Post.t) : Prop :=
  if negb (Post.is_posted p) && is_due now p then
    exists k : nat,
      (length (log b) <= k)%nat
      /\ log b' !! k = Some (publish_request (target_chat_id b) p)
      /\ p' = (if telegram b k then publish_update p p else p)
  else p' = p.

End SchedulerNotions.

(** ** Sample data *)

Definition sample_bot (ps : list Post.t) : bot :=
  Bot "-1001" ps 0 ∅ ∅ [] (fun _ => true).

Definition one_time_post : Post.t :=
  Post.mk 1 "hello" None None (Text "2024-01-05T09:00:00") false false
    "2024-01-01 08:00:00".

Definition recurring_post : Post.t :=
  Post.mk 2 "daily" None None (Text "2024-01-05T09:00:00") true false
    "2024-01-01 08:00:00".

Definition last_day_post : Post.t :=
  Post.mk 3 "last" None None (Text "9999-12-31T09:00:00") true false
    "2024-01-01 08:00:00".

Definition corrupt_post : Post.t :=
  Post.mk 4 "corrupt" None None (Text "tomorrow") true false
    "2024-01-01 08:00:00".

Definition future_post : Post.t :=
  Post.mk 5 "later" None None (Text "2024-02-01T09:00:00") false false
    "2024-01-01 08:00:00".

(** Friday 5 January 2024, 09:00:30. *)
Definition sample_clock : clock :=
  Clock (mkdatetime 2024 1 5 9 0 30 0 None) (mkdate 2024 1 5) "2024-01-05 09:00:30".

(** A wizard session that waits for a time on 5 January 2024, and the
    clock at exactly 09:00:00 of that day. *)
Definition picking_time : user_state :=
  UserState waiting_for_schedule
    (Some (Draft.mk (Some "hello") None None (Some "2024-01-05") None))
    None None None.

Definition wizard_bot (u : user_state) : bot :=
  Bot "-1001" [] 0 ∅ {[ 7 := u ]} [] (fun _ => true).

Definition clock_0900 : clock :=
  Clock friday_0900 (mkdate 2024 1 5) "2024-01-05 09:00:00".

(** The collaborators outside the core, for running the handlers: they do
    nothing. *)
Definition no_password_attempt (chat_id : string) (user_id : Z)
    (password : string) : M unit := ret tt.
Definition no_command (chat_id : string) (user_id : Z)
    (message_text : string) : M unit := ret tt.

(** ** Notions used to state the properties of the widgets *)

(** The three tags of a populated calendar cell, which of them a day gets,
    and the button that carries each. *)
Inductive cell_tag : Type := Past_disabled | Selected | Selectable.

Definition tag_of (today : date) (year month : Z) (selected_day : option Z)
    (day : Z) : cell_tag :=
  if date_lt (mkdate year month day) today then Past_disabled
  else if bool_decide (Some day = selected_day) then Selected
  else Selectable.

Definition tagged_cell (year month day : Z) (t : cell_tag) : button :=
  match t with
  | Past_disabled => Button (L_past day) cal_ignore
  | Selected => Button (L_selected day) (cal_day_ year month day)
  | Selectable => Button (L_day day) (cal_day_ year month day)
  end.

(** The cell of one entry of the month grid: blank for a padding day. *)
Definition grid_cell (today : date) (year month : Z) (selected_day : option Z)
    (day : Z) : button :=
  if day =? 0 then Button L_blank cal_ignore
  else tagged_cell year month day (tag_of today year month selected_day day).




(** ** Notions used to state the properties of the wizard *)

(** The invariant of a post at creation: text, or a photo. *)
Definition has_content_or_photo (p : Post.t) : Prop :=
  Post.content p <> ""%string
  \/ exists photo, Post.photo_data p = Some photo /\ photo <> [].

(** The row that committing the draft [d] creates. *)
Definition committed_row (post_id : Z) (d : Draft.t) (scheduled_time : string)
    (is_recurring : bool) (created : string) : Post.t :=
  Post.mk post_id (default (Draft.content d) "") (Draft.photo_data d)
    (Draft.photo_filename d) (Text scheduled_time) is_recurring false created.

(** The affirmative replies of the recurrence step. *)
Definition affirmative_tokens : list string := ["yes"; "y"; "daily"; "repeat"]%string.

(** A wizard session at the recurrence step, its draft complete. *)
Definition choosing_recurrence : user_state :=
  UserState waiting_for_recurring
    (Some (Draft.mk (Some "hello") None None (Some "2024-01-08")
             (Some "2024-01-08T09:00:00")))
    None None None.

(** A wizard session after the text has been typed: the draft holds the
    text and nothing else, the photo step is next. *)
Definition typed_content : user_state :=
  UserState waiting_for_photo
    (Some (Draft.mk (Some "hello") None None None None)) None None None.

(** A bot that user 7 may use, with no session and no post. *)
Definition authorized_bot : bot :=
  Bot "-1001" [] 0 {[ 7 ]} ∅ [] (fun _ => true).

(** ** Notions used to state further properties of the store *)

(** The rows [get_posts] selects from: those not yet posted. *)
Definition unposted (p : Post.t) : bool := negb (Post.is_posted p).

(** The rows whose [scheduled_time] the order of [ORDER BY] does not tell
    from [v]. *)
Definition scheduled_at (v : sqltext) (p : Post.t) : bool :=
  sqltext_leb v (Post.scheduled_time p)
  && sqltext_leb (Post.scheduled_time p) v.

(** Three posts of one instant, in rowid order, and a fourth that is due
    before them. *)
Definition tied_posts : list Post.t :=
  [Post.mk 1 "a" None None (Text "2024-01-05T09:00:00") false false
     "2024-01-01 08:00:00";
   Post.mk 2 "b" None None (Text "2024-01-05T09:00:00") false false
     "2024-01-01 08:00:00";
   Post.mk 3 "c" None None (Text "2024-01-05T09:00:00") false false
     "2024-01-01 08:00:00";
   Post.mk 4 "d" None None (Text "2024-01-04T09:00:00") false false
     "2024-01-01 08:00:00"].

(** One call on the store, with its arguments, and a history of calls. *)
Inductive store_call : Type :=
| Call_add_post (content : string) (photo_data : option bytes)
    (photo_filename : option string) (scheduled_time : string)
    (is_recurring : bool) (created : string)
| Call_delete_post (post_id : Z)
| Call_update_post (post_id : Z) (kw : Fields.t).

Definition run_call (c : store_call) : M unit :=
  match c with
  | Call_add_post content photo_data photo_filename scheduled_time
      is_recurring created =>
      add_post content photo_data photo_filename scheduled_time is_recurring
        created ;; pass
  | Call_delete_post post_id => delete_post post_id ;; pass
  | Call_update_post post_id kw => update_post post_id kw ;; pass
  end.

Definition run_calls (cs : list store_call) : M unit := for_each cs run_call.

(** The ids of a call can be bound as parameters. *)
Definition call_binds (c : store_call) : bool :=
  match c with
  | Call_add_post _ _ _ _ _ _ => true
  | Call_delete_post post_id => sqlite_int post_id
  | Call_update_post post_id _ => sqlite_int post_id
  end.

(** ** Notions used to state further properties of the scheduler *)

(** What a post says and when it was made: every column but the scheduled
    instant and the posted flag. *)
Definition same_content (p p' : Post.t) : Prop :=
  Post.id p' = Post.id p
  /\ Post.content p' = Post.content p
  /\ Post.photo_data p' = Post.photo_data p
  /\ Post.photo_filename p' = Post.photo_filename p
  /\ Post.is_recurring p' = Post.is_recurring p
  /\ Post.created_at p' = Post.created_at p.

(** Ticks of the scheduler one after the other, each at its own time. *)
Definition run_ticks {lib : PyLib} (clks : list clock) : M unit :=
  for_each clks _check_and_publish_posts.

(** The posts that a tick passes to [_publish_post]: the rows that
    [get_posts()] returns, in its order, whose instant is due. *)
Definition due_posts {lib : PyLib} (now : datetime) (b : bot) : list Post.t :=
  List.filter (is_due now)
    (order_by_scheduled_time (List.filter unposted (posts b))).

(** The posts that ticks one after the other pass to [_publish_post], each
    tick on the table that the one before has left. *)
Fixpoint published_by {lib : PyLib} (clks : list clock) (b : bot)
    : list Post.t :=
  match clks with
  | [] => []
  | clk :: clks' =>
      due_posts (now clk) b
      ++ published_by clks' (after (_check_and_publish_posts clk) b)
  end.

(** A bot whose requests are all refused, as when Telegram cannot be
    reached. *)
Definition offline_bot (ps : list Post.t) : bot :=
  Bot "-1001" ps 0 ∅ ∅ [] (fun _ => false).

(** ** Notions used to state further properties of the handlers *)

(** A handler that only sends: whatever it returns or raises, the bot
    afterwards is the bot before with a longer log. *)
Definition only_sends {A} (m : M A) : Prop :=
  forall b, exists l, snd (m b) = set_log b (log b ++ l).

(** The session [_handle_unauthorized_user] opens. *)
Definition password_session : user_state :=
  UserState waiting_for_password None None None None.

(** A user the bot does not know: not authorized, and with no session or
    the session of the access gate. *)
Definition outsider (b : bot) (user_id : Z) : Prop :=
  (user_id ∉ authorized_users b)
  /\ (user_states b !! user_id = None
      \/ user_states b !! user_id = Some password_session).

(** The inline keyboard a request carries, the callbacks of the buttons a
    list of requests offers, and the chat a request goes to. *)
Definition effect_keyboard (e : effect) : keyboard :=
  match e with
  | sendMessage _ _ (Some kb) | editMessageText _ _ _ (Some kb) => kb
  | _ => []
  end.

Definition offered (l : list effect) : list callback :=
  flat_map (fun e => map callback_data (concat (effect_keyboard e))) l.

Definition effect_chat (e : effect) : option string :=
  match e with
  | sendMessage chat_id _ _ | sendPhoto chat_id _ _ _
  | editMessageText chat_id _ _ _ | Timer_show_posts_list chat_id _ =>
      Some chat_id
  | answerCallbackQuery _ _ => None
  end.

(** The bot [b] seen from an earlier bot [b0]: the store and the
    authorized users are those of [b0], and so are the sessions, but for
    the session [u] of [user_id]. *)
Definition wizard_at (b0 b : bot) (user_id : Z) (u : user_state) : Prop :=
  posts b = posts b0
  /\ sqlite_sequence b = sqlite_sequence b0
  /\ authorized_users b = authorized_users b0
  /\ user_states b = <[user_id := u]> (user_states b0).

(** A session of the wizard at a step, with its draft. *)
Definition wizard_session (st : state_name) (d : Draft.t) : user_state :=
  UserState st (Some d) None None None.

(** A session that waits for the recurrence answer holds a draft with a
    scheduled instant; the bot is ready when every session is so. *)
Definition recurrence_ready (u : user_state) : Prop :=
  state u = waiting_for_recurring ->
  exists d t, post_data u = Some d /\ Draft.scheduled_time d = Some t.

Definition sessions_ready (b : bot) : Prop :=
  forall user_id u, user_states b !! user_id = Some u -> recurrence_ready u.

(** A handler that keeps the bot ready, whatever it returns or raises. *)
Definition keeps_ready {A} (m : M A) : Prop :=
  forall b, sessions_ready b -> sessions_ready (snd (m b)).

Create HintDb ready.

(** A bot that user 7 may use, with two posts in the table. *)
Definition managed_bot : bot :=
  Bot "-1001" [one_time_post; recurring_post] 2 {[ 7 ]} ∅ [] (fun _ => true).

(** A message that [process_message] handles itself: from a user whose
    session is not the password prompt, or from a user without a session
    when it is not a command. *)
Definition handled_message (b : bot) (user_id : Z) (message_text : string)
    : Prop :=
  match user_states b !! user_id with
  | Some u => state u <> waiting_for_password
  | None => String.prefix "/" message_text = false
  end.

(** A session at the recurrence step, with text and instant in its draft,
    a session at the first step, and a bot that holds both. *)
Definition answering : user_state :=
  wizard_session waiting_for_recurring
    (Draft.mk (Some "hello") None None (Some "2024-01-08")
       (Some "2024-01-08T09:00:00")).

Definition typing : user_state :=
  wizard_session waiting_for_content (Draft.mk None None None None None).

Definition two_wizards_bot : bot :=
  Bot "-1001" [] 0 {[ 7; 8 ]} (<[7 := answering]> {[ 8 := typing ]}) []
    (fun _ => true).

(** ** Proof automation *)

(** Boolean tests among the hypotheses, turned into propositions. *)
Ltac split_andb :=
  repeat match goal with
         | H : _ && _ = true |- _ => apply andb_prop in H as [? ?]
         | H : (_ <=? _) = true |- _ => apply Z.leb_le in H
         | H : (_ <? _) = true |- _ => apply Z.ltb_lt in H
         | H : (_ =? _) = true |- _ => apply Z.eqb_eq in H
         end.

(* ================================================================= *)
(** * Theorems *)

(** ** The calendar arithmetic of [datetime] *)

Section DatetimeFacts.

Lemma forall_range_spec (f : Z -> bool) (n : nat) :
  forall lo, forall_range f lo n = true ->
  forall z, lo <= z < lo + Z.of_nat n -> f z = true.
Proof.
  induction n as [|n IH]; intros lo H z Hz; [lia|].
  cbn [forall_range] in H. apply andb_prop in H as [H0 H1].
  destruct (Z.eq_dec z lo) as [->|Hne]; [exact H0|].
  apply (IH (lo + 1) H1). lia.
Qed.

Lemma days_before_year_shift (y q : Z) :
  _days_before_year (y + 400 * q) = _days_before_year y + _DI400Y * q.
Proof.
  unfold _days_before_year, _DI400Y. cbv zeta.
  replace (y + 400 * q - 1) with (y - 1 + 400 * q) by lia.
  replace ((y - 1 + 400 * q) / 4) with ((y - 1) / 4 + 100 * q)
    by (replace (400 * q) with (100 * q * 4) by lia;
        rewrite Z.div_add by lia; reflexivity).
  replace ((y - 1 + 400 * q) / 100) with ((y - 1) / 100 + 4 * q)
    by (replace (400 * q) with (4 * q * 100) by lia;
        rewrite Z.div_add by lia; reflexivity).
  replace ((y - 1 + 400 * q) / 400) with ((y - 1) / 400 + q)
    by (replace (400 * q) with (q * 400) by lia;
        rewrite Z.div_add by lia; reflexivity).
  lia.
Qed.

Lemma is_leap_shift (y q : Z) : _is_leap (y + 400 * q) = _is_leap y.
Proof.
  unfold _is_leap.
  replace ((y + 400 * q) mod 4) with (y mod 4)
    by (replace (400 * q) with (100 * q * 4) by lia;
        rewrite Z.mod_add by lia; reflexivity).
  replace ((y + 400 * q) mod 100) with (y mod 100)
    by (replace (400 * q) with (4 * q * 100) by lia;
        rewrite Z.mod_add by lia; reflexivity).
  replace ((y + 400 * q) mod 400) with (y mod 400)
    by (replace (400 * q) with (q * 400) by lia;
        rewrite Z.mod_add by lia; reflexivity).
  reflexivity.
Qed.

Lemma days_in_month_shift (y q m : Z) :
  _days_in_month (y + 400 * q) m = _days_in_month y m.
Proof. unfold _days_in_month. now rewrite is_leap_shift. Qed.

Lemma ymd2ord_shift (y q m d : Z) :
  _ymd2ord (y + 400 * q) m d = _ymd2ord y m d + _DI400Y * q.
Proof.
  unfold _ymd2ord, _days_before_month.
  rewrite days_before_year_shift, is_leap_shift. lia.
Qed.

Lemma days_in_month_le_31 (y m : Z) : _days_in_month y m <= 31.
Proof.
  unfold _days_in_month, _DAYS_IN_MONTH.
  destruct ((m =? 2) && _is_leap y); [lia|].
  destruct m as [|p|p]; try lia.
  do 4 (destruct p as [p|p|]; try lia).
Qed.

(** Fields that pass the range check fit a C [int]. *)
Lemma date_new_checked (y m d : Z) :
  check_date_fields y m d = true -> date_new y m d = Ok (mkdate y m d).
Proof.
  intros H. unfold date_new. rewrite H.
  pose proof (days_in_month_le_31 y m) as H31.
  unfold check_date_fields, MINYEAR, MAXYEAR in H.
  repeat (apply andb_prop in H as [H ?]).
  replace (c_int y && c_int m && c_int d) with true; [reflexivity|].
  symmetry. unfold c_int.
  repeat (apply andb_true_intro; split); apply Z.leb_le; lia.
Qed.

Lemma day_of_year_checked (leap : bool) :
  forall_range (day_of_year_ok leap) 0 365 = true.
Proof. destruct leap; vm_compute; reflexivity. Qed.

Lemma month_day_checked (leap : bool) :
  forall_range (fun m => forall_range (month_day_ok leap m) 1 31) 1 12 = true.
Proof. destruct leap; vm_compute; reflexivity. Qed.

Lemma year_split_checked :
  forall_range (fun q1 =>
    forall_range (fun q2 => forall_range (year_split_ok q1 q2) 0 5) 0 25) 0 5
  = true.
Proof. vm_compute; reflexivity. Qed.

Lemma day_of_year_ok_all (leap : bool) (n : Z) :
  0 <= n <= 364 -> day_of_year_ok leap n = true.
Proof.
  intros H. apply (forall_range_spec _ _ 0 (day_of_year_checked leap)). lia.
Qed.

Lemma month_day_ok_all (leap : bool) (m d : Z) :
  1 <= m <= 12 -> 1 <= d <= 31 -> month_day_ok leap m d = true.
Proof.
  intros Hm Hd.
  pose proof (forall_range_spec _ _ _ (month_day_checked leap) m ltac:(lia)) as H.
  apply (forall_range_spec _ _ _ H d). lia.
Qed.

Lemma year_split_ok_all (q1 q2 q3 : Z) :
  0 <= q1 <= 4 -> 0 <= q2 <= 24 -> 0 <= q3 <= 4 -> year_split_ok q1 q2 q3 = true.
Proof.
  intros H1 H2 H3.
  pose proof (forall_range_spec _ _ _ year_split_checked q1 ltac:(lia)) as Ha.
  pose proof (forall_range_spec _ _ _ Ha q2 ltac:(lia)) as Hb.
  apply (forall_range_spec _ _ _ Hb q3). lia.
Qed.

Lemma days_in_month_of_leap (y m : Z) :
  _days_in_month y m = days_in_month_of (_is_leap y) m.
Proof. reflexivity. Qed.

Lemma days_before_month_of_leap (y m : Z) :
  _days_before_month y m = days_before_month_of (_is_leap y) m.
Proof. reflexivity. Qed.

(** How the three divisions of [_ord2ymd] split a day count. *)
Lemma cycle_split (q1 q2 q3 n : Z) :
  0 <= q2 -> 0 <= q3 -> 0 <= n < 365 ->
  _DI4Y * q2 + 365 * q3 + n < _DI100Y ->
  365 * q3 + n < _DI4Y ->
  let r := _DI100Y * q1 + _DI4Y * q2 + 365 * q3 + n in
  r / _DI100Y = q1
  /\ (r mod _DI100Y) / _DI4Y = q2
  /\ ((r mod _DI100Y) mod _DI4Y) / 365 = q3
  /\ ((r mod _DI100Y) mod _DI4Y) mod 365 = n.
Proof.
  intros H2 H3 Hn Ha Hb. unfold _DI100Y, _DI4Y in *. cbv zeta.
  assert (E1 : (36524 * q1 + 1461 * q2 + 365 * q3 + n) / 36524 = q1)
    by (symmetry; apply Z.div_unique with (r := 1461 * q2 + 365 * q3 + n); lia).
  assert (M1 : (36524 * q1 + 1461 * q2 + 365 * q3 + n) mod 36524
               = 1461 * q2 + 365 * q3 + n)
    by (symmetry; apply Z.mod_unique with (q := q1); lia).
  rewrite E1, M1.
  assert (E2 : (1461 * q2 + 365 * q3 + n) / 1461 = q2)
    by (symmetry; apply Z.div_unique with (r := 365 * q3 + n); lia).
  assert (M2 : (1461 * q2 + 365 * q3 + n) mod 1461 = 365 * q3 + n)
    by (symmetry; apply Z.mod_unique with (q := q2); lia).
  rewrite E2, M2.
  assert (E3 : (365 * q3 + n) / 365 = q3)
    by (symmetry; apply Z.div_unique with (r := n); lia).
  assert (M3 : (365 * q3 + n) mod 365 = n)
    by (symmetry; apply Z.mod_unique with (q := q3); lia).
  rewrite E3, M3. repeat split.
Qed.

Lemma days_in_month_le_31_of (leap : bool) (m : Z) : days_in_month_of leap m <= 31.
Proof.
  unfold days_in_month_of, _DAYS_IN_MONTH.
  destruct ((m =? 2) && leap); [lia|].
  destruct m as [|p|p]; try lia.
  do 4 (destruct p as [p|p|]; try lia).
Qed.

(** Every day of the cycle is a valid date of the years 1 to 400 whose
    ordinal it is. *)
Lemma cycle_ord_spec (r : Z) :
  0 <= r < _DI400Y ->
  exists y m d, _ord2ymd_cycle r = (y, m, d)
    /\ 1 <= y <= 400 /\ 1 <= m <= 12 /\ 1 <= d <= _days_in_month y m
    /\ _ymd2ord y m d = r + 1
    /\ (r <= 145730 -> y <= 399).
Proof.
  intros Hr. unfold _ord2ymd_cycle. cbv zeta.
  pose proof (Z.div_mod r _DI100Y ltac:(discriminate)) as E1.
  pose proof (Z.mod_pos_bound r _DI100Y ltac:(reflexivity)) as B1.
  remember (r / _DI100Y) as q1 eqn:D1. remember (r mod _DI100Y) as r1 eqn:D1'.
  pose proof (Z.div_mod r1 _DI4Y ltac:(discriminate)) as E2.
  pose proof (Z.mod_pos_bound r1 _DI4Y ltac:(reflexivity)) as B2.
  remember (r1 / _DI4Y) as q2 eqn:D2. remember (r1 mod _DI4Y) as r2 eqn:D2'.
  pose proof (Z.div_mod r2 365 ltac:(discriminate)) as E3.
  pose proof (Z.mod_pos_bound r2 365 ltac:(reflexivity)) as B3.
  remember (r2 / 365) as q3 eqn:D3. remember (r2 mod 365) as n eqn:D3'.
  clear D1 D1' D2 D2' D3 D3'.
  unfold _DI400Y, _DI100Y, _DI4Y in *.
  assert (H1 : 0 <= q1 <= 4) by lia.
  assert (H2 : 0 <= q2 <= 24) by lia.
  assert (H3 : 0 <= q3 <= 4) by lia.
  pose proof (year_split_ok_all q1 q2 q3 H1 H2 H3) as Hy.
  unfold year_split_ok, _DI100Y, _DI4Y in Hy. cbv zeta in Hy.
  destruct (Z.eqb_spec q1 4) as [E4|N4].
  { (* the last day of the cycle *)
    assert (q2 = 0 /\ q3 = 0 /\ n = 0) as (-> & -> & ->) by lia. subst q1.
    exists 400, 12, 31. split; [reflexivity|].
    change (_days_in_month 400 12) with 31.
    change (_ymd2ord 400 12 31) with 146097. lia. }
  destruct (Z.eqb_spec q3 4) as [E5|N5].
  { (* the last day of a leap year *)
    assert (Hq2 : q2 <= 23) by lia. assert (n = 0) by lia. subst n q3.
    replace (23 <? q2) with false in Hy by (symmetry; apply Z.ltb_ge; lia).
    cbn [orb] in Hy. split_andb. cbn [orb].
    replace (1 + q1 * 100 + q2 * 4 + 4 - 1) with (q1 * 100 + q2 * 4 + 4) by lia.
    eexists _, 12, 31. split; [reflexivity|].
    unfold _ymd2ord, _days_before_month, _days_in_month.
    match goal with H : _is_leap _ = true |- _ => rewrite H end. cbn.
    repeat split; lia. }
  (* an ordinary day *)
  cbn [orb]. split_andb.
  match goal with H : Bool.eqb _ _ = true |- _ => apply eqb_prop in H; rename H into Hleap end.
  replace (1 + q1 * 100 + q2 * 4 + q3) with (q1 * 100 + q2 * 4 + q3 + 1) by lia.
  rewrite Hleap.
  set (y := q1 * 100 + q2 * 4 + q3 + 1) in *.
  pose proof (day_of_year_ok_all (_is_leap y) n ltac:(lia)) as Hd.
  unfold day_of_year_ok in Hd.
  destruct (_month_day (_is_leap y) n) as [m d].
  exists y, m, d. split; [reflexivity|]. split_andb.
  rewrite days_in_month_of_leap. unfold _ymd2ord.
  rewrite days_before_month_of_leap.
  subst y. repeat split; lia.
Qed.

(** Every valid date of the years 1 to 400 is a day of the cycle, and is
    found back from it. *)
Lemma cycle_ymd_spec (y m d : Z) :
  1 <= y <= 400 -> 1 <= m <= 12 -> 1 <= d <= _days_in_month y m ->
  1 <= _ymd2ord y m d <= _DI400Y
  /\ (y <= 399 -> _ymd2ord y m d <= 145731)
  /\ _ord2ymd_cycle (_ymd2ord y m d - 1) = (y, m, d).
Proof.
  intros Hy Hm Hd.
  pose proof (Z.div_mod (y - 1) 100 ltac:(discriminate)) as E1.
  pose proof (Z.mod_pos_bound (y - 1) 100 ltac:(reflexivity)) as B1.
  remember ((y - 1) / 100) as q1 eqn:D1. remember ((y - 1) mod 100) as t eqn:D1'.
  pose proof (Z.div_mod t 4 ltac:(discriminate)) as E2.
  pose proof (Z.mod_pos_bound t 4 ltac:(reflexivity)) as B2.
  remember (t / 4) as q2 eqn:D2. remember (t mod 4) as q3 eqn:D2'.
  clear D1 D1' D2 D2'.
  assert (H1 : 0 <= q1 <= 3) by lia.
  assert (H2 : 0 <= q2 <= 24) by lia.
  assert (Ey : y = q1 * 100 + q2 * 4 + q3 + 1) by lia.
  pose proof (year_split_ok_all q1 q2 q3 ltac:(lia) H2 ltac:(lia)) as Hs.
  unfold year_split_ok, _DI100Y, _DI4Y in Hs. cbv zeta in Hs.
  replace (q1 =? 4) with false in Hs by (symmetry; apply Z.eqb_neq; lia).
  replace (q3 =? 4) with false in Hs by (symmetry; apply Z.eqb_neq; lia).
  rewrite <- Ey in Hs. split_andb.
  match goal with H : Bool.eqb _ _ = true |- _ => apply eqb_prop in H; rename H into Hleap end.
  pose proof (days_in_month_le_31_of (_is_leap y) m) as H31.
  rewrite days_in_month_of_leap in Hd.
  pose proof (month_day_ok_all (_is_leap y) m d Hm ltac:(lia)) as Hmd.
  unfold month_day_ok in Hmd. cbv zeta in Hmd.
  apply orb_prop in Hmd as [Hmd|Hmd]; [split_andb; lia|].
  unfold _ymd2ord. rewrite days_before_month_of_leap.
  set (n := days_before_month_of (_is_leap y) m + d - 1) in *.
  split_andb. unfold _DI400Y.
  replace (_days_before_year y + days_before_month_of (_is_leap y) m + d)
    with (_days_before_year y + n + 1) by (subst n; lia).
  replace (_days_before_year y + n + 1 - 1) with (_days_before_year y + n) by lia.
  destruct (Z.le_gt_cases n 364) as [Hn|Hn].
  - (* an ordinary day *)
    match goal with
    | H : (364 <? n) || _ = true |- _ =>
        apply orb_prop in H as [H|H]; [split_andb; lia|]; rename H into Hback
    end.
    split; [lia|]. split; [lia|].
    destruct (cycle_split q1 q2 q3 n) as (C1 & C2 & C3 & C4);
      try (unfold _DI100Y, _DI4Y; lia).
    unfold _DI100Y, _DI4Y in *.
    match goal with H : _days_before_year y = _ |- _ => rewrite H end.
    unfold _ord2ymd_cycle, _DI100Y, _DI4Y. cbv zeta.
    rewrite C1, C2, C3, C4.
    replace (q3 =? 4) with false by (symmetry; apply Z.eqb_neq; lia).
    replace (q1 =? 4) with false by (symmetry; apply Z.eqb_neq; lia).
    cbn [orb]. rewrite Hleap.
    replace (1 + q1 * 100 + q2 * 4 + q3) with y by lia.
    destruct (_month_day (_is_leap y) n) as [m' d']. split_andb. congruence.
  - (* 31 December of a leap year *)
    assert (n = 365) by lia.
    match goal with
    | H : (n <? 365) || _ = true |- _ =>
        apply orb_prop in H as [H|H]; [split_andb; lia|]; split_andb
    end.
    subst m d.
    match goal with H : _is_leap y = true |- _ => rewrite H in Hleap end.
    split_andb.
    assert (q3 = 3) by lia. subst q3.
    match goal with H : _days_before_year y = _ |- _ => rewrite H end.
    match goal with
    | H : negb (q2 =? 24) || (q1 =? 3) = true |- _ =>
        apply orb_prop in H as [Hq|Hq]
    end.
    + apply negb_true_iff, Z.eqb_neq in Hq.
      split; [lia|]. split; [lia|].
      destruct (cycle_split q1 q2 4 0) as (C1 & C2 & C3 & C4);
        try (unfold _DI100Y, _DI4Y; lia).
      unfold _DI100Y, _DI4Y in *.
      replace (36524 * q1 + 1461 * q2 + 365 * 3 + n)
        with (36524 * q1 + 1461 * q2 + 365 * 4 + 0) by lia.
      unfold _ord2ymd_cycle, _DI100Y, _DI4Y. cbv zeta.
      rewrite C1, C2, C3, C4. cbn [Z.eqb orb].
      f_equal. f_equal. lia.
    + apply Z.eqb_eq in Hq. subst q1.
      destruct (Z.eq_dec q2 24) as [->|Hq2].
      * assert (y = 400) by lia. subst y n. split; [cbn; lia|].
        split; [lia|]. reflexivity.
      * split; [lia|]. split; [lia|].
        destruct (cycle_split 3 q2 4 0) as (C1 & C2 & C3 & C4);
          try (unfold _DI100Y, _DI4Y; lia).
        unfold _DI100Y, _DI4Y in *.
        replace (36524 * 3 + 1461 * q2 + 365 * 3 + n)
          with (36524 * 3 + 1461 * q2 + 365 * 4 + 0) by lia.
        unfold _ord2ymd_cycle, _DI100Y, _DI4Y. cbv zeta.
        rewrite C1, C2, C3, C4. cbn [Z.eqb orb].
        f_equal. f_equal. lia.
Qed.

(** [fromordinal] yields a valid date whose ordinal is the argument. *)
Lemma ord2ymd_spec (n : Z) :
  1 <= n <= _MAXORDINAL ->
  exists y m d, _ord2ymd n = (y, m, d)
                /\ check_date_fields y m d = true /\ _ymd2ord y m d = n.
Proof.
  intros Hn. unfold _ord2ymd. cbv zeta.
  set (q := (n - 1) / _DI400Y). set (r := (n - 1) mod _DI400Y).
  assert (Hqr : n - 1 = _DI400Y * q + r) by (apply Z.div_mod; discriminate).
  assert (Hr : 0 <= r < _DI400Y) by (apply Z.mod_pos_bound; reflexivity).
  destruct (cycle_ord_spec r Hr) as (y & m & d & E & Hy & Hm & Hd & Ho & Hlast).
  rewrite E. exists (q * 400 + y), m, d. split; [reflexivity|].
  unfold _MAXORDINAL, _DI400Y in *.
  assert (Hq : 0 <= q <= 24) by lia.
  replace (q * 400 + y) with (y + 400 * q) by lia.
  split.
  - unfold check_date_fields. rewrite days_in_month_shift.
    unfold MINYEAR, MAXYEAR.
    assert (Hy' : y + 400 * q <= 9999).
    { destruct (Z.eq_dec q 24) as [Hq24|]; [|lia].
      assert (y <= 399) by (apply Hlast; lia). lia. }
    repeat (apply andb_true_intro; split); apply Z.leb_le; lia.
  - rewrite ymd2ord_shift. unfold _DI400Y. lia.
Qed.

(** A valid date is given back by [fromordinal (toordinal d)], and its
    ordinal lies in [1, _MAXORDINAL]. *)
Lemma ymd2ord_spec (y m d : Z) :
  check_date_fields y m d = true ->
  1 <= _ymd2ord y m d <= _MAXORDINAL /\ _ord2ymd (_ymd2ord y m d) = (y, m, d).
Proof.
  unfold check_date_fields, MINYEAR, MAXYEAR. intros H. split_andb.
  set (q := (y - 1) / 400). set (y0 := (y - 1) mod 400 + 1).
  assert (Hy : y = y0 + 400 * q)
    by (unfold y0, q; pose proof (Z.div_mod (y - 1) 400); lia).
  assert (Hy0 : 1 <= y0 <= 400)
    by (unfold y0; pose proof (Z.mod_pos_bound (y - 1) 400); lia).
  assert (Hq : 0 <= q <= 24) by lia.
  rewrite Hy in *. rewrite days_in_month_shift in *.
  destruct (cycle_ymd_spec y0 m d Hy0 ltac:(lia) ltac:(lia))
    as (Hrange & Hlast & Hback).
  rewrite ymd2ord_shift. unfold _MAXORDINAL, _DI400Y in *.
  split.
  - destruct (Z.eq_dec q 24) as [Hq24|]; [|lia].
    assert (Hy399 : y0 <= 399) by lia. specialize (Hlast Hy399). lia.
  - unfold _ord2ymd. cbv zeta.
    replace (_ymd2ord y0 m d + 146097 * q - 1)
      with (_ymd2ord y0 m d - 1 + q * _DI400Y) by (unfold _DI400Y; lia).
    rewrite Z.div_add, Z.mod_add by discriminate.
    rewrite Z.div_small, Z.mod_small by (unfold _DI400Y; lia).
    rewrite Hback. f_equal. f_equal. lia.
Qed.

Lemma check_time_fields_bounds (h mi s us : Z) :
  check_time_fields h mi s us = true ->
  0 <= h <= 23 /\ 0 <= mi <= 59 /\ 0 <= s <= 59 /\ 0 <= us <= 999999.
Proof. unfold check_time_fields. intros H. split_andb. lia. Qed.

(** Adding days moves the ordinal by that many days and yields a valid
    date, whatever the time fields are. *)
Lemma add_days_date_spec (t t' : datetime) (n : Z) :
  add_days t n = Ok t' ->
  toordinal t' = toordinal t + n
  /\ check_date_fields (year t') (month t') (day t') = true.
Proof.
  unfold add_days. cbv zeta.
  destruct ((0 <? toordinal t + n) && (toordinal t + n <=? _MAXORDINAL)) eqn:Hr;
    [|discriminate].
  split_andb.
  destruct (ord2ymd_spec (toordinal t + n) ltac:(lia)) as (y & m & d & -> & Hv & Ho).
  intros [= <-]. cbn [toordinal year month day]. split; assumption.
Qed.

Lemma add_days_no_timeout (t : datetime) (n : Z) : add_days t n <> OutOfFuel.
Proof.
  unfold add_days. cbv zeta.
  destruct ((0 <? toordinal t + n) && (toordinal t + n <=? _MAXORDINAL));
    [|discriminate].
  now destruct (_ord2ymd (toordinal t + n)) as [[y m] d].
Qed.

(** On valid time fields it also keeps the time of day. *)
Lemma add_days_spec (t t' : datetime) (n : Z) :
  check_time_fields (hour t) (minute t) (second t) (microsecond t) = true ->
  add_days t n = Ok t' ->
  toordinal t' = toordinal t + n
  /\ check_date_fields (year t') (month t') (day t') = true
  /\ hour t' = hour t /\ minute t' = minute t /\ second t' = second t
  /\ microsecond t' = microsecond t /\ tzinfo t' = tzinfo t.
Proof.
  intros Ht. apply check_time_fields_bounds in Ht.
  unfold add_days. cbv zeta.
  destruct ((0 <? toordinal t + n) && (toordinal t + n <=? _MAXORDINAL)) eqn:Hr;
    [|discriminate].
  split_andb.
  destruct (ord2ymd_spec (toordinal t + n) ltac:(lia)) as (y & m & d & -> & Hv & Ho).
  assert (Hh : (hour t * 3600 + minute t * 60 + second t) / 3600 = hour t)
    by (symmetry; apply Z.div_unique with (r := minute t * 60 + second t); lia).
  assert (Hr : (hour t * 3600 + minute t * 60 + second t) mod 3600
               = minute t * 60 + second t)
    by (symmetry; apply Z.mod_unique with (q := hour t); lia).
  assert (Hm : (minute t * 60 + second t) / 60 = minute t)
    by (symmetry; apply Z.div_unique with (r := second t); lia).
  assert (Hs : (minute t * 60 + second t) mod 60 = second t)
    by (symmetry; apply Z.mod_unique with (q := minute t); lia).
  intros [= <-]. cbn [toordinal year month day hour minute second microsecond tzinfo].
  rewrite Hh, Hr, Hm, Hs. repeat split; assumption.
Qed.

Lemma add_days_ok (t : datetime) (n : Z) :
  0 < toordinal t + n <= _MAXORDINAL -> exists t', add_days t n = Ok t'.
Proof.
  intros H. unfold add_days. cbv zeta.
  replace (0 <? toordinal t + n) with true by (symmetry; apply Z.ltb_lt; lia).
  replace (toordinal t + n <=? _MAXORDINAL) with true
    by (symmetry; apply Z.leb_le; lia).
  cbn [andb]. destruct (_ord2ymd (toordinal t + n)) as [[y m] d]. eauto.
Qed.

Lemma add_days_overflow (t : datetime) (n : Z) :
  _MAXORDINAL < toordinal t + n -> add_days t n = Raise OverflowError.
Proof.
  intros H. unfold add_days. cbv zeta.
  replace (toordinal t + n <=? _MAXORDINAL) with false
    by (symmetry; apply Z.leb_gt; lia).
  now rewrite andb_false_r.
Qed.

(** A valid datetime has an ordinal in range, and only 9999-12-31 has the
    last one. *)
Lemma toordinal_range (t : datetime) :
  valid_datetime t = true -> 1 <= toordinal t <= _MAXORDINAL.
Proof.
  unfold valid_datetime. intros H. apply andb_prop in H as [H _].
  apply (ymd2ord_spec _ _ _ H).
Qed.

Lemma toordinal_max (t : datetime) :
  valid_datetime t = true -> toordinal t = _MAXORDINAL ->
  dt_date t = mkdate 9999 12 31.
Proof.
  unfold valid_datetime. intros H Ho. apply andb_prop in H as [H _].
  destruct (ymd2ord_spec _ _ _ H) as [_ Hr]. unfold toordinal in Ho.
  rewrite Ho in Hr. unfold dt_date.
  change (_ord2ymd _MAXORDINAL) with (9999, 12, 31) in Hr.
  now injection Hr as <- <- <-.
Qed.

End DatetimeFacts.


(** ** The next-weekday recurrence *)

Section NextWeekday.

Lemma skip_weekend_weekday (fuel : nat) (t : datetime) :
  weekday t < 5 -> skip_weekend fuel t = Ok t.
Proof.
  intros H. destruct fuel; cbn [skip_weekend];
    now replace (5 <=? weekday t) with false by (symmetry; apply Z.leb_gt; lia).
Qed.

Lemma skip_weekend_step (fuel : nat) (t : datetime) :
  5 <= weekday t ->
  skip_weekend (S fuel) t = res_bind (add_days t 1) (skip_weekend fuel).
Proof.
  intros H. cbn [skip_weekend].
  now replace (5 <=? weekday t) with true by (symmetry; apply Z.leb_le; lia).
Qed.

(** From a Saturday the loop runs twice, from a Sunday once, else not at
    all; two units of fuel are enough whatever the date. *)
Lemma skip_weekend_spec (fuel : nat) (t : datetime) :
  (2 <= fuel)%nat ->
  valid_datetime t = true ->
  exists r, skip_weekend fuel t = Ok r
    /\ valid_datetime r = true
    /\ toordinal r = toordinal t + weekend_offset (weekday t)
    /\ time_of_day r = time_of_day t.
Proof.
  intros Hf Hv. pose proof (toordinal_range t Hv) as Ho.
  pose proof Hv as Hv'. unfold valid_datetime in Hv'.
  apply andb_prop in Hv' as [Hd Ht].
  unfold _MAXORDINAL in Ho.
  assert (Hw : 0 <= weekday t < 7) by (apply Z.mod_pos_bound; lia).
  destruct (Z.lt_ge_cases (weekday t) 5) as [Hlt|Hge].
  { exists t. rewrite skip_weekend_weekday by assumption.
    unfold weekend_offset.
    replace (weekday t =? 5) with false by (symmetry; apply Z.eqb_neq; lia).
    replace (weekday t =? 6) with false by (symmetry; apply Z.eqb_neq; lia).
    repeat split; [assumption | lia]. }
  destruct fuel as [|fuel]; [lia|]. rewrite skip_weekend_step by assumption.
  unfold weekday in *.
  destruct (add_days_ok t 1) as [t1 H1].
  { unfold _MAXORDINAL. Z.div_mod_to_equations. lia. }
  rewrite H1. cbn [res_bind].
  destruct (add_days_spec t t1 1 Ht H1) as (Ho1 & Hd1 & Hh1 & Hm1 & Hs1 & Hu1 & Hz1).
  assert (Ht1 : check_time_fields (hour t1) (minute t1) (second t1)
                  (microsecond t1) = true) by congruence.
  destruct (Z.eq_dec ((toordinal t + 6) mod 7) 6) as [H6|H6].
  { exists t1. rewrite skip_weekend_weekday
      by (unfold weekday; rewrite Ho1; Z.div_mod_to_equations; lia).
    unfold weekend_offset. rewrite H6. cbn.
    repeat split; [|assumption|].
    - unfold valid_datetime. now rewrite Hd1, Ht1.
    - unfold time_of_day. congruence. }
  destruct fuel as [|fuel]; [lia|].
  rewrite skip_weekend_step
    by (unfold weekday; rewrite Ho1; Z.div_mod_to_equations; lia).
  destruct (add_days_ok t1 1) as [t2 H2].
  { unfold _MAXORDINAL. rewrite Ho1. Z.div_mod_to_equations. lia. }
  rewrite H2. cbn [res_bind].
  destruct (add_days_spec t1 t2 1 Ht1 H2) as (Ho2 & Hd2 & Hh2 & Hm2 & Hs2 & Hu2 & Hz2).
  exists t2. rewrite skip_weekend_weekday
    by (unfold weekday; rewrite Ho2, Ho1; Z.div_mod_to_equations; lia).
  unfold weekend_offset.
  replace ((toordinal t + 6) mod 7) with 5 by lia. cbn.
  repeat split.
  - unfold valid_datetime. rewrite Hd2.
    replace (check_time_fields _ _ _ _) with true by congruence. reflexivity.
  - lia.
  - unfold time_of_day. congruence.
Qed.

(** The fuel is irrelevant once there are two units of it. *)
Lemma skip_weekend_fuel (fuel : nat) (t : datetime) :
  (2 <= fuel)%nat -> valid_datetime t = true ->
  skip_weekend fuel t = skip_weekend 2 t.
Proof.
  intros Hf Hv.
  destruct (skip_weekend_spec fuel t Hf Hv) as (r & -> & Hr & Ho & Hd).
  destruct (skip_weekend_spec 2 t ltac:(lia) Hv) as (r' & -> & Hr' & Ho' & Hd').
  f_equal. destruct r, r'. unfold time_of_day in *.
  unfold valid_datetime in Hr, Hr'. cbn in *.
  apply andb_prop in Hr as [Hr _]. apply andb_prop in Hr' as [Hr' _].
  pose proof (proj2 (ymd2ord_spec _ _ _ Hr)) as E.
  pose proof (proj2 (ymd2ord_spec _ _ _ Hr')) as E'.
  unfold toordinal in *. cbn in *. rewrite Ho in E. rewrite Ho' in E'.
  congruence.
Qed.

(** Whatever the fields of [t], two units of fuel let the loop finish:
    it returns or it raises. *)
Lemma skip_weekend_total (fuel : nat) (t : datetime) :
  (2 <= fuel)%nat -> skip_weekend fuel t <> OutOfFuel.
Proof.
  intros Hf.
  assert (Hw : 0 <= weekday t < 7) by (apply Z.mod_pos_bound; lia).
  destruct (Z.lt_ge_cases (weekday t) 5) as [Hlt|Hge];
    [now rewrite skip_weekend_weekday|].
  destruct fuel as [|fuel]; [lia|]. rewrite skip_weekend_step by assumption.
  destruct (add_days t 1) as [t1| |] eqn:H1; cbn [res_bind];
    [|discriminate|now apply add_days_no_timeout in H1].
  destruct (add_days_date_spec t t1 1 H1) as [Ho1 _].
  assert (Hw1 : weekday t1 = (weekday t + 1) mod 7)
    by (unfold weekday; rewrite Ho1; Z.div_mod_to_equations; lia).
  destruct (Z.eq_dec (weekday t) 6) as [H6|H6].
  { rewrite skip_weekend_weekday; [discriminate|].
    rewrite Hw1, H6. reflexivity. }
  destruct fuel as [|fuel]; [lia|].
  rewrite skip_weekend_step
    by (rewrite Hw1; replace (weekday t) with 5 by lia; discriminate).
  destruct (add_days t1 1) as [t2| |] eqn:H2; cbn [res_bind];
    [|discriminate|now apply add_days_no_timeout in H2].
  destruct (add_days_date_spec t1 t2 1 H2) as [Ho2 _].
  rewrite skip_weekend_weekday; [discriminate|].
  unfold weekday in *. rewrite Ho2, Ho1. Z.div_mod_to_equations. lia.
Qed.

Lemma get_next_weekday_total (T : datetime) : _get_next_weekday T <> OutOfFuel.
Proof.
  unfold _get_next_weekday.
  destruct (add_days T 1) as [t1| |] eqn:H1; cbn [res_bind];
    [|discriminate|now apply add_days_no_timeout in H1].
  apply skip_weekend_total. lia.
Qed.

(** What [_get_next_weekday] computes, for every instant but those of
    the last day: the instant [days_to_next_weekday] days later, at the
    same time of day. *)
Lemma get_next_weekday_spec (T : datetime) :
  valid_datetime T = true ->
  dt_date T <> mkdate 9999 12 31 ->
  exists R, _get_next_weekday T = Ok R
    /\ valid_datetime R = true
    /\ toordinal R = toordinal T + days_to_next_weekday (weekday T)
    /\ time_of_day R = time_of_day T.
Proof.
  intros Hv Hmax. pose proof (toordinal_range T Hv) as Ho.
  assert (Hlt : toordinal T < _MAXORDINAL).
  { destruct (Z.eq_dec (toordinal T) _MAXORDINAL) as [E|]; [|lia].
    exfalso. apply Hmax. now apply toordinal_max. }
  pose proof Hv as Hv'. unfold valid_datetime in Hv'.
  apply andb_prop in Hv' as [Hd Ht].
  unfold _get_next_weekday.
  destruct (add_days_ok T 1 ltac:(lia)) as [t1 H1]. rewrite H1. cbn [res_bind].
  destruct (add_days_spec T t1 1 Ht H1) as (Ho1 & Hd1 & Hh1 & Hm1 & Hs1 & Hu1 & Hz1).
  assert (Hv1 : valid_datetime t1 = true).
  { unfold valid_datetime. rewrite Hd1.
    replace (check_time_fields _ _ _ _) with true by congruence. reflexivity. }
  destruct (skip_weekend_spec 7 t1 ltac:(lia) Hv1) as (R & -> & HvR & HoR & HtR).
  exists R. split; [reflexivity|]. split; [assumption|].
  split; [|rewrite HtR; unfold time_of_day; congruence].
  assert (Hw : weekday t1 = (weekday T + 1) mod 7).
  { unfold weekday. rewrite Ho1. Z.div_mod_to_equations. lia. }
  assert (HwT : 0 <= weekday T < 7) by (apply Z.mod_pos_bound; lia).
  rewrite HoR, Ho1, Hw. unfold weekend_offset, days_to_next_weekday.
  repeat match goal with
         | |- context [?a =? ?b] => destruct (Z.eqb_spec a b)
         end; Z.div_mod_to_equations; lia.
Qed.

Lemma days_to_next_weekday_cases (w : Z) :
  0 <= w < 7 ->
  (w = 4 /\ days_to_next_weekday w = 3)
  \/ (w = 5 /\ days_to_next_weekday w = 2)
  \/ (w <> 4 /\ w <> 5 /\ days_to_next_weekday w = 1).
Proof.
  intros Hw. unfold days_to_next_weekday.
  destruct (Z.eqb_spec w 4); [tauto|]. destruct (Z.eqb_spec w 5); tauto.
Qed.

(** The day reached is a weekday. *)
Lemma next_weekday_is_weekday (o : Z) :
  0 <= weekday_of_ordinal (o + days_to_next_weekday (weekday_of_ordinal o)) <= 4.
Proof.
  assert (Hw : 0 <= weekday_of_ordinal o < 7) by (apply Z.mod_pos_bound; lia).
  destruct (days_to_next_weekday_cases _ Hw) as [[E ->]|[[E ->]|(E4 & E5 & ->)]];
    unfold weekday_of_ordinal in *; Z.div_mod_to_equations; lia.
Qed.

(** C1 (amended). For every instant [T] whose date is not 9999-12-31,
    [_get_next_weekday T] returns a valid instant [R] that is the first
    day after [T] that is not a Saturday or Sunday (so it is [T] plus one
    day, advanced a day at a time over the weekend), with the time of day
    of [T]; [R] falls on Monday to Friday; from a Friday it is the Monday
    three days later, from a Wednesday the Thursday one day later. *)
Theorem next_weekday_correct (T : datetime) :
  valid_datetime T = true ->
  dt_date T <> mkdate 9999 12 31 ->
  exists R, _get_next_weekday T = Ok R
    /\ valid_datetime R = true
    /\ first_weekday_after (toordinal T) (toordinal R)
    /\ time_of_day R = time_of_day T
    /\ 0 <= weekday R <= 4
    /\ (weekday T = 4 -> toordinal R = toordinal T + 3 /\ weekday R = 0)
    /\ (weekday T = 2 -> toordinal R = toordinal T + 1 /\ weekday R = 3).
Proof.
  intros Hv Hmax.
  destruct (get_next_weekday_spec T Hv Hmax) as (R & HR & HvR & HoR & HtR).
  exists R. split; [assumption|]. split; [assumption|].
  assert (HwT : 0 <= weekday T < 7) by (apply Z.mod_pos_bound; lia).
  assert (HwR : weekday R = (toordinal R + 6) mod 7) by reflexivity.
  unfold first_weekday_after, weekday_of_ordinal.
  destruct (days_to_next_weekday_cases _ HwT) as [[E Hk]|[[E Hk]|(E4 & E5 & Hk)]];
    rewrite Hk in HoR; rewrite HwR, HoR; unfold weekday in *;
    repeat split; try assumption;
    try match goal with
        | |- forall k, _ < k < _ -> _ => intros k Hlt
        | |- _ = _ -> _ => intros Hcontra
        end;
    Z.div_mod_to_equations; lia.
Qed.

Lemma next_weekday_correct_witness :
  exists R, _get_next_weekday friday_0900 = Ok R
    /\ valid_datetime R = true
    /\ first_weekday_after (toordinal friday_0900) (toordinal R)
    /\ time_of_day R = time_of_day friday_0900
    /\ 0 <= weekday R <= 4
    /\ (weekday friday_0900 = 4
        -> toordinal R = toordinal friday_0900 + 3 /\ weekday R = 0)
    /\ (weekday friday_0900 = 2
        -> toordinal R = toordinal friday_0900 + 1 /\ weekday R = 3).
Proof.
  apply (next_weekday_correct friday_0900); [reflexivity | discriminate].
Defined.

(** C1 as stated fails on the last representable day: 9999-12-31 09:00 is
    a valid instant (a Friday), and adding one day to it overflows. *)
Lemma next_weekday_last_day :
  valid_datetime last_day_0900 = true
  /\ weekday last_day_0900 = 4
  /\ _get_next_weekday last_day_0900 = Raise OverflowError
  /\ ~ (exists R, _get_next_weekday last_day_0900 = Ok R /\ 0 <= weekday R <= 4).
Proof.
  repeat split; try reflexivity.
  intros (R & H & _). vm_compute in H. discriminate H.
Qed.

Example next_weekday_friday :
  _get_next_weekday friday_0900 = Ok (mkdatetime 2024 1 8 9 0 0 0 None)
  /\ weekday (mkdatetime 2024 1 8 9 0 0 0 None) = 0.
Proof. split; reflexivity. Qed.

Example next_weekday_wednesday :
  _get_next_weekday wednesday_0900 = Ok (mkdatetime 2024 1 4 9 0 0 0 None)
  /\ weekday (mkdatetime 2024 1 4 9 0 0 0 None) = 3.
Proof. split; reflexivity. Qed.

End NextWeekday.

(** ** Publishing one post *)

Section Publish.

Context {lib : PyLib}.

Lemma send_post_run (post : Post.t) (b : bot) :
  send_post post b
  = (Ok (telegram b (length (log b))),
     set_log b (log b ++ [publish_request (target_chat_id b) post])).
Proof.
  unfold send_post, publish_request, bind, gets, send_photo, send_message,
    make_request.
  destruct (truthy_bytes (Post.photo_data post) && nonempty (Post.content post));
    [reflexivity|].
  destruct (truthy_bytes (Post.photo_data post)); reflexivity.
Qed.

Lemma mark_post_as_posted_run (post_id : Z) (b : bot) :
  mark_post_as_posted post_id b
  = (Ok tt, set_posts b (update_row post_id (with_posted true) (posts b))).
Proof. reflexivity. Qed.

Lemma parse_scheduled_time_no_timeout (v : sqltext) :
  parse_scheduled_time v <> OutOfFuel.
Proof.
  destruct v as [s|bs]; cbn; [|discriminate].
  destruct (fromisoformat s); discriminate.
Qed.

Lemma next_occurrence_no_timeout (post : Post.t) :
  next_occurrence post <> OutOfFuel.
Proof.
  unfold next_occurrence.
  destruct (parse_scheduled_time (Post.scheduled_time post)) eqn:E; cbn;
    [apply get_next_weekday_total | discriminate
    | now apply parse_scheduled_time_no_timeout in E].
Qed.

Lemma reschedule_run (post : Post.t) (b : bot) :
  reschedule post b
  = match next_occurrence post with
    | Ok next =>
        (Ok tt, set_posts b (update_row (Post.id post) (rescheduled next) (posts b)))
    | Raise e => (Raise e, b)
    | OutOfFuel => (OutOfFuel, b)
    end.
Proof.
  unfold reschedule, next_occurrence, bind, lift.
  destruct (parse_scheduled_time (Post.scheduled_time post)) as [t| |];
    cbn [res_bind]; reflexivity.
Qed.

(** [_publish_post] never raises: it sends the request and, when the
    answer is ok, updates the row of the post's id. *)
Lemma publish_post_run (post : Post.t) (b : bot) :
  _publish_post post b
  = (Ok tt,
     let b1 := set_log b (log b ++ [publish_request (target_chat_id b) post]) in
     if telegram b (length (log b))
     then set_posts b1 (update_row (Post.id post) (publish_update post) (posts b))
     else b1).
Proof.
  unfold _publish_post, try_except at 1, bind at 1. rewrite send_post_run.
  cbv zeta. destruct (telegram b (length (log b))); [|reflexivity].
  unfold publish_update.
  destruct (Post.is_recurring post); [|reflexivity].
  unfold try_except. rewrite reschedule_run.
  pose proof (next_occurrence_no_timeout post) as Hn.
  destruct (next_occurrence post) as [next|e|]; [reflexivity|reflexivity|congruence].
Qed.

Lemma update_row_In (post_id : Z) (f : Post.t -> Post.t) (ps : list Post.t)
    (r : Post.t) :
  In r ps -> Post.id r = post_id -> In (f r) (update_row post_id f ps).
Proof.
  intros Hin Hid. unfold update_row. apply in_map_iff. exists r.
  rewrite Hid, Z.eqb_refl. auto.
Qed.

Lemma update_row_In_other (post_id : Z) (f : Post.t -> Post.t)
    (ps : list Post.t) (r : Post.t) :
  In r ps -> Post.id r <> post_id -> In r (update_row post_id f ps).
Proof.
  intros Hin Hid. unfold update_row. apply in_map_iff. exists r.
  apply Z.eqb_neq in Hid. rewrite Hid. auto.
Qed.

(** C3. A non-recurring post whose publish request is answered ok: the
    call returns, and the table is the old one with the rows of the
    post's id changed in the posted flag only, which is now true; the id,
    content, photo, file name, scheduled instant, recurring flag and
    creation time of the row, and every other row, are as before. *)
Theorem publish_one_time_post (b : bot) (post : Post.t) :
  Post.is_recurring post = false ->
  telegram b (length (log b)) = true ->
  let b' := after (_publish_post post) b in
  outcome (_publish_post post) b = Ok tt
  /\ posts b' = update_row (Post.id post) (with_posted true) (posts b)
  /\ (forall r, In r (posts b) -> Post.id r = Post.id post ->
      exists r', In r' (posts b')
        /\ Post.is_posted r' = true
        /\ Post.id r' = Post.id r
        /\ Post.content r' = Post.content r
        /\ Post.photo_data r' = Post.photo_data r
        /\ Post.photo_filename r' = Post.photo_filename r
        /\ Post.scheduled_time r' = Post.scheduled_time r
        /\ Post.is_recurring r' = Post.is_recurring r
        /\ Post.created_at r' = Post.created_at r)
  /\ (forall r, In r (posts b) -> Post.id r <> Post.id post -> In r (posts b')).
Proof.
  intros Hrec Hok b'. subst b'. unfold after, outcome.
  rewrite publish_post_run. cbv zeta. rewrite Hok. cbn [fst snd].
  unfold publish_update. rewrite Hrec. cbn [posts set_posts].
  split; [reflexivity|]. split; [reflexivity|]. split.
  - intros r Hin Hid. exists (with_posted true r).
    split; [now apply update_row_In|]. repeat split.
  - intros r Hin Hid. now apply update_row_In_other.
Qed.

(** C2 (amended). A recurring post whose stored instant parses to a valid
    [T] not dated 9999-12-31 and whose publish request is answered ok:
    the next weekday [R] of [T] exists and falls on Monday to Friday, and
    the table is the old one with the rows of the post's id given the
    scheduled instant [isoformat R] and the posted flag false.  [R] is
    computed from the stored [T]: [_publish_post] reads no clock. *)
Theorem publish_recurring_post (b : bot) (post : Post.t) (T : datetime) :
  Post.is_recurring post = true ->
  parse_scheduled_time (Post.scheduled_time post) = Ok T ->
  valid_datetime T = true ->
  dt_date T <> mkdate 9999 12 31 ->
  telegram b (length (log b)) = true ->
  let b' := after (_publish_post post) b in
  exists R, _get_next_weekday T = Ok R
    /\ 0 <= weekday R <= 4
    /\ outcome (_publish_post post) b = Ok tt
    /\ posts b' = update_row (Post.id post) (rescheduled R) (posts b)
    /\ (forall r, In r (posts b) -> Post.id r = Post.id post ->
        exists r', In r' (posts b')
          /\ Post.scheduled_time r' = Text (isoformat R)
          /\ Post.is_posted r' = false).
Proof.
  intros Hrec Hparse Hv Hmax Hok b'. subst b'.
  destruct (get_next_weekday_spec T Hv Hmax) as (R & HR & _ & HoR & _).
  exists R. split; [assumption|].
  split; [change (0 <= weekday_of_ordinal (toordinal R) <= 4); rewrite HoR;
          apply next_weekday_is_weekday|].
  unfold after, outcome. rewrite publish_post_run. cbv zeta.
  rewrite Hok. cbn [fst snd posts set_posts].
  unfold publish_update, next_occurrence. rewrite Hrec, Hparse. cbn [res_bind].
  rewrite HR.
  split; [reflexivity|]. split; [reflexivity|].
  intros r Hin Hid. exists (rescheduled R r).
  split; [now apply update_row_In|]. split; reflexivity.
Qed.

Lemma reschedule_raises (post : Post.t) (b : bot) (e : exn) :
  outcome (reschedule post) b = Raise e <-> next_occurrence post = Raise e.
Proof.
  unfold outcome. rewrite reschedule_run.
  destruct (next_occurrence post); cbn [fst]; split; congruence.
Qed.

(** C9. A recurring post whose publish request is answered ok but whose
    rescheduling raises (the stored instant does not parse, or there is
    no next day): [_publish_post] returns, and the table is the old one
    with the rows of the post's id marked posted and otherwise
    unchanged. *)
Theorem publish_recurring_reschedule_raises (b : bot) (post : Post.t) (e : exn) :
  Post.is_recurring post = true ->
  telegram b (length (log b)) = true ->
  outcome (reschedule post) (after (send_post post) b) = Raise e ->
  let b' := after (_publish_post post) b in
  outcome (_publish_post post) b = Ok tt
  /\ posts b' = update_row (Post.id post) (with_posted true) (posts b)
  /\ (forall r, In r (posts b) -> Post.id r = Post.id post ->
      exists r', In r' (posts b')
        /\ Post.is_posted r' = true
        /\ Post.scheduled_time r' = Post.scheduled_time r).
Proof.
  intros Hrec Hok Hraise b'. subst b'. apply reschedule_raises in Hraise.
  unfold after, outcome. rewrite publish_post_run. cbv zeta.
  rewrite Hok. cbn [fst snd posts set_posts].
  unfold publish_update. rewrite Hrec, Hraise.
  split; [reflexivity|]. split; [reflexivity|].
  intros r Hin Hid. exists (with_posted true r).
  split; [now apply update_row_In|]. split; reflexivity.
Qed.

End Publish.

(** The same on sample data, with the ASCII instance of the library. *)

Lemma publish_one_time_post_witness :
  let b := sample_bot [one_time_post] in
  let b' := after (_publish_post (lib := AsciiLib.lib) one_time_post) b in
  outcome (_publish_post (lib := AsciiLib.lib) one_time_post) b = Ok tt
  /\ posts b' = update_row 1 (with_posted true) (posts b)
  /\ (forall r, In r (posts b) -> Post.id r = 1 ->
      exists r', In r' (posts b')
        /\ Post.is_posted r' = true
        /\ Post.id r' = Post.id r
        /\ Post.content r' = Post.content r
        /\ Post.photo_data r' = Post.photo_data r
        /\ Post.photo_filename r' = Post.photo_filename r
        /\ Post.scheduled_time r' = Post.scheduled_time r
        /\ Post.is_recurring r' = Post.is_recurring r
        /\ Post.created_at r' = Post.created_at r)
  /\ (forall r, In r (posts b) -> Post.id r <> 1 -> In r (posts b')).
Proof.
  apply (publish_one_time_post (lib := AsciiLib.lib)
           (sample_bot [one_time_post]) one_time_post); reflexivity.
Defined.

Lemma publish_recurring_post_witness :
  let b := sample_bot [recurring_post] in
  let b' := after (_publish_post (lib := AsciiLib.lib) recurring_post) b in
  exists R, _get_next_weekday friday_0900 = Ok R
    /\ 0 <= weekday R <= 4
    /\ outcome (_publish_post (lib := AsciiLib.lib) recurring_post) b = Ok tt
    /\ posts b' = update_row 2 (rescheduled (lib := AsciiLib.lib) R) (posts b)
    /\ (forall r, In r (posts b) -> Post.id r = 2 ->
        exists r', In r' (posts b')
          /\ Post.scheduled_time r' = Text (AsciiLib.print_iso R)
          /\ Post.is_posted r' = false).
Proof.
  apply (publish_recurring_post (lib := AsciiLib.lib)
           (sample_bot [recurring_post]) recurring_post friday_0900);
    [reflexivity | reflexivity | reflexivity | discriminate | reflexivity].
Defined.

(** C2 as stated fails for a recurring post stored at 9999-12-31 09:00:
    the instant parses and the publish succeeds, but there is no next
    weekday, and the post ends up posted with its instant unchanged. *)
Lemma publish_recurring_last_day :
  let b := sample_bot [last_day_post] in
  Post.is_recurring last_day_post = true
  /\ parse_scheduled_time (lib := AsciiLib.lib)
       (Post.scheduled_time last_day_post) = Ok last_day_0900
  /\ valid_datetime last_day_0900 = true
  /\ telegram b (length (log b)) = true
  /\ _get_next_weekday last_day_0900 = Raise OverflowError
  /\ posts (after (_publish_post (lib := AsciiLib.lib) last_day_post) b)
     = [with_posted true last_day_post].
Proof. repeat split; reflexivity. Qed.

Lemma publish_recurring_reschedule_raises_witness :
  let b := sample_bot [corrupt_post] in
  let b' := after (_publish_post (lib := AsciiLib.lib) corrupt_post) b in
  outcome (_publish_post (lib := AsciiLib.lib) corrupt_post) b = Ok tt
  /\ posts b' = update_row 4 (with_posted true) (posts b)
  /\ (forall r, In r (posts b) -> Post.id r = 4 ->
      exists r', In r' (posts b')
        /\ Post.is_posted r' = true
        /\ Post.scheduled_time r' = Post.scheduled_time r).
Proof.
  apply (publish_recurring_reschedule_raises (lib := AsciiLib.lib)
           (sample_bot [corrupt_post]) corrupt_post ValueError); reflexivity.
Defined.


(** ** One tick of the scheduler *)

(** [ORDER BY] returns the rows it is given, each as often. *)
Lemma insert_by_scheduled_time_Permutation (p : Post.t) (l : list Post.t) :
  insert_by_scheduled_time p l ≡ₚ p :: l.
Proof.
  induction l as [|q l IH]; cbn [insert_by_scheduled_time]; [reflexivity|].
  destruct (sqltext_leb _ _); [reflexivity|].
  rewrite IH. apply Permutation_swap.
Qed.

Lemma order_by_Permutation (l : list Post.t) :
  order_by_scheduled_time l ≡ₚ l.
Proof.
  induction l as [|p l IH]; [reflexivity|].
  cbn [order_by_scheduled_time fold_right].
  rewrite insert_by_scheduled_time_Permutation. now constructor.
Qed.

Section Tick.

Context {lib : PyLib}.
Variable clk : clock.

Lemma dt_le_no_timeout (a c : datetime) : dt_le a c <> OutOfFuel.
Proof.
  unfold dt_le, dt_cmp. destruct (tzinfo a), (tzinfo c); discriminate.
Qed.

(** The body of the loop: a record that is due is published, any other is
    skipped; nothing is raised either way. *)
Lemma check_post_run (post : Post.t) (b : bot) :
  check_post clk post b
  = if is_due (now clk) post then _publish_post post b else (Ok tt, b).
Proof.
  unfold check_post, is_due, try_except, bind, lift.
  destruct (Post.scheduled_time post) as [s|bs]; [|reflexivity].
  destruct (fromisoformat s) as [t|]; cbn [or_raise]; [|reflexivity].
  pose proof (dt_le_no_timeout t (now clk)) as Hn.
  destruct (dt_le t (now clk)) as [[|]|e|]; try reflexivity; [|congruence].
  now rewrite publish_post_run.
Qed.

Lemma publish_update_id (post p : Post.t) :
  Post.id (publish_update post p) = Post.id p.
Proof.
  unfold publish_update. destruct (Post.is_recurring post); [|reflexivity].
  destruct (next_occurrence post); reflexivity.
Qed.

Lemma ids_update_row (post_id : Z) (f : Post.t -> Post.t) (ps : list Post.t) :
  (forall p, Post.id (f p) = Post.id p) ->
  ids (update_row post_id f ps) = ids ps.
Proof.
  intros Hf. unfold ids, update_row. rewrite map_map. apply map_ext.
  intros p. destruct (Post.id p =? post_id); auto.
Qed.

Lemma check_post_after (x : Post.t) (b : bot) :
  let b1 := snd (check_post clk x b) in
  fst (check_post clk x b) = Ok tt
  /\ same_frame b b1
  /\ log b1 = log b ++ (if is_due (now clk) x
                        then [publish_request (target_chat_id b) x] else [])
  /\ posts b1 = update_row (Post.id x) (step_update (now clk) b x) (posts b).
Proof.
  cbv zeta. rewrite check_post_run. unfold step_update.
  destruct (is_due (now clk) x); cbn [andb].
  - rewrite publish_post_run. cbv zeta. cbn [fst snd].
    destruct (telegram b (length (log b))); cbn;
      (split; [reflexivity|]); (split; [repeat split|]);
      (split; [reflexivity|]); [reflexivity|].
    unfold update_row. rewrite <- (map_id (posts b)) at 1.
    apply map_ext. intros p. now destruct (Post.id p =? Post.id x).
  - cbn [fst snd]. split; [reflexivity|]. split; [repeat split|].
    split; [now rewrite app_nil_r|].
    unfold update_row. rewrite <- (map_id (posts b)) at 1.
    apply map_ext. intros p. now destruct (Post.id p =? Post.id x).
Qed.

Lemma step_update_id (b : bot) (x p : Post.t) :
  Post.id (step_update (now clk) b x p) = Post.id p.
Proof.
  unfold step_update.
  destruct (is_due (now clk) x && telegram b (length (log b)));
    [apply publish_update_id | reflexivity].
Qed.

Lemma Forall2_elem_of_l {A B} (P : A -> B -> Prop) (l : list A) (k : list B) :
  Forall2 P l k -> Forall2 (fun x y => x ∈ l /\ P x y) l k.
Proof.
  induction 1 as [|x y l k Hxy _ IH]; constructor.
  - split; [left | assumption].
  - eapply Forall2_impl; [exact IH|]. intros a c [Ha Hp].
    split; [now right | assumption].
Qed.

Lemma Forall2_map_l {A B C} (f : A -> B) (P : B -> C -> Prop)
    (l : list A) (k : list C) :
  Forall2 P (map f l) k -> Forall2 (fun x y => P (f x) y) l k.
Proof.
  revert k. induction l as [|a l IH]; intros k H; inversion H; subst;
    constructor; auto.
Qed.

Lemma ids_unique (ps : list Post.t) (p q : Post.t) :
  NoDup (ids ps) -> p ∈ ps -> q ∈ ps -> Post.id p = Post.id q -> p = q.
Proof.
  induction ps as [|a ps IH]; intros Hnd Hp Hq Hid; [inversion Hp|].
  cbn in Hnd. apply NoDup_cons in Hnd as [Ha Hnd].
  assert (Hmem : forall r, r ∈ ps -> Post.id r ∈ ids ps)
    by (intros r Hr; apply list_elem_of_fmap; eauto).
  apply elem_of_cons in Hp as [->|Hp], Hq as [->|Hq]; auto.
  - exfalso. apply Ha. rewrite Hid. auto.
  - exfalso. apply Ha. rewrite <- Hid. auto.
Qed.

Lemma Forall2_pass_row_nil (b : bot) (l : list Post.t) :
  Forall2 (pass_row (now clk) [] b b) l l.
Proof.
  induction l as [|p l IH]; constructor; [|assumption].
  unfold pass_row.
  rewrite bool_decide_eq_false_2 by (cbn; apply not_elem_of_nil).
  reflexivity.
Qed.

(** The loop over a list of records that are rows of the table, no two
    with the same id: it returns, and every row of the table has the fate
    [pass_row] describes. *)
Lemma for_each_check_post (L : list Post.t) :
  NoDup (ids L) ->
  forall b, NoDup (ids (posts b)) -> (forall p, p ∈ L -> p ∈ posts b) ->
  let r := for_each L (check_post clk) b in
  fst r = Ok tt
  /\ same_frame b (snd r)
  /\ (exists l, log (snd r) = log b ++ l)
  /\ Forall2 (pass_row (now clk) L b (snd r)) (posts b) (posts (snd r)).
Proof.
  induction L as [|x L IH]; intros Hnd b Hb Hin; cbv zeta.
  { cbn. split; [reflexivity|]. split; [repeat split|].
    split; [exists []; now rewrite app_nil_r|].
    apply Forall2_pass_row_nil. }
  cbn [for_each]. unfold bind.
  destruct (check_post_after x b) as (H1 & Hfr & Hlog & Hposts).
  destruct (check_post clk x b) as [r1 b1]. cbn [fst snd] in *. subst r1.
  cbn in Hnd. apply NoDup_cons in Hnd as [Hx HndL].
  assert (Hxb : x ∈ posts b) by (apply Hin; left).
  assert (Hmem : forall p, p ∈ L -> Post.id p ∈ ids L)
    by (intros p Hp; apply list_elem_of_fmap; eauto).
  destruct (IH HndL b1) as (Hr & Hfr' & [l Hl] & HF).
  { rewrite Hposts, ids_update_row; [assumption|apply step_update_id]. }
  { intros p Hp. rewrite Hposts. apply list_elem_of_In.
    apply update_row_In_other; [apply list_elem_of_In, Hin; now right|].
    intros E. apply Hx. rewrite <- E. auto. }
  destruct Hfr as (Ft & Fs & Fa & Fu & Fn).
  destruct Hfr' as (Ft' & Fs' & Fa' & Fu' & Fn').
  split; [assumption|].
  split; [unfold same_frame; repeat split; congruence|].
  split; [exists ((if is_due (now clk) x
                   then [publish_request (target_chat_id b) x] else []) ++ l);
          rewrite Hl, Hlog; now rewrite app_assoc|].
  rewrite Hposts in HF. unfold update_row in HF.
  apply Forall2_map_l in HF. apply Forall2_elem_of_l in HF.
  eapply Forall2_impl; [exact HF|]. clear HF.
  intros p p' [Hp Hrow]. cbv beta in Hrow. unfold pass_row in *.
  destruct (Z.eqb_spec (Post.id p) (Post.id x)) as [E|E].
  - (* the row of the record just handled *)
    assert (p = x) by (now apply (ids_unique (posts b))). subst p.
    rewrite bool_decide_eq_false_2 in Hrow
      by (rewrite step_update_id; exact Hx).
    cbn [andb] in Hrow. subst p'.
    rewrite bool_decide_eq_true_2 by (cbn; left).
    cbn [andb]. unfold step_update.
    destruct (is_due (now clk) x) eqn:Hdue; cbn [andb]; [|reflexivity].
    exists (length (log b)). split; [lia|].
    split; [|now destruct (telegram b (length (log b)))].
    rewrite Hl, Hlog, <- app_assoc. apply list_lookup_middle. reflexivity.
  - (* any other row *)
    assert (Hiff : bool_decide (Post.id p ∈ ids (x :: L))
                   = bool_decide (Post.id p ∈ ids L)).
    { apply bool_decide_ext. cbn. rewrite elem_of_cons. intuition. }
    rewrite Hiff.
    destruct (bool_decide (Post.id p ∈ ids L) && is_due (now clk) p);
      [|assumption].
    destruct Hrow as (k & Hk & Hlk & Hp'). exists k.
    split; [rewrite Hlog, length_app in Hk; lia|].
    split; [now rewrite <- Ft|]. now rewrite <- Fn.
Qed.

Lemma NoDup_ids_filter (f : Post.t -> bool) (ps : list Post.t) :
  NoDup (ids ps) -> NoDup (ids (List.filter f ps)).
Proof.
  induction ps as [|a ps IH]; intros Hnd; [assumption|].
  cbn in Hnd. apply NoDup_cons in Hnd as [Ha Hnd]. cbn [List.filter].
  destruct (f a); [|auto]. cbn. apply NoDup_cons. split; [|auto].
  intros Hin. apply Ha. apply list_elem_of_fmap in Hin as (q & Hq & Hin).
  apply list_elem_of_fmap. exists q. split; [assumption|].
  apply list_elem_of_In. apply list_elem_of_In, filter_In in Hin. tauto.
Qed.

Lemma unparseable_not_due (p : Post.t) :
  unparseable p = true -> is_due (now clk) p = false.
Proof.
  unfold unparseable, is_due, parse_scheduled_time.
  destruct (Post.scheduled_time p) as [s|bs]; [|reflexivity].
  destruct (fromisoformat s); [discriminate | reflexivity].
Qed.

(** One tick: it returns; it touches nothing but the table and the log,
    and the log only grows; every row of the table has the fate
    [tick_row] describes (the ids being those of a primary key). *)
Theorem tick_rows (b : bot) :
  NoDup (ids (posts b)) ->
  let r := _check_and_publish_posts clk b in
  fst r = Ok tt
  /\ same_frame b (snd r)
  /\ (exists l, log (snd r) = log b ++ l)
  /\ Forall2 (tick_row (now clk) b (snd r)) (posts b) (posts (snd r)).
Proof.
  intros Hb. cbv zeta.
  unfold _check_and_publish_posts, bind, get_posts, gets.
  set (unposted := List.filter (fun p => negb (Post.is_posted p)) (posts b)).
  set (L := order_by_scheduled_time unposted).
  assert (HL : L ≡ₚ unposted) by apply order_by_Permutation.
  assert (Hsub : forall p, p ∈ L <-> p ∈ posts b /\ Post.is_posted p = false).
  { intros p. rewrite HL. unfold unposted.
    rewrite !list_elem_of_In, filter_In, negb_true_iff. reflexivity. }
  destruct (for_each_check_post L) with (b := b) as (Hr & Hfr & Hlog & HF).
  { unfold ids. change (map Post.id L) with (Post.id <$> L). rewrite HL.
    apply NoDup_ids_filter, Hb. }
  { assumption. }
  { intros p Hp. now apply Hsub. }
  split; [assumption|]. split; [assumption|]. split; [assumption|].
  apply Forall2_elem_of_l in HF. eapply Forall2_impl; [exact HF|].
  intros p p' [Hp Hrow]. cbv beta in Hrow. unfold pass_row in Hrow.
  unfold tick_row.
  replace (negb (Post.is_posted p)) with (bool_decide (Post.id p ∈ ids L));
    [assumption|].
  destruct (Post.is_posted p) eqn:Hposted; cbn [negb].
  - apply bool_decide_eq_false_2. intros Hin.
    apply list_elem_of_fmap in Hin as (q & Hq & Hin).
    apply Hsub in Hin as [Hin Hqp].
    assert (p = q) by (now apply (ids_unique (posts b))). congruence.
  - apply bool_decide_eq_true_2. apply list_elem_of_fmap. exists p.
    split; [reflexivity|]. now apply Hsub.
Qed.

(** C6. In a table whose ids are those of a primary key, with an unposted
    record [bad] whose stored instant cannot be parsed: the tick returns
    without raising; [bad] is in the table afterwards, at its place and
    unchanged (so still unposted); and every other unposted record that
    is due has been sent and has the row the answer to its request makes
    of it, exactly as [tick_row] says for a table without [bad]. *)
Theorem tick_skips_unparseable (b : bot) (bad : Post.t) :
  NoDup (ids (posts b)) ->
  In bad (posts b) ->
  Post.is_posted bad = false ->
  unparseable bad = true ->
  let b' := after (_check_and_publish_posts clk) b in
  outcome (_check_and_publish_posts clk) b = Ok tt
  /\ (forall i, posts b !! i = Some bad -> posts b' !! i = Some bad)
  /\ In bad (posts b')
  /\ Forall2 (tick_row (now clk) b b') (posts b) (posts b')
  /\ (forall p, In p (posts b) -> Post.is_posted p = false ->
      is_due (now clk) p = true ->
      exists k : nat,
        (length (log b) <= k)%nat
        /\ log b' !! k = Some (publish_request (target_chat_id b) p)
        /\ In (if telegram b k then publish_update p p else p) (posts b')).
Proof.
  intros Hb Hin Hposted Hbad. cbv zeta. unfold outcome, after.
  destruct (tick_rows b Hb) as (Hr & _ & _ & HF).
  assert (Hplace : forall i p, posts b !! i = Some p ->
            exists p', posts (snd (_check_and_publish_posts clk b)) !! i = Some p'
                       /\ tick_row (now clk) b
                            (snd (_check_and_publish_posts clk b)) p p').
  { intros i p Hi. eapply Forall2_lookup_l in HF as (p' & Hi' & Hrow); eauto. }
  assert (Hkeep : forall i, posts b !! i = Some bad ->
            posts (snd (_check_and_publish_posts clk b)) !! i = Some bad).
  { intros i Hi. destruct (Hplace i bad Hi) as (p' & Hi' & Hrow).
    unfold tick_row in Hrow.
    rewrite (unparseable_not_due bad Hbad), andb_false_r in Hrow. congruence. }
  split; [assumption|]. split; [assumption|]. split.
  { apply list_elem_of_In in Hin. apply list_elem_of_lookup in Hin as [i Hi].
    apply list_elem_of_In, list_elem_of_lookup. exists i. auto. }
  split; [assumption|].
  intros p Hp Hpp Hdue. apply list_elem_of_In, list_elem_of_lookup in Hp as [i Hi].
  destruct (Hplace i p Hi) as (p' & Hi' & Hrow).
  unfold tick_row in Hrow. rewrite Hpp, Hdue in Hrow. cbn [negb andb] in Hrow.
  destruct Hrow as (k & Hk & Hlk & Hp'). exists k.
  split; [assumption|]. split; [assumption|].
  rewrite <- Hp'. apply list_elem_of_In, list_elem_of_lookup. eauto.
Qed.

End Tick.

Lemma tick_skips_unparseable_witness :
  let b := sample_bot [one_time_post; corrupt_post; recurring_post; future_post] in
  let tick := _check_and_publish_posts (lib := AsciiLib.lib) sample_clock in
  let b' := after tick b in
  outcome tick b = Ok tt
  /\ (forall i, posts b !! i = Some corrupt_post -> posts b' !! i = Some corrupt_post)
  /\ In corrupt_post (posts b')
  /\ Forall2 (tick_row (lib := AsciiLib.lib) (now sample_clock) b b')
       (posts b) (posts b')
  /\ (forall p, In p (posts b) -> Post.is_posted p = false ->
      is_due (lib := AsciiLib.lib) (now sample_clock) p = true ->
      exists k : nat,
        (length (log b) <= k)%nat
        /\ log b' !! k = Some (publish_request (target_chat_id b) p)
        /\ In (if telegram b k
               then publish_update (lib := AsciiLib.lib) p p else p) (posts b')).
Proof.
  apply (tick_skips_unparseable (lib := AsciiLib.lib) sample_clock
           (sample_bot [one_time_post; corrupt_post; recurring_post; future_post])
           corrupt_post).
  - apply NoDup_ListNoDup. vm_compute.
    repeat (constructor; [simpl; intuition discriminate|]). constructor.
  - simpl. auto.
  - reflexivity.
  - reflexivity.
Defined.

(** The tick on the sample table: the two due posts are handled, the corrupt
    and the future one are as they were. *)
Example tick_on_sample_table :
  posts (after (_check_and_publish_posts (lib := AsciiLib.lib) sample_clock)
           (sample_bot [one_time_post; corrupt_post; recurring_post; future_post]))
  = [with_posted true one_time_post; corrupt_post;
     rescheduled (lib := AsciiLib.lib) (mkdatetime 2024 1 8 9 0 0 0 None)
       recurring_post;
     future_post].
Proof. vm_compute; reflexivity. Qed.

(** ** Confirming a time *)

Section TimeConfirm.

Context {lib : PyLib}.
Variable clk : clock.

(** C4 (amended). A wizard session with a selected date: when the
    candidate instant built from the date and the chosen hour and minute
    is strictly earlier than the current instant, the confirmation is
    answered with the corrective message and nothing else happens: the
    sessions (state and draft), the table and the rest of the bot are as
    before. *)
Theorem time_confirm_in_the_past (b : bot) (chat_id : string)
    (user_id message_id hour minute : Z) (u : user_state) (pd : Draft.t)
    (s : string) (date_obj candidate : datetime) :
  user_states b !! user_id = Some u ->
  post_data u = Some pd ->
  Draft.selected_date pd = Some s ->
  s <> ""%string ->
  strptime_ymd s = Some date_obj ->
  replace_hour_minute date_obj hour minute = Ok candidate ->
  dt_lt candidate (now clk) = Ok true ->
  let r := _handle_time_confirm clk chat_id user_id message_id hour minute b in
  fst r = Ok tt
  /\ user_states (snd r) = user_states b
  /\ posts (snd r) = posts b
  /\ log (snd r) = log b ++ [editMessageText chat_id message_id M_past_time None]
  /\ snd r = set_log b (log (snd r)).
Proof.
  intros Hu Hpd Hsel Hs Hparse Hrep Hlt. cbv zeta.
  assert (Hrun : _handle_time_confirm clk chat_id user_id message_id hour minute b
                 = (Ok tt, set_log b (log b ++ [editMessageText chat_id message_id
                                                 M_past_time None]))).
  { unfold _handle_time_confirm, bind at 1, lookup_session, gets.
    rewrite Hu, Hpd, Hsel.
    assert (Ht : truthy_str (Some s) = true)
      by (destruct s; [congruence|reflexivity]).
    rewrite Ht. cbn [negb default].
    unfold try_except, bind, lift. rewrite Hparse. cbn [or_raise].
    rewrite Hrep, Hlt. reflexivity. }
  rewrite Hrun. cbn. repeat split.
Qed.

End TimeConfirm.

Lemma time_confirm_in_the_past_witness :
  let b := wizard_bot picking_time in
  let r := _handle_time_confirm (lib := AsciiLib.lib) sample_clock "42" 7 99 9 0 b in
  fst r = Ok tt
  /\ user_states (snd r) = user_states b
  /\ posts (snd r) = posts b
  /\ log (snd r) = log b ++ [editMessageText "42" 99 M_past_time None]
  /\ snd r = set_log b (log (snd r)).
Proof.
  apply (time_confirm_in_the_past (lib := AsciiLib.lib) sample_clock
           (wizard_bot picking_time) "42" 7 99 9 0 picking_time
           (Draft.mk (Some "hello") None None (Some "2024-01-05") None)
           "2024-01-05" (mkdatetime 2024 1 5 0 0 0 0 None) friday_0900);
    [reflexivity | reflexivity | reflexivity | discriminate
    | reflexivity | reflexivity | reflexivity].
Defined.

(** C4 as stated fails when the candidate equals the current instant: it
    is not strictly later than now, yet the check [scheduled_datetime <
    now] lets it pass, and the session moves on with the instant
    recorded. *)
Lemma time_confirm_at_now :
  let b := wizard_bot picking_time in
  let r := _handle_time_confirm (lib := AsciiLib.lib) clock_0900 "42" 7 99 9 0 b in
  replace_hour_minute (mkdatetime 2024 1 5 0 0 0 0 None) 9 0 = Ok friday_0900
  /\ now clock_0900 = friday_0900
  /\ dt_lt (now clock_0900) friday_0900 = Ok false
  /\ user_states (snd r) !! 7
     = Some (UserState waiting_for_recurring
               (Some (Draft.mk (Some "hello") None None (Some "2024-01-05")
                        (Some "2024-01-05T09:00:00")))
               None None None)
  /\ user_states (snd r) <> user_states b.
Proof.
  cbv zeta. split; [reflexivity|]. split; [reflexivity|]. split; [reflexivity|].
  assert (H : user_states
                (snd (_handle_time_confirm (lib := AsciiLib.lib) clock_0900
                        "42" 7 99 9 0 (wizard_bot picking_time))) !! 7
              = Some (UserState waiting_for_recurring
                        (Some (Draft.mk (Some "hello") None None
                                 (Some "2024-01-05") (Some "2024-01-05T09:00:00")))
                        None None None))
    by (vm_compute; reflexivity).
  split; [exact H|].
  intros E. rewrite E in H. vm_compute in H. discriminate H.
Qed.

(** ** The time picker *)

Section TimePicker.

Context {lib : PyLib}.
Variable clk : clock.






End TimePicker.

(** ** The calendar *)

Section Calendar.

Context {lib : PyLib}.
Variable clk : clock.

Lemma res_map_total {A B} (f : A -> res B) (g : A -> B) (l : list A) :
  (forall x, In x l -> f x = Ok (g x)) -> res_map f l = Ok (map g l).
Proof.
  induction l as [|a l IH]; intros H; [reflexivity|].
  cbn [res_map map]. rewrite (H a) by (left; reflexivity). cbn [res_bind].
  rewrite IH by (intros x Hx; apply H; right; exact Hx). reflexivity.
Qed.

Lemma weeks_of_In (fuel : nat) (days week : list Z) (day : Z) :
  In week (PyCalendar.weeks_of fuel days) -> In day week -> In day days.
Proof.
  revert days. induction fuel as [|fuel IH]; intros days Hw Hd; [destruct Hw|].
  cbn [PyCalendar.weeks_of] in Hw. destruct days as [|d0 days']; [destruct Hw|].
  rewrite <- (firstn_skipn 7 (d0 :: days')). apply in_or_app.
  destruct Hw as [<-|Hw]; [left; exact Hd | right; now apply IH].
Qed.

Lemma days_in_month_ge_28 (year month : Z) :
  1 <= month <= 12 -> 28 <= _days_in_month year month.
Proof.
  intros H. unfold _days_in_month.
  destruct ((month =? 2) && _is_leap year); [lia|].
  assert (C : month = 1 \/ month = 2 \/ month = 3 \/ month = 4 \/ month = 5
              \/ month = 6 \/ month = 7 \/ month = 8 \/ month = 9
              \/ month = 10 \/ month = 11 \/ month = 12) by lia.
  repeat (destruct C as [->|C]; [cbn; lia|]). subst. cbn. lia.
Qed.

Lemma mdays_days_in_month (year month : Z) :
  _DAYS_IN_MONTH month + (if (month =? 2) && _is_leap year then 1 else 0)
  = _days_in_month year month.
Proof.
  unfold _days_in_month.
  destruct (Z.eqb_spec month 2) as [->|]; cbn [andb];
    [destruct (_is_leap year); reflexivity | lia].
Qed.

(** The month grid exists for a month of a representable year, and its
    entries are 0 (padding) or days of the month. *)
Lemma monthcalendar_days (year month : Z) :
  MINYEAR <= year <= MAXYEAR -> 1 <= month <= 12 ->
  exists cal, PyCalendar.monthcalendar year month = Ok cal
    /\ forall week day, In week cal -> In day week ->
         day = 0 \/ 1 <= day <= _days_in_month year month.
Proof.
  intros Hy Hm. pose proof (days_in_month_ge_28 year month Hm) as H28.
  unfold PyCalendar.monthcalendar, PyCalendar.itermonthdays,
    PyCalendar.monthrange, PyCalendar.weekday.
  replace ((1 <=? month) && (month <=? 12)) with true
    by (symmetry; apply andb_true_intro; split; apply Z.leb_le; lia).
  replace ((MINYEAR <=? year) && (year <=? MAXYEAR)) with true
    by (symmetry; apply andb_true_intro; split; apply Z.leb_le; lia).
  rewrite date_new_checked.
  2:{ unfold check_date_fields.
      repeat (apply andb_true_intro; split); apply Z.leb_le; lia. }
  cbn [res_bind]. rewrite mdays_days_in_month.
  eexists. split; [reflexivity|].
  intros week day Hw Hd. apply (weeks_of_In _ _ _ _ Hw) in Hd.
  apply in_app_or in Hd as [Hd|Hd];
    [left; apply list_elem_of_In, elem_of_replicate in Hd; tauto|].
  apply in_app_or in Hd as [Hd|Hd];
    [|left; apply list_elem_of_In, elem_of_replicate in Hd; tauto].
  right. apply list_elem_of_In, elem_of_seqZ in Hd. lia.
Qed.

Lemma day_cell_total (today : date) (year month : Z) (selected_day : option Z)
    (day : Z) :
  MINYEAR <= year <= MAXYEAR -> 1 <= month <= 12 ->
  day = 0 \/ 1 <= day <= _days_in_month year month ->
  day_cell today year month selected_day day
  = Ok (grid_cell today year month selected_day day).
Proof.
  intros Hy Hm Hd. unfold day_cell, grid_cell.
  destruct (Z.eqb_spec day 0) as [->|Hne]; [reflexivity|].
  destruct Hd as [Hd|Hd]; [contradiction|].
  rewrite date_new_checked.
  2:{ unfold check_date_fields.
      repeat (apply andb_true_intro; split); apply Z.leb_le; lia. }
  cbn [res_bind]. unfold tag_of, tagged_cell.
  destruct (date_lt (mkdate year month day) today); [reflexivity|].
  destruct (bool_decide (Some day = selected_day)); reflexivity.
Qed.

Lemma tag_of_cases (today : date) (year month : Z) (selected_day : option Z)
    (day : Z) :
  let past := date_lt (mkdate year month day) today in
  (tag_of today year month selected_day day = Past_disabled <-> past = true)
  /\ (tag_of today year month selected_day day = Selected
      <-> past = false /\ selected_day = Some day)
  /\ (tag_of today year month selected_day day = Selectable
      <-> past = false /\ selected_day <> Some day).
Proof.
  cbv zeta. unfold tag_of.
  destruct (date_lt (mkdate year month day) today).
  { repeat split; try tauto; try discriminate; intros [? ?]; discriminate. }
  destruct (bool_decide_reflect (Some day = selected_day)) as [E|E].
  - repeat split; try tauto; try discriminate; try congruence.
    intros [_ H]. congruence.
  - repeat split; try tauto; try discriminate; try congruence.
    intros [_ H]. congruence.
Qed.

Lemma press_cal_ignore (b : bot) (query_id chat_id : string)
    (user_id message_id : Z) :
  process_callback_query clk
    (CallbackQuery query_id cal_ignore chat_id user_id message_id) b
  = (Ok tt, set_log b (log b ++ [answerCallbackQuery query_id None])).
Proof. reflexivity. Qed.

(** C5. For a month of a representable year and any optional selected
    day, the calendar is rendered: a navigation row, the weekday header,
    one row per week of the month grid, and the control row.  Every
    populated cell is a day of the month and carries exactly one of the
    three tags, decided by comparing its date with today and its day with
    the selected day; the three tagged buttons differ.  A cell dated
    before today is tagged past-disabled, whatever is selected, and its
    button carries [cal_ignore], on which the handler only answers the
    query: no message is edited, and sessions and table stay.  The
    control row holds a Confirm button exactly when a selected day is
    given (and is not 0, which no cell carries), and always Cancel. *)
Theorem calendar_render (today : date) (year month : Z)
    (selected_day : option Z) :
  MINYEAR <= year <= MAXYEAR -> 1 <= month <= 12 ->
  exists nav cal,
    PyCalendar.monthcalendar year month = Ok cal
    /\ generate_calendar today year month selected_day
       = Ok ([nav; weekday_row]
             ++ map (map (grid_cell today year month selected_day)) cal
             ++ [control_row year month selected_day])
    /\ (forall week day, In week cal -> In day week -> day <> 0 ->
        1 <= day <= _days_in_month year month
        /\ grid_cell today year month selected_day day
           = tagged_cell year month day
               (tag_of today year month selected_day day))
    /\ (forall day t1 t2,
        tagged_cell year month day t1 = tagged_cell year month day t2 -> t1 = t2)
    /\ (forall day,
        let past := date_lt (mkdate year month day) today in
        let tag := tag_of today year month selected_day day in
        (tag = Past_disabled <-> past = true)
        /\ (tag = Selected <-> past = false /\ selected_day = Some day)
        /\ (tag = Selectable <-> past = false /\ selected_day <> Some day)
        /\ (past = true ->
            callback_data (tagged_cell year month day tag) = cal_ignore))
    /\ (forall b query_id chat_id user_id message_id,
        let r := process_callback_query clk
                   (CallbackQuery query_id cal_ignore chat_id user_id message_id)
                   b in
        r = (Ok tt, set_log b (log b ++ [answerCallbackQuery query_id None]))
        /\ user_states (snd r) = user_states b
        /\ posts (snd r) = posts b)
    /\ ((exists c, In (Button L_confirm_date c)
                     (control_row year month selected_day))
        <-> exists d, selected_day = Some d /\ d <> 0)
    /\ (forall d, selected_day = Some d -> d <> 0 ->
        In (Button L_confirm_date (cal_confirm_ year month d))
          (control_row year month selected_day))
    /\ In (Button L_cancel cal_cancel) (control_row year month selected_day).
Proof.
  intros Hy Hm.
  destruct (monthcalendar_days year month Hy Hm) as (cal & Hcal & Hdays).
  eexists. exists cal. split; [exact Hcal|]. split.
  { unfold generate_calendar. cbv zeta. unfold month_names_index.
    replace ((-12 <=? month - 1) && (month - 1 <=? 11)) with true
      by (symmetry; apply andb_true_intro; split; apply Z.leb_le; lia).
    cbn [res_bind]. rewrite Hcal. cbn [res_bind].
    rewrite (res_map_total _ (map (grid_cell today year month selected_day))).
    - cbn [res_bind]. reflexivity.
    - intros week Hw. apply res_map_total. intros day Hd.
      apply day_cell_total; eauto. }
  split.
  { intros week day Hw Hd Hne. destruct (Hdays week day Hw Hd) as [?|Hr];
      [contradiction|].
    split; [assumption|]. unfold grid_cell.
    now destruct (Z.eqb_spec day 0). }
  split; [intros day [] []; cbn; congruence|].
  split.
  { intros day. cbv zeta.
    destruct (tag_of_cases today year month selected_day day) as (H1 & H2 & H3).
    split; [assumption|]. split; [assumption|]. split; [assumption|].
    intros Hp. apply H1 in Hp. now rewrite Hp. }
  split; [intros b q c u m r; subst r; rewrite press_cal_ignore;
          repeat split|].
  unfold control_row, truthy_int.
  destruct selected_day as [d|]; cbn [default].
  - destruct (Z.eqb_spec d 0) as [->|Hd]; cbn [negb app].
    + split; [|split].
      * split; [intros (c & [H|[]]); discriminate H
               |intros (d & [= <-] & Hd); contradiction].
      * intros d [= <-] Hd. contradiction.
      * left. reflexivity.
    + split; [|split].
      * split; [intros _; eauto | intros _; eexists; left; reflexivity].
      * intros d' [= <-] _. left. reflexivity.
      * right. left. reflexivity.
  - cbn [app]. split; [|split].
    + split; [intros (c & [H|[]]); discriminate H
             |intros (d & H & _); discriminate H].
    + intros d H. discriminate H.
    + left. reflexivity.
Qed.

End Calendar.

Lemma calendar_render_witness :
  exists nav cal,
    PyCalendar.monthcalendar 2024 1 = Ok cal
    /\ generate_calendar (mkdate 2024 1 10) 2024 1 (Some 15)
       = Ok ([nav; weekday_row]
             ++ map (map (grid_cell (mkdate 2024 1 10) 2024 1 (Some 15))) cal
             ++ [control_row 2024 1 (Some 15)])
    /\ (forall week day, In week cal -> In day week -> day <> 0 ->
        1 <= day <= _days_in_month 2024 1
        /\ grid_cell (mkdate 2024 1 10) 2024 1 (Some 15) day
           = tagged_cell 2024 1 day (tag_of (mkdate 2024 1 10) 2024 1 (Some 15) day))
    /\ (forall day t1 t2,
        tagged_cell 2024 1 day t1 = tagged_cell 2024 1 day t2 -> t1 = t2)
    /\ (forall day,
        let past := date_lt (mkdate 2024 1 day) (mkdate 2024 1 10) in
        let tag := tag_of (mkdate 2024 1 10) 2024 1 (Some 15) day in
        (tag = Past_disabled <-> past = true)
        /\ (tag = Selected <-> past = false /\ Some 15 = Some day)
        /\ (tag = Selectable <-> past = false /\ Some 15 <> Some day)
        /\ (past = true ->
            callback_data (tagged_cell 2024 1 day tag) = cal_ignore))
    /\ (forall b query_id chat_id user_id message_id,
        let r := process_callback_query (lib := AsciiLib.lib) sample_clock
                   (CallbackQuery query_id cal_ignore chat_id user_id message_id)
                   b in
        r = (Ok tt, set_log b (log b ++ [answerCallbackQuery query_id None]))
        /\ user_states (snd r) = user_states b
        /\ posts (snd r) = posts b)
    /\ ((exists c, In (Button L_confirm_date c) (control_row 2024 1 (Some 15)))
        <-> exists d, Some 15 = Some d /\ d <> 0)
    /\ (forall d, Some 15 = Some d -> d <> 0 ->
        In (Button L_confirm_date (cal_confirm_ 2024 1 d))
          (control_row 2024 1 (Some 15)))
    /\ In (Button L_cancel cal_cancel) (control_row 2024 1 (Some 15)).
Proof.
  apply (calendar_render (lib := AsciiLib.lib) sample_clock
           (mkdate 2024 1 10) 2024 1 (Some 15));
    unfold MINYEAR, MAXYEAR; lia.
Defined.

(** C5 as stated fails for a year that [datetime.date] cannot hold.  The
    calendar of December 9999 offers January 10000 on its "next" button;
    rendering that month raises [ValueError] at its first day cell, so there
    is no keyboard, no tagged cell and no control row, and the handler of
    the button raises. *)
Lemma calendar_render_year_10000 :
  (exists nav rows,
     generate_calendar (mkdate 2024 1 10) 9999 12 None = Ok (nav :: rows)
     /\ In (Button L_next (cal_nav_ 10000 1)) nav)
  /\ generate_calendar (mkdate 2024 1 10) 10000 1 None = Raise ValueError
  /\ ~ (exists kb, generate_calendar (mkdate 2024 1 10) 10000 1 None = Ok kb)
  /\ fst (process_callback_query (lib := AsciiLib.lib) sample_clock
            (CallbackQuery "q" (cal_nav_ 10000 1) "42" 7 99)
            (wizard_bot picking_time))
     = Raise ValueError.
Proof.
  split; [|split; [|split]].
  - eexists. eexists. split; [vm_compute; reflexivity|]. right. right. left.
    reflexivity.
  - vm_compute; reflexivity.
  - intros (kb & H). vm_compute in H. discriminate H.
  - vm_compute; reflexivity.
Qed.

(** ** Committing the wizard *)

Section Commit.

Context {lib : PyLib}.
Variable _handle_password_attempt : string -> Z -> string -> M unit.
Variable process_command : string -> Z -> string -> M unit.
Variable clk : clock.

Lemma truthy_str_nonempty (o : option string) :
  truthy_str o = true -> default o ""%string <> ""%string.
Proof. destruct o as [[|c s]|]; cbn; congruence. Qed.

Lemma truthy_bytes_nonempty (o : option bytes) :
  truthy_bytes o = true -> exists photo, o = Some photo /\ photo <> [].
Proof.
  destruct o as [[|c l]|]; cbn; try discriminate. intros _. eexists.
  split; [reflexivity | discriminate].
Qed.

(** C8. Final commit on a wizard session.  With neither text nor photo
    in the draft, the validation error is sent and nothing else changes:
    no post is written.  With text or a photo and a scheduled instant in
    the draft, one row is appended to the table, made of the draft's
    fields, unposted, and satisfying the creation invariant; the user's
    session is deleted; one message reports the outcome.  With text or a
    photo but no scheduled instant, reading it raises [KeyError] inside
    the [try] block: the save error is sent and nothing else changes, so
    that no post is written and the session stays. *)
Theorem finish_add_post_commit (b : bot) (chat_id : string) (user_id : Z)
    (is_recurring : bool) (u : user_state) (pd : Draft.t) :
  user_states b !! user_id = Some u ->
  post_data u = Some pd ->
  let r := finish_add_post clk chat_id user_id is_recurring b in
  (truthy_str (Draft.content pd) = false ->
   truthy_bytes (Draft.photo_data pd) = false ->
   r = (Ok tt, set_log b (log b ++ [sendMessage chat_id M_validation_error None]))
   /\ posts (snd r) = posts b)
  /\ (truthy_str (Draft.content pd) = true
      \/ truthy_bytes (Draft.photo_data pd) = true ->
      forall t, Draft.scheduled_time pd = Some t ->
      let row :=
        committed_row (rowid_max (posts b) (sqlite_sequence b) + 1) pd t
          is_recurring (current_timestamp clk) in
      fst r = Ok tt
      /\ posts (snd r) = posts b ++ [row]
      /\ has_content_or_photo row
      /\ user_states (snd r) = delete user_id (user_states b)
      /\ exists report, log (snd r) = log b ++ [sendMessage chat_id report None])
  /\ (truthy_str (Draft.content pd) = true
      \/ truthy_bytes (Draft.photo_data pd) = true ->
      Draft.scheduled_time pd = None ->
      r = (Ok tt,
           set_log b
             (log b ++ [sendMessage chat_id (M_save_error KeyError) None]))).
Proof.
  intros Hu Hpd. cbv zeta.
  assert (Hstart : finish_add_post clk chat_id user_id is_recurring b
            = (if negb (truthy_str (Draft.content pd))
                  && negb (truthy_bytes (Draft.photo_data pd))
               then (send_message chat_id M_validation_error None ;; pass) b
               else
                 try_except
                   (let* scheduled_time := getitem (Draft.scheduled_time pd) in
                    let* post_id :=
                      add_post (default (Draft.content pd) "")
                        (Draft.photo_data pd) (Draft.photo_filename pd)
                        scheduled_time is_recurring (current_timestamp clk) in
                    del_session user_id ;;
                    let* display_time :=
                      lift (or_raise ValueError (fromisoformat scheduled_time)) in
                    send_message chat_id
                      (M_created post_id display_time is_recurring pd) None ;;
                    pass)
                   (fun e => send_message chat_id (M_save_error e) None ;; pass)
                   b)).
  { unfold finish_add_post, bind at 1, lookup_session, gets. rewrite Hu.
    unfold bind at 1, getitem. rewrite Hpd. unfold ret.
    destruct (negb (truthy_str (Draft.content pd))
              && negb (truthy_bytes (Draft.photo_data pd))); reflexivity. }
  assert (Hcommit : truthy_str (Draft.content pd) = true
                    \/ truthy_bytes (Draft.photo_data pd) = true ->
                    negb (truthy_str (Draft.content pd))
                    && negb (truthy_bytes (Draft.photo_data pd)) = false)
    by (intros [-> | ->]; [reflexivity | now rewrite andb_false_r]).
  rewrite Hstart. clear Hstart. split; [|split].
  - intros Hc Hp. rewrite Hc, Hp. cbn. split; reflexivity.
  - intros Hsome t Ht.
    replace (negb (truthy_str (Draft.content pd))
             && negb (truthy_bytes (Draft.photo_data pd))) with false
      by (destruct Hsome as [-> | ->]; [reflexivity | now rewrite andb_false_r]).
    unfold try_except, bind, getitem, add_post, del_session. rewrite Ht.
    unfold ret. cbn [user_states]. rewrite Hu.
    assert (Hinv : has_content_or_photo
              (committed_row (rowid_max (posts b) (sqlite_sequence b) + 1) pd t
                 is_recurring (current_timestamp clk))).
    { unfold has_content_or_photo, committed_row. cbn.
      destruct Hsome as [H|H];
        [left; now apply truthy_str_nonempty
        |right; now apply truthy_bytes_nonempty]. }
    unfold bind, lift, send_message, make_request.
    destruct (fromisoformat t) as [display_time|]; cbn;
      (split; [reflexivity|]); (split; [reflexivity|]);
      (split; [exact Hinv|]); (split; [reflexivity|]); eexists; reflexivity.
  - intros Hsome Hnone. rewrite (Hcommit Hsome).
    unfold try_except, bind, getitem. rewrite Hnone. reflexivity.
Qed.

Lemma in_tokens (s : string) (l : list string) :
  existsb (String.eqb s) l = true <-> In s l.
Proof.
  rewrite existsb_exists. split.
  - intros (x & Hx & E). apply String.eqb_eq in E. now subst.
  - intros H. exists s. split; [assumption | apply String.eqb_refl].
Qed.

(** C10. At the recurrence step every text message commits the draft at
    once, whatever it says: with the recurring flag set exactly when the
    lower-cased, stripped text is one of 'yes', 'y', 'daily', 'repeat',
    and with the flag unset for any other text. *)
Theorem recurring_reply (b : bot) (chat_id : string) (user_id : Z)
    (message_text : string) (photo_data : option bytes)
    (photo_filename : option string) (u : user_state) (pd : Draft.t) :
  user_states b !! user_id = Some u ->
  state u = waiting_for_recurring ->
  post_data u = Some pd ->
  let reply := str_strip (str_lower message_text) in
  exists is_recurring : bool,
    (is_recurring = true <-> In reply affirmative_tokens)
    /\ process_message _handle_password_attempt process_command clk chat_id
         user_id message_text photo_data photo_filename b
       = finish_add_post clk chat_id user_id is_recurring b
    /\ (~ In reply affirmative_tokens ->
        process_message _handle_password_attempt process_command clk chat_id
          user_id message_text photo_data photo_filename b
        = finish_add_post clk chat_id user_id false b).
Proof.
  intros Hu Hst Hpd. cbv zeta.
  set (flag := existsb (says message_text) affirmative_tokens).
  assert (Hflag : flag = true <-> In (str_strip (str_lower message_text))
                                     affirmative_tokens)
    by (apply in_tokens).
  assert (Hrun : process_message _handle_password_attempt process_command clk
                   chat_id user_id message_text photo_data photo_filename b
                 = finish_add_post clk chat_id user_id flag b).
  { unfold process_message, bind at 1, lookup_session, gets. rewrite Hu, Hst.
    unfold bind at 1, _handle_edit_message, bind at 1, lookup_session, gets.
    rewrite Hu, Hst. cbn [is_editing negb]. unfold ret.
    unfold bind at 1, getitem. rewrite Hpd. unfold ret. reflexivity. }
  exists flag. split; [exact Hflag|]. split; [exact Hrun|].
  intros Hno. rewrite Hrun. f_equal.
  destruct flag; [|reflexivity]. exfalso. apply Hno, Hflag. reflexivity.
Qed.

End Commit.

Lemma finish_add_post_commit_witness :
  let b := wizard_bot choosing_recurrence in
  let pd := Draft.mk (Some "hello") None None (Some "2024-01-08")
              (Some "2024-01-08T09:00:00") in
  let r := finish_add_post (lib := AsciiLib.lib) sample_clock "42" 7 true b in
  (truthy_str (Draft.content pd) = false ->
   truthy_bytes (Draft.photo_data pd) = false ->
   r = (Ok tt, set_log b (log b ++ [sendMessage "42" M_validation_error None]))
   /\ posts (snd r) = posts b)
  /\ (truthy_str (Draft.content pd) = true
      \/ truthy_bytes (Draft.photo_data pd) = true ->
      forall t, Draft.scheduled_time pd = Some t ->
      let row :=
        committed_row (rowid_max (posts b) (sqlite_sequence b) + 1) pd t
          true (current_timestamp sample_clock) in
      fst r = Ok tt
      /\ posts (snd r) = posts b ++ [row]
      /\ has_content_or_photo row
      /\ user_states (snd r) = delete 7 (user_states b)
      /\ exists report, log (snd r) = log b ++ [sendMessage "42" report None])
  /\ (truthy_str (Draft.content pd) = true
      \/ truthy_bytes (Draft.photo_data pd) = true ->
      Draft.scheduled_time pd = None ->
      r = (Ok tt,
           set_log b (log b ++ [sendMessage "42" (M_save_error KeyError) None]))).
Proof.
  apply (finish_add_post_commit (lib := AsciiLib.lib) sample_clock
           (wizard_bot choosing_recurrence) "42" 7 true choosing_recurrence);
    reflexivity.
Defined.

(** A draft with text and no scheduled instant: the commit reports a save
    error, writes no post and leaves the session where it was. *)
Example commit_without_instant :
  let b := wizard_bot typed_content in
  let pd := Draft.mk (Some "hello") None None None None in
  let r := finish_add_post (lib := AsciiLib.lib) sample_clock "42" 7 true b in
  user_states b !! 7 = Some typed_content
  /\ post_data typed_content = Some pd
  /\ truthy_str (Draft.content pd) = true
  /\ r = (Ok tt,
          set_log b (log b ++ [sendMessage "42" (M_save_error KeyError) None]))
  /\ posts (snd r) = []
  /\ user_states (snd r) !! 7 = Some typed_content
  /\ ~ (exists row, posts (snd r) = posts b ++ [row])
  /\ user_states (snd r) <> delete 7 (user_states b).
Proof.
  cbv zeta. repeat (split; [vm_compute; reflexivity|]). split.
  - intros (row & H). vm_compute in H. discriminate H.
  - intros H. apply (f_equal (fun m => m !! 7)) in H.
    vm_compute in H. discriminate H.
Qed.

(** That commit is reached by the buttons of the recurrence step, which
    stay on the screen after a first post has been made and commit from
    any step: user 7 starts a new post, types its text and presses the
    "Yes, repeat on weekdays" button of the earlier post. *)
Example stale_recurrence_button :
  let b1 := snd (process_callback_query (lib := AsciiLib.lib) sample_clock
                   (CallbackQuery "q1" add_new "42" 7 100) authorized_bot) in
  let b2 := snd (process_message (lib := AsciiLib.lib) no_password_attempt
                   no_command sample_clock "42" 7 "hello" None None b1) in
  let r := process_callback_query (lib := AsciiLib.lib) sample_clock
             (CallbackQuery "q2" recurring_yes "42" 7 90) b2 in
  user_states b2 !! 7 = Some typed_content
  /\ fst r = Ok tt
  /\ posts (snd r) = []
  /\ user_states (snd r) !! 7 = Some typed_content
  /\ last (log (snd r)) = Some (sendMessage "42" (M_save_error KeyError) None).
Proof. cbv zeta. repeat split; vm_compute; reflexivity. Qed.

Lemma recurring_reply_witness :
  let b := wizard_bot choosing_recurrence in
  let reply := AsciiLib.strip (AsciiLib.lower " Daily ") in
  exists is_recurring : bool,
    (is_recurring = true <-> In reply affirmative_tokens)
    /\ process_message (lib := AsciiLib.lib) no_password_attempt no_command
         sample_clock "42" 7 " Daily " None None b
       = finish_add_post (lib := AsciiLib.lib) sample_clock "42" 7 is_recurring b
    /\ (~ In reply affirmative_tokens ->
        process_message (lib := AsciiLib.lib) no_password_attempt no_command
          sample_clock "42" 7 " Daily " None None b
        = finish_add_post (lib := AsciiLib.lib) sample_clock "42" 7 false b).
Proof.
  apply (recurring_reply (lib := AsciiLib.lib) no_password_attempt no_command
           sample_clock (wizard_bot choosing_recurrence) "42" 7 " Daily " None None
           choosing_recurrence
           (Draft.mk (Some "hello") None None (Some "2024-01-08")
              (Some "2024-01-08T09:00:00")));
    reflexivity.
Defined.

(** The end of the wizard on the sample session: "Daily" commits a recurring
    post, "no" a one-time post; either way the session is gone. *)
Example commit_daily :
  let r := process_message (lib := AsciiLib.lib) no_password_attempt no_command
             sample_clock "42" 7 " Daily " None None
             (wizard_bot choosing_recurrence) in
  posts (snd r)
  = [Post.mk 1 "hello" None None (Text "2024-01-08T09:00:00") true false
       "2024-01-05 09:00:30"]
  /\ user_states (snd r) !! 7 = None.
Proof. split; vm_compute; reflexivity. Qed.

Example commit_no :
  let r := process_message (lib := AsciiLib.lib) no_password_attempt no_command
             sample_clock "42" 7 "no" None None
             (wizard_bot choosing_recurrence) in
  posts (snd r)
  = [Post.mk 1 "hello" None None (Text "2024-01-08T09:00:00") false false
       "2024-01-05 09:00:30"]
  /\ user_states (snd r) !! 7 = None.
Proof. split; vm_compute; reflexivity. Qed.

(** ** The post store: ids, order, deletion and update *)

Section Store.

Lemma rowid_max_ge (ps : list Post.t) (z : Z) :
  z <= rowid_max ps z /\ forall p, In p ps -> Post.id p <= rowid_max ps z.
Proof.
  induction ps as [|a ps [IH1 IH2]]; [cbn; split; [lia | tauto]|].
  change (rowid_max (a :: ps) z) with (Z.max (Post.id a) (rowid_max ps z)).
  split; [lia|]. intros p [<-|Hp]; [lia|]. specialize (IH2 p Hp). lia.
Qed.

Lemma ids_app (ps qs : list Post.t) : ids (ps ++ qs) = ids ps ++ ids qs.
Proof. unfold ids. apply map_app. Qed.

Lemma In_ids (ps : list Post.t) (i : Z) :
  In i (ids ps) <-> exists p, In p ps /\ Post.id p = i.
Proof.
  unfold ids. rewrite in_map_iff. split; intros (p & H1 & H2); eauto.
Qed.

Lemma rowid_max_le (ps : list Post.t) (z m : Z) :
  z <= m -> (forall p, In p ps -> Post.id p <= m) -> rowid_max ps z <= m.
Proof.
  intros Hz. induction ps as [|a ps IH]; intros Hp; [exact Hz|].
  change (rowid_max (a :: ps) z) with (Z.max (Post.id a) (rowid_max ps z)).
  pose proof (Hp a (or_introl eq_refl)).
  assert (rowid_max ps z <= m) by (apply IH; intros p Hin; apply Hp; now right).
  lia.
Qed.

(** X1. While the largest rowid has not been used, [add_post] appends one
    unposted row that holds the values given, under the id that follows
    the largest of the ids in the table and the last id handed out, which
    is again a rowid; it returns that id and remembers it, touches no
    session and sends nothing; ids that were distinct stay distinct. *)
Theorem add_post_fresh_id (b : bot) (content : string)
    (photo_data : option bytes) (photo_filename : option string)
    (scheduled_time : string) (is_recurring : bool) (created : string) :
  rowid_max (posts b) (sqlite_sequence b) < rowid_limit ->
  let r := add_post content photo_data photo_filename scheduled_time
             is_recurring created b in
  exists post_id,
    fst r = Ok post_id
    /\ posts (snd r)
       = posts b ++ [Post.mk post_id content photo_data photo_filename
                       (Text scheduled_time) is_recurring false created]
    /\ (forall p, In p (posts b) -> Post.id p < post_id)
    /\ sqlite_sequence b < post_id
    /\ post_id <= rowid_limit
    /\ sqlite_sequence (snd r) = post_id
    /\ user_states (snd r) = user_states b
    /\ log (snd r) = log b
    /\ (NoDup (ids (posts b)) -> NoDup (ids (posts (snd r)))).
Proof.
  intros Hroom. cbv zeta. unfold add_post.
  cbn [fst snd posts sqlite_sequence user_states log].
  destruct (rowid_max_ge (posts b) (sqlite_sequence b)) as [Hs Hp].
  eexists. split; [reflexivity|]. split; [reflexivity|].
  split; [intros p Hin; specialize (Hp p Hin); lia|].
  split; [lia|]. split; [lia|]. split; [reflexivity|].
  split; [reflexivity|]. split; [reflexivity|].
  intros Hnd. rewrite ids_app. apply NoDup_app. split; [assumption|].
  split; [|cbn; apply NoDup_singleton].
  intros i Hi Hi'. apply list_elem_of_In in Hi, Hi'.
  destruct Hi' as [Ei|[]]. subst i.
  apply In_ids in Hi as (p & Hin & E). specialize (Hp p Hin).
  cbn [Post.id] in E. lia.
Qed.

Lemma ascii_compare_N (a b : ascii) :
  Ascii.compare a b = N.compare (N_of_ascii a) (N_of_ascii b).
Proof. reflexivity. Qed.

Lemma string_compare_refl (a : string) : String.compare a a = Eq.
Proof.
  induction a as [|x a IH]; cbn; [reflexivity|].
  now rewrite ascii_compare_N, N.compare_refl.
Qed.

Lemma string_compare_trans_lt (a b c : string) :
  String.compare a b = Lt -> String.compare b c = Lt -> String.compare a c = Lt.
Proof.
  revert b c. induction a as [|x a IH]; intros [|y b] [|z c]; cbn; try congruence.
  rewrite !ascii_compare_N.
  destruct (N.compare_spec (N_of_ascii x) (N_of_ascii y)) as [E|L|G];
    destruct (N.compare_spec (N_of_ascii y) (N_of_ascii z)) as [E'|L'|G'];
    try congruence; intros H1 H2.
  - rewrite E, E', N.compare_refl. eauto.
  - rewrite E. now apply N.compare_lt_iff in L' as ->.
  - rewrite <- E'. now apply N.compare_lt_iff in L as ->.
  - assert (Hlt : (N_of_ascii x < N_of_ascii z)%N) by lia.
    now apply N.compare_lt_iff in Hlt as ->.
Qed.

Lemma string_leb_trans (a b c : string) :
  String.leb a b = true -> String.leb b c = true -> String.leb a c = true.
Proof.
  unfold String.leb.
  destruct (String.compare a b) eqn:E1; try discriminate;
    destruct (String.compare b c) eqn:E2; try discriminate; intros _ _.
  - apply String.compare_eq_iff in E1, E2. subst.
    now rewrite string_compare_refl.
  - apply String.compare_eq_iff in E1. subst. now rewrite E2.
  - apply String.compare_eq_iff in E2. subst. now rewrite E1.
  - now rewrite (string_compare_trans_lt a b c E1 E2).
Qed.

Lemma sqltext_leb_total (a b : sqltext) :
  sqltext_leb a b = true \/ sqltext_leb b a = true.
Proof.
  destruct a as [s|x], b as [t|y]; cbn; auto; apply String.leb_total.
Qed.

Lemma sqltext_leb_trans (a b c : sqltext) :
  sqltext_leb a b = true -> sqltext_leb b c = true -> sqltext_leb a c = true.
Proof.
  destruct a as [s|x], b as [t|y], c as [u|z]; cbn; try congruence;
    apply string_leb_trans.
Qed.

Lemma sched_le_total : Total sched_le.
Proof. intros p q. apply sqltext_leb_total. Qed.

Lemma sched_le_trans : Transitive sched_le.
Proof. intros p q r. apply sqltext_leb_trans. Qed.

Lemma In_order_by (l : list Post.t) (p : Post.t) :
  In p (order_by_scheduled_time l) <-> In p l.
Proof.
  now rewrite <- !list_elem_of_In, order_by_Permutation.
Qed.

Lemma insert_by_scheduled_time_sorted (p : Post.t) (l : list Post.t) :
  StronglySorted sched_le l ->
  StronglySorted sched_le (insert_by_scheduled_time p l).
Proof.
  induction 1 as [|q l Hl IH Hq]; cbn [insert_by_scheduled_time];
    [repeat constructor|].
  destruct (sqltext_leb (Post.scheduled_time p) (Post.scheduled_time q))
    eqn:E.
  - constructor; [now constructor|]. constructor; [exact E|].
    eapply Forall_impl; [exact Hq|]. intros r Hr.
    exact (sched_le_trans p q r E Hr).
  - constructor; [exact IH|].
    rewrite insert_by_scheduled_time_Permutation. constructor; [|exact Hq].
    destruct (sched_le_total p q) as [H|H]; [|exact H].
    unfold sched_le in H. congruence.
Qed.

Lemma order_by_sorted (l : list Post.t) :
  StronglySorted sched_le (order_by_scheduled_time l).
Proof.
  induction l as [|p l IH]; [constructor|].
  now apply insert_by_scheduled_time_sorted.
Qed.

Lemma insert_by_scheduled_time_stable (v : sqltext) (p : Post.t)
    (l : list Post.t) :
  List.filter (scheduled_at v) (insert_by_scheduled_time p l)
  = List.filter (scheduled_at v) (p :: l).
Proof.
  induction l as [|q l IH]; [reflexivity|].
  cbn [insert_by_scheduled_time].
  destruct (sqltext_leb (Post.scheduled_time p) (Post.scheduled_time q))
    eqn:E; [reflexivity|].
  cbn [List.filter] in *. rewrite IH.
  destruct (scheduled_at v p) eqn:Hp, (scheduled_at v q) eqn:Hq;
    try reflexivity.
  exfalso. unfold scheduled_at in Hp, Hq.
  apply andb_prop in Hp as [_ Hp]. apply andb_prop in Hq as [Hq _].
  rewrite (sqltext_leb_trans _ _ _ Hp Hq) in E. discriminate E.
Qed.

Lemma order_by_stable (v : sqltext) (l : list Post.t) :
  List.filter (scheduled_at v) (order_by_scheduled_time l)
  = List.filter (scheduled_at v) l.
Proof.
  induction l as [|p l IH]; [reflexivity|].
  cbn [order_by_scheduled_time fold_right].
  rewrite insert_by_scheduled_time_stable. cbn [List.filter].
  fold (order_by_scheduled_time l). now rewrite IH.
Qed.

Lemma add_post_sequence (b : bot) (content : string)
    (photo_data : option bytes) (photo_filename : option string)
    (scheduled_time : string) (is_recurring : bool) (created : string) :
  let r := add_post content photo_data photo_filename scheduled_time
             is_recurring created b in
  exists post_id,
    fst r = Ok post_id /\ sqlite_sequence b < post_id
    /\ sqlite_sequence (snd r) = post_id.
Proof.
  cbv zeta. unfold add_post. cbn [fst snd sqlite_sequence].
  pose proof (rowid_max_ge (posts b) (sqlite_sequence b)) as [Hs _].
  eexists. split; [reflexivity|]. split; [lia | reflexivity].
Qed.

(** X2. [get_posts] changes nothing and returns the rows of the table,
    all of them or those not posted, in the order of their scheduled
    instants: every row comes before the rows with a later instant, and
    the rows of one instant come in the order of the table. *)
Theorem get_posts_sorted (include_posted : bool) (b : bot) :
  exists ps,
    get_posts include_posted b = (Ok ps, b)
    /\ StronglySorted sched_le ps
    /\ ps ≡ₚ (if include_posted then posts b
              else List.filter unposted (posts b))
    /\ (forall p, In p ps
          <-> In p (posts b)
              /\ (include_posted = false -> Post.is_posted p = false))
    /\ (forall v,
          List.filter (scheduled_at v) ps
          = List.filter (scheduled_at v)
              (if include_posted then posts b
               else List.filter unposted (posts b))).
Proof.
  eexists. split; [reflexivity|].
  split.
  { apply order_by_sorted. }
  split; [apply order_by_Permutation|].
  split; [|intros v; apply order_by_stable].
  intros p. rewrite In_order_by.
  destruct include_posted.
  - split; [intros H; split; [assumption | discriminate] | tauto].
  - rewrite filter_In, negb_true_iff. split; intros [H1 H2]; auto.
Qed.

(** Posts of one instant are returned in rowid order, after the post that
    is due before them. *)
Example get_posts_tied :
  exists ps, get_posts false (sample_bot tied_posts) = (Ok ps, sample_bot tied_posts)
             /\ ids ps = [4; 1; 2; 3].
Proof. eexists. split; reflexivity. Qed.

Lemma not_In_ids_filter (post_id : Z) (ps : list Post.t) :
  ~ In post_id (ids ps) ->
  List.filter (fun p => negb (Post.id p =? post_id)) ps = ps.
Proof.
  induction ps as [|a ps IH]; intros H; [reflexivity|]. cbn in *.
  destruct (Z.eqb_spec (Post.id a) post_id) as [E|E]; [tauto|].
  cbn. f_equal. apply IH. tauto.
Qed.

Lemma existsb_id (post_id : Z) (ps : list Post.t) :
  existsb (fun p => Post.id p =? post_id) ps = true <-> In post_id (ids ps).
Proof.
  rewrite existsb_exists, In_ids. split; intros (p & H1 & H2); exists p;
    (split; [assumption|]); [now apply Z.eqb_eq | now apply Z.eqb_eq].
Qed.

Lemma set_posts_same (b : bot) : set_posts b (posts b) = b.
Proof. now destruct b. Qed.

(** X3. For an id that fits a 64-bit integer [delete_post] answers
    whether a row had the id; afterwards no row has it, the other rows are
    there in their order, and the last id handed out is remembered.  For
    an id that no row has it answers [False] and changes nothing, so a
    second deletion is harmless.  For an id that does not fit it raises
    [OverflowError] and changes nothing. *)
Theorem delete_post_removes (post_id : Z) (b : bot) :
  let r := delete_post post_id b in
  (sqlite_int post_id = true ->
   (exists deleted, fst r = Ok deleted
      /\ (deleted = true <-> In post_id (ids (posts b))))
   /\ ~ In post_id (ids (posts (snd r)))
   /\ posts (snd r)
      = List.filter (fun p => negb (Post.id p =? post_id)) (posts b)
   /\ (forall p, In p (posts (snd r))
         <-> In p (posts b) /\ Post.id p <> post_id)
   /\ sqlite_sequence (snd r) = sqlite_sequence b
   /\ (~ In post_id (ids (posts b)) -> r = (Ok false, b))
   /\ delete_post post_id (snd r) = (Ok false, snd r))
  /\ (sqlite_int post_id = false -> r = (Raise OverflowError, b)).
Proof.
  cbv zeta. split; intros Hint; [|unfold delete_post; now rewrite Hint].
  assert (Hrun : delete_post post_id b
                 = (Ok (existsb (fun p => Post.id p =? post_id) (posts b)),
                    set_posts b
                      (List.filter (fun p => negb (Post.id p =? post_id))
                         (posts b))))
    by (unfold delete_post; now rewrite Hint).
  rewrite Hrun. cbn [fst snd posts set_posts sqlite_sequence].
  assert (Hgone : ~ In post_id
            (ids (List.filter (fun p => negb (Post.id p =? post_id)) (posts b)))).
  { rewrite In_ids. intros (p & Hp & E). apply filter_In in Hp as [_ Hp].
    apply negb_true_iff, Z.eqb_neq in Hp. contradiction. }
  assert (Hmiss : forall c, ~ In post_id (ids (posts c)) ->
            delete_post post_id c = (Ok false, c)).
  { intros c Hc. unfold delete_post. rewrite Hint.
    rewrite not_In_ids_filter by assumption. rewrite set_posts_same.
    destruct (existsb _ (posts c)) eqn:E; [|reflexivity].
    apply existsb_id in E. contradiction. }
  split; [eexists; split; [reflexivity | apply existsb_id]|].
  split; [exact Hgone|]. split; [reflexivity|].
  split.
  { intros p. rewrite filter_In, negb_true_iff, Z.eqb_neq. reflexivity. }
  split; [reflexivity|]. split.
  { intros Hno. rewrite <- Hrun. now apply Hmiss. }
  apply Hmiss. exact Hgone.
Qed.

(** The two answers and the refusal, on the sample table. *)
Example delete_post_sample :
  fst (delete_post 1 managed_bot) = Ok true
  /\ fst (delete_post 3 managed_bot) = Ok false
  /\ delete_post 9223372036854775808 managed_bot
     = (Raise OverflowError, managed_bot).
Proof. repeat split. Qed.

(** X4. For an id that fits a 64-bit integer [update_post] adds and
    removes no row and changes no id: the rows of the id given take the
    fields given and every other row is as it was.  It answers [True]
    exactly when a field was given and a row has the id; when it answers
    [False] the bot is unchanged. *)
Theorem update_post_keeps_ids (post_id : Z) (kw : Fields.t) (b : bot) :
  sqlite_int post_id = true ->
  let r := update_post post_id kw b in
  (exists updated, fst r = Ok updated
     /\ (updated = true
         <-> Fields.is_empty kw = false /\ In post_id (ids (posts b)))
     /\ (updated = false -> snd r = b))
  /\ ids (posts (snd r)) = ids (posts b)
  /\ Forall2 (fun p p' =>
                Post.id p' = Post.id p
                /\ Post.created_at p' = Post.created_at p
                /\ (Post.id p <> post_id -> p' = p)
                /\ (Post.id p = post_id -> Fields.is_empty kw = false ->
                    p' = set_fields kw p))
       (posts b) (posts (snd r))
  /\ sqlite_sequence (snd r) = sqlite_sequence b.
Proof.
  intros _. cbv zeta. unfold update_post.
  destruct (Fields.is_empty kw) eqn:Hkw.
  - cbn. split.
    { exists false. split; [reflexivity|]. split; [|reflexivity].
      split; [discriminate | intros [? _]; discriminate]. }
    split; [reflexivity|]. split; [|reflexivity].
    apply Forall_Forall2_diag, Forall_forall. intros p _.
    repeat split; congruence.
  - cbn [fst snd posts set_posts sqlite_sequence]. split.
    { eexists. split; [reflexivity|]. split.
      - rewrite existsb_id. tauto.
      - intros Hno.
        assert (Hid : ~ In post_id (ids (posts b))).
        { intros Hin. apply existsb_id in Hin. congruence. }
        transitivity (set_posts b (posts b)); [|apply set_posts_same].
        f_equal. transitivity (map (fun p => p) (posts b)); [|apply map_id].
        apply map_ext_in.
        intros p Hp. destruct (Z.eqb_spec (Post.id p) post_id) as [E|E];
          [|reflexivity].
        exfalso. apply Hid, In_ids. eauto. }
    split.
    { unfold ids. rewrite map_map. apply map_ext. intros p.
      now destruct (Post.id p =? post_id). }
    split; [|reflexivity].
    apply Forall2_fmap_r, Forall_Forall2_diag, Forall_forall. intros p _.
    unfold compose.
    destruct (Post.id p =? post_id) eqn:E;
      [apply Z.eqb_eq in E | apply Z.eqb_neq in E]; repeat split;
      intros; try reflexivity; try contradiction; congruence.
Qed.

(** X5. Once a post is marked as posted, [get_posts()] does not return
    it any more: the scheduler and the list of posts see the other
    unposted rows only.  The row itself stays in the table, and
    [get_posts(include_posted=True)] still returns every id. *)
Theorem posted_post_leaves_due_pool (post_id : Z) (b : bot) :
  let b' := after (mark_post_as_posted post_id) b in
  exists due everything,
    get_posts false b' = (Ok due, b')
    /\ get_posts true b' = (Ok everything, b')
    /\ ~ In post_id (ids due)
    /\ (forall p, In p due
          <-> In p (posts b) /\ Post.is_posted p = false
              /\ Post.id p <> post_id)
    /\ ids everything ≡ₚ ids (posts b).
Proof.
  cbv zeta. unfold after. rewrite mark_post_as_posted_run. cbn [snd].
  set (rows := update_row post_id (with_posted true) (posts b)).
  exists (order_by_scheduled_time
            (List.filter (fun p => negb (Post.is_posted p)) rows)),
         (order_by_scheduled_time rows).
  split; [reflexivity|]. split; [reflexivity|].
  assert (Hrows : forall p,
            In p (order_by_scheduled_time
                    (List.filter (fun p => negb (Post.is_posted p)) rows))
            <-> In p (posts b) /\ Post.is_posted p = false
                /\ Post.id p <> post_id).
  { intros p. rewrite In_order_by, filter_In, negb_true_iff.
    unfold rows, update_row. rewrite in_map_iff. split.
    - intros [(q & Hq & Hqin) Hp].
      destruct (Z.eqb_spec (Post.id q) post_id) as [E|E]; subst p;
        [discriminate Hp | tauto].
    - intros (Hp & Hun & Hid). split; [|auto]. exists p.
      apply Z.eqb_neq in Hid. rewrite Hid. auto. }
  split.
  { rewrite In_ids. intros (p & Hp & E). apply Hrows in Hp. tauto. }
  split; [exact Hrows|].
  unfold ids at 1.
  change (map Post.id (order_by_scheduled_time rows))
    with (Post.id <$> order_by_scheduled_time rows).
  rewrite order_by_Permutation. change (Post.id <$> rows) with (ids rows).
  unfold rows. rewrite ids_update_row; [reflexivity | reflexivity].
Qed.

Lemma run_call_sequence (c : store_call) (b : bot) :
  call_binds c = true ->
  fst (run_call c b) = Ok tt
  /\ sqlite_sequence b <= sqlite_sequence (snd (run_call c b))
  /\ rowid_max (posts (snd (run_call c b)))
       (sqlite_sequence (snd (run_call c b)))
     <= rowid_max (posts b) (sqlite_sequence b) + 1.
Proof.
  intros Hc.
  destruct (rowid_max_ge (posts b) (sqlite_sequence b)) as [Hs Hp].
  destruct c as [content photo fn t rec created | post_id | post_id kw];
    cbn [call_binds] in Hc.
  - cbn. split; [reflexivity|]. split; [lia|].
    apply rowid_max_le; [lia|]. intros p Hin.
    apply in_app_or in Hin as [Hin|[<-|[]]]; [|cbn; lia].
    specialize (Hp p Hin). lia.
  - unfold run_call, delete_post, bind. rewrite Hc. cbn.
    split; [reflexivity|]. split; [lia|].
    apply rowid_max_le; [lia|]. intros p Hin.
    apply filter_In in Hin as [Hin _]. specialize (Hp p Hin). lia.
  - unfold run_call, update_post, bind.
    destruct (Fields.is_empty kw); cbn;
      (split; [reflexivity|]); (split; [lia|]).
    + lia.
    + apply rowid_max_le; [lia|]. intros p Hin.
      apply in_map_iff in Hin as (q & <- & Hq). specialize (Hp q Hq).
      destruct (Post.id q =? post_id); cbn [set_fields Post.id]; lia.
Qed.

Lemma run_calls_sequence (cs : list store_call) (b : bot) :
  Forall (fun c => call_binds c = true) cs ->
  fst (run_calls cs b) = Ok tt
  /\ sqlite_sequence b <= sqlite_sequence (snd (run_calls cs b))
  /\ rowid_max (posts (snd (run_calls cs b)))
       (sqlite_sequence (snd (run_calls cs b)))
     <= rowid_max (posts b) (sqlite_sequence b) + Z.of_nat (length cs).
Proof.
  intros Hcs. revert b.
  induction Hcs as [|c cs Hc _ IH]; intros b;
    [cbn; split; [reflexivity | lia]|].
  unfold run_calls. cbn [for_each]. unfold bind.
  destruct (run_call_sequence c b Hc) as (H1 & H2 & H3).
  destruct (run_call c b) as [r b1]. cbn [fst snd] in *. subst r.
  destruct (IH b1) as (H4 & H5 & H6). split; [assumption|].
  unfold run_calls in H5, H6. cbn [length]. lia.
Qed.

(** X6. An id is handed out once: after [add_post] has returned an id,
    whatever is then added, deleted or updated (under ids that can be
    bound; also the row of that id itself may go), a later [add_post]
    returns a larger one, as long as the rowids are not used up. *)
Theorem ids_never_reused (b : bot) (cs : list store_call)
    (content content' : string) (photo_data photo_data' : option bytes)
    (photo_filename photo_filename' : option string)
    (scheduled_time scheduled_time' : string) (is_recurring is_recurring' : bool)
    (created created' : string) :
  Forall (fun c => call_binds c = true) cs ->
  rowid_max (posts b) (sqlite_sequence b) + Z.of_nat (length cs) + 2
    <= rowid_limit ->
  let first := add_post content photo_data photo_filename scheduled_time
                 is_recurring created b in
  let between := run_calls cs (snd first) in
  let later := add_post content' photo_data' photo_filename' scheduled_time'
                 is_recurring' created' (snd between) in
  fst between = Ok tt
  /\ exists i j, fst first = Ok i /\ fst later = Ok j /\ i < j
                 /\ j <= rowid_limit.
Proof.
  intros Hcs Hroom. cbv zeta.
  destruct (add_post_sequence b content photo_data photo_filename
              scheduled_time is_recurring created)
    as (i & Hi & _ & Hseq).
  set (b1 := snd (add_post content photo_data photo_filename scheduled_time
                    is_recurring created b)) in *.
  assert (Hmax1 : rowid_max (posts b1) (sqlite_sequence b1)
                  <= rowid_max (posts b) (sqlite_sequence b) + 1).
  { pose proof (run_call_sequence
                  (Call_add_post content photo_data photo_filename
                     scheduled_time is_recurring created) b eq_refl)
      as (_ & _ & H).
    exact H. }
  destruct (run_calls_sequence cs b1 Hcs) as (Hok & Hmono & Hmax).
  destruct (add_post_sequence (snd (run_calls cs b1)) content' photo_data'
              photo_filename' scheduled_time' is_recurring' created')
    as (j & Hj & Hlt & _).
  split; [assumption|]. exists i, j. split; [assumption|].
  split; [assumption|]. split; [lia|].
  unfold add_post in Hj. cbn [fst] in Hj. injection Hj as <-. lia.
Qed.

End Store.

Lemma add_post_fresh_id_witness :
  let r := add_post "new" None None "2024-02-01T09:00:00" false
             "2024-01-05 09:00:30" managed_bot in
  exists post_id,
    fst r = Ok post_id
    /\ posts (snd r)
       = posts managed_bot
         ++ [Post.mk post_id "new" None None (Text "2024-02-01T09:00:00")
               false false "2024-01-05 09:00:30"]
    /\ (forall p, In p (posts managed_bot) -> Post.id p < post_id)
    /\ sqlite_sequence managed_bot < post_id
    /\ post_id <= rowid_limit
    /\ sqlite_sequence (snd r) = post_id
    /\ user_states (snd r) = user_states managed_bot
    /\ log (snd r) = log managed_bot
    /\ (NoDup (ids (posts managed_bot)) -> NoDup (ids (posts (snd r)))).
Proof.
  apply (add_post_fresh_id managed_bot "new" None None "2024-02-01T09:00:00"
           false "2024-01-05 09:00:30").
  vm_compute. reflexivity.
Defined.

Lemma update_post_keeps_ids_witness :
  let kw := Fields.mk (Some "changed"%string) None None None None None in
  let r := update_post 1 kw managed_bot in
  (exists updated, fst r = Ok updated
     /\ (updated = true
         <-> Fields.is_empty kw = false /\ In 1 (ids (posts managed_bot)))
     /\ (updated = false -> snd r = managed_bot))
  /\ ids (posts (snd r)) = ids (posts managed_bot)
  /\ Forall2 (fun p p' =>
                Post.id p' = Post.id p
                /\ Post.created_at p' = Post.created_at p
                /\ (Post.id p <> 1 -> p' = p)
                /\ (Post.id p = 1 -> Fields.is_empty kw = false ->
                    p' = set_fields kw p))
       (posts managed_bot) (posts (snd r))
  /\ sqlite_sequence (snd r) = sqlite_sequence managed_bot.
Proof.
  apply (update_post_keeps_ids 1
           (Fields.mk (Some "changed"%string) None None None None None)
           managed_bot).
  reflexivity.
Defined.

Lemma ids_never_reused_witness :
  let cs := [Call_delete_post 3;
             Call_update_post 1
               (Fields.mk (Some "changed"%string) None None None None None);
             Call_delete_post 2] in
  let first := add_post "new" None None "2024-02-01T09:00:00" false
                 "2024-01-05 09:00:30" managed_bot in
  let between := run_calls cs (snd first) in
  let later := add_post "next" None None "2024-02-02T09:00:00" true
                 "2024-01-05 09:00:31" (snd between) in
  fst between = Ok tt
  /\ exists i j, fst first = Ok i /\ fst later = Ok j /\ i < j
                 /\ j <= rowid_limit.
Proof.
  apply (ids_never_reused managed_bot
           [Call_delete_post 3;
            Call_update_post 1
              (Fields.mk (Some "changed"%string) None None None None None);
            Call_delete_post 2]
           "new" "next" None None None None "2024-02-01T09:00:00"
           "2024-02-02T09:00:00" false true "2024-01-05 09:00:30"
           "2024-01-05 09:00:31").
  - repeat constructor.
  - vm_compute. discriminate.
Defined.

(** That history, evaluated: the id 3 is handed out, its row is deleted,
    and the next id is 4. *)
Example ids_never_reused_sample :
  let first := add_post "new" None None "2024-02-01T09:00:00" false
                 "2024-01-05 09:00:30" managed_bot in
  let between := run_calls [Call_delete_post 3] (snd first) in
  let later := add_post "next" None None "2024-02-02T09:00:00" true
                 "2024-01-05 09:00:31" (snd between) in
  fst first = Ok 3 /\ ids (posts (snd between)) = [1; 2]
  /\ fst later = Ok 4.
Proof. repeat split. Qed.

(** ** The scheduler: what a tick sends and what it leaves alone *)

Section TickLog.

Context {lib : PyLib}.
Variable clk : clock.

(** The loop of the tick, as a function of the records it passes over:
    one request per due record, in the order of the records, and the
    steps [step_update] on the table. *)
Lemma for_each_check_post_log (L : list Post.t) (b : bot) :
  let r := for_each L (check_post clk) b in
  fst r = Ok tt
  /\ same_frame b (snd r)
  /\ log (snd r)
     = log b ++ map (publish_request (target_chat_id b))
                  (List.filter (is_due (now clk)) L).
Proof.
  revert b. induction L as [|x L IH]; intros b; cbv zeta.
  { cbn. split; [reflexivity|]. split; [repeat split|]. now rewrite app_nil_r. }
  cbn [for_each]. unfold bind.
  destruct (check_post_after clk x b) as (H1 & Hfr & Hlog & _).
  destruct (check_post clk x b) as [r1 b1]. cbn [fst snd] in *. subst r1.
  destruct (IH b1) as (Hr & Hfr' & Hl).
  destruct Hfr as (Ft & Fs & Fa & Fu & Fn).
  destruct Hfr' as (Ft' & Fs' & Fa' & Fu' & Fn').
  split; [assumption|].
  split; [unfold same_frame; repeat split; congruence|].
  rewrite Hl, Hlog, Ft. cbn [List.filter].
  destruct (is_due (now clk) x); cbn [map]; rewrite <- app_assoc; reflexivity.
Qed.

Lemma StronglySorted_filter_list {A} (R : A -> A -> Prop) (f : A -> bool)
    (l : list A) :
  StronglySorted R l -> StronglySorted R (List.filter f l).
Proof.
  induction 1 as [|a l Hs IH Ha]; cbn [List.filter]; [constructor|].
  destruct (f a); [|assumption]. constructor; [assumption|].
  apply List.Forall_forall. intros x Hx. apply filter_In in Hx as [Hx _].
  revert x Hx. now apply List.Forall_forall.
Qed.

Lemma filter_filter_list {A} (f g : A -> bool) (l : list A) :
  List.filter f (List.filter g l) = List.filter (fun x => g x && f x) l.
Proof.
  induction l as [|a l IH]; [reflexivity|]. cbn [List.filter].
  destruct (g a); cbn [List.filter andb]; [|exact IH].
  destruct (f a); now rewrite IH.
Qed.

Lemma filter_comm_list {A} (f g : A -> bool) (l : list A) :
  List.filter f (List.filter g l) = List.filter g (List.filter f l).
Proof.
  rewrite !filter_filter_list. apply filter_ext. intros a. apply andb_comm.
Qed.

Lemma Permutation_filter_list {A} (f : A -> bool) (l k : list A) :
  l ≡ₚ k -> List.filter f l ≡ₚ List.filter f k.
Proof.
  induction 1 as [|a l k _ IH|a a' l|l k m _ IH1 _ IH2]; cbn [List.filter].
  - reflexivity.
  - destruct (f a); [now constructor | exact IH].
  - destruct (f a), (f a'); try reflexivity. apply Permutation_swap.
  - now rewrite IH1.
Qed.

(** What [due_posts] is: the unposted due rows, each as often as it is
    stored, by instant, those of one instant in the order of the table. *)
Lemma due_posts_spec (t : datetime) (b : bot) :
  let due := due_posts t b in
  let rows := List.filter (fun p => unposted p && is_due t p) (posts b) in
  due ≡ₚ rows
  /\ StronglySorted sched_le due
  /\ (forall v,
        List.filter (scheduled_at v) due = List.filter (scheduled_at v) rows).
Proof.
  cbv zeta. unfold due_posts. rewrite <- filter_filter_list. split; [|split].
  - apply Permutation_filter_list, order_by_Permutation.
  - apply StronglySorted_filter_list, order_by_sorted.
  - intros v. rewrite filter_comm_list, order_by_stable.
    apply filter_comm_list.
Qed.

Lemma tick_log (b : bot) :
  log (after (_check_and_publish_posts clk) b)
  = log b ++ map (publish_request (target_chat_id b)) (due_posts (now clk) b).
Proof.
  unfold after, _check_and_publish_posts, bind, get_posts, gets.
  change (fun p => negb (Post.is_posted p)) with unposted.
  apply for_each_check_post_log.
Qed.

(** X7. One tick sends one request for each record that is unposted and
    due, each as often as it is stored, in the order of the scheduled
    instants (records of one instant in the order of the table), to the
    target chat, and nothing else: the log grows by exactly these
    requests. *)
Theorem tick_sends_due_posts (b : bot) :
  let b' := after (_check_and_publish_posts clk) b in
  let rows := List.filter (fun p => unposted p && is_due (now clk) p)
                (posts b) in
  exists due,
    log b' = log b ++ map (publish_request (target_chat_id b)) due
    /\ due ≡ₚ rows
    /\ StronglySorted sched_le due
    /\ (forall v,
          List.filter (scheduled_at v) due
          = List.filter (scheduled_at v) rows)
    /\ (forall p, In p due
          <-> In p (posts b) /\ Post.is_posted p = false
              /\ is_due (now clk) p = true)
    /\ (length (log b') <= length (log b) + length (posts b))%nat.
Proof.
  cbv zeta. exists (due_posts (now clk) b).
  destruct (due_posts_spec (now clk) b) as (Hperm & Hsort & Hstable).
  split; [apply tick_log|]. split; [exact Hperm|].
  split; [exact Hsort|]. split; [exact Hstable|]. split.
  { intros p. rewrite <- !list_elem_of_In, Hperm, !list_elem_of_In.
    rewrite filter_In, andb_true_iff. unfold unposted.
    rewrite negb_true_iff. tauto. }
  rewrite tick_log, length_app, length_map, Hperm.
  pose proof (filter_length_le
                (fun p => unposted p && is_due (now clk) p) (posts b)).
  lia.
Qed.

(** Posts of one instant are published in rowid order, after the post
    that is due before them. *)
Example tick_sends_tied :
  log (after (_check_and_publish_posts (lib := AsciiLib.lib) sample_clock)
         (sample_bot tied_posts))
  = [sendMessage "-1001" (M_content "d") None;
     sendMessage "-1001" (M_content "a") None;
     sendMessage "-1001" (M_content "b") None;
     sendMessage "-1001" (M_content "c") None].
Proof. vm_compute. reflexivity. Qed.

Lemma same_content_refl (p : Post.t) : same_content p p.
Proof. repeat split. Qed.

Lemma same_content_trans (p q r : Post.t) :
  same_content p q -> same_content q r -> same_content p r.
Proof. unfold same_content. intuition congruence. Qed.

Lemma step_update_same_content (b : bot) (x p : Post.t) :
  same_content p (step_update (now clk) b x p).
Proof.
  unfold step_update.
  destruct (is_due (now clk) x && telegram b (length (log b)));
    [|apply same_content_refl].
  unfold publish_update. destruct (Post.is_recurring x); [|repeat split].
  destruct (next_occurrence x); repeat split.
Qed.

Lemma Forall2_same_content_trans (l k m : list Post.t) :
  Forall2 same_content l k -> Forall2 same_content k m ->
  Forall2 same_content l m.
Proof.
  intros H. revert m. induction H as [|p q l k Hpq _ IH]; intros m Hm;
    inversion Hm; subst; constructor; eauto using same_content_trans.
Qed.

Lemma for_each_check_post_content (L : list Post.t) (b : bot) :
  Forall2 same_content (posts b) (posts (snd (for_each L (check_post clk) b))).
Proof.
  revert b. induction L as [|x L IH]; intros b.
  { cbn. apply Forall_Forall2_diag, Forall_forall. intros p _.
    apply same_content_refl. }
  cbn [for_each]. unfold bind.
  destruct (check_post_after clk x b) as (H1 & _ & _ & Hposts).
  destruct (check_post clk x b) as [r1 b1]. cbn [fst snd] in *. subst r1.
  apply Forall2_same_content_trans with (k := posts b1); [|apply IH].
  rewrite Hposts. unfold update_row.
  apply Forall2_fmap_r, Forall_Forall2_diag, Forall_forall. intros p _.
  unfold compose. destruct (Post.id p =? Post.id x);
    [apply step_update_same_content | apply same_content_refl].
Qed.

Lemma same_content_ids (l k : list Post.t) :
  Forall2 same_content l k -> ids k = ids l.
Proof.
  induction 1 as [|p q l k Hpq _ IH]; [reflexivity|].
  cbn. f_equal; [apply Hpq | apply IH].
Qed.

(** X8. A tick never raises and never adds, removes or reorders a row;
    it changes no id, text, photo, file name, recurring flag or creation
    time, only scheduled instants and posted flags; sessions, authorized
    users and the target chat are as before. *)
Theorem tick_keeps_content (b : bot) :
  let r := _check_and_publish_posts clk b in
  fst r = Ok tt
  /\ same_frame b (snd r)
  /\ Forall2 same_content (posts b) (posts (snd r))
  /\ ids (posts (snd r)) = ids (posts b).
Proof.
  cbv zeta. unfold _check_and_publish_posts, bind, get_posts, gets.
  set (L := order_by_scheduled_time
              (List.filter (fun p => negb (Post.is_posted p)) (posts b))).
  destruct (for_each_check_post_log L b) as (Hr & Hfr & _).
  pose proof (for_each_check_post_content L b) as HF.
  split; [assumption|]. split; [assumption|]. split; [assumption|].
  now apply same_content_ids.
Qed.

Lemma update_row_id (post_id : Z) (ps : list Post.t) :
  update_row post_id (fun p => p) ps = ps.
Proof.
  unfold update_row. transitivity (map (fun p => p) ps); [|apply map_id].
  apply map_ext. intros p. now destruct (Post.id p =? post_id).
Qed.

Lemma for_each_check_post_refused (L : list Post.t) (b : bot) :
  (forall k, (length (log b) <= k)%nat -> telegram b k = false) ->
  posts (snd (for_each L (check_post clk) b)) = posts b.
Proof.
  revert b. induction L as [|x L IH]; intros b Hoff; [reflexivity|].
  cbn [for_each]. unfold bind.
  destruct (check_post_after clk x b) as (H1 & Hfr & Hlog & Hposts).
  destruct (check_post clk x b) as [r1 b1]. cbn [fst snd] in *. subst r1.
  destruct Hfr as (_ & _ & _ & _ & Fn).
  rewrite IH.
  - rewrite Hposts. unfold step_update.
    rewrite (Hoff (length (log b))) by lia. rewrite andb_false_r.
    apply update_row_id.
  - intros k Hk. rewrite Fn. apply Hoff.
    rewrite Hlog, length_app in Hk. lia.
Qed.

(** X9. While Telegram refuses the requests, a tick changes no row: every
    due post keeps its instant and stays unposted, to be tried again by
    the next tick. *)
Theorem tick_when_telegram_refuses (b : bot) :
  (forall k, (length (log b) <= k)%nat -> telegram b k = false) ->
  let r := _check_and_publish_posts clk b in
  fst r = Ok tt /\ posts (snd r) = posts b.
Proof.
  intros Hoff. cbv zeta.
  unfold _check_and_publish_posts, bind, get_posts, gets.
  set (L := order_by_scheduled_time
              (List.filter (fun p => negb (Post.is_posted p)) (posts b))).
  destruct (for_each_check_post_log L b) as (Hr & _ & _).
  split; [assumption|]. now apply for_each_check_post_refused.
Qed.

End TickLog.

Lemma tick_when_telegram_refuses_witness :
  let b := offline_bot [one_time_post; recurring_post] in
  let r := _check_and_publish_posts (lib := AsciiLib.lib) sample_clock b in
  fst r = Ok tt /\ posts (snd r) = posts b.
Proof.
  apply (tick_when_telegram_refuses (lib := AsciiLib.lib) sample_clock
           (offline_bot [one_time_post; recurring_post])).
  reflexivity.
Defined.

(** On the sample table both posts are due: each is requested once, and
    both are still there, unposted, when Telegram refuses. *)
Example tick_offline_sample :
  let b := offline_bot [one_time_post; recurring_post] in
  let r := _check_and_publish_posts (lib := AsciiLib.lib) sample_clock b in
  length (log (snd r)) = 2%nat /\ posts (snd r) = posts b.
Proof. split; vm_compute; reflexivity. Qed.

(** ** A one-time post is published once *)

Section PublishedOnce.

Context {lib : PyLib}.

Lemma tick_row_ids (t : datetime) (b b' : bot) (l k : list Post.t) :
  Forall2 (tick_row t b b') l k -> ids k = ids l.
Proof.
  induction 1 as [|p q l k Hpq _ IH]; [reflexivity|].
  cbn. f_equal; [|exact IH]. unfold tick_row in Hpq.
  destruct (negb (Post.is_posted p) && is_due t p); [|now subst q].
  destruct Hpq as (k0 & _ & _ & ->).
  destruct (telegram b k0); [apply publish_update_id | reflexivity].
Qed.

(** A tick on a table in which the rows of the id [i] are posted: they
    stay as they are, and none of the requests sent is for them. *)
Lemma tick_leaves_posted (clk : clock) (b : bot) (i : Z) :
  NoDup (ids (posts b)) ->
  (forall q, In q (posts b) -> Post.id q = i -> Post.is_posted q = true) ->
  let r := _check_and_publish_posts clk b in
  fst r = Ok tt
  /\ target_chat_id (snd r) = target_chat_id b
  /\ NoDup (ids (posts (snd r)))
  /\ (forall q, In q (posts (snd r)) -> Post.id q = i ->
      Post.is_posted q = true)
  /\ (forall q, In q (posts b) -> Post.is_posted q = true ->
      In q (posts (snd r)))
  /\ log (snd r)
     = log b ++ map (publish_request (target_chat_id b))
                  (due_posts (now clk) b)
  /\ ~ In i (ids (due_posts (now clk) b)).
Proof.
  intros Hnd Hposted. cbv zeta.
  destruct (tick_rows clk b Hnd) as (Hr & Hfr & _ & HF).
  assert (Hids : ids (posts (snd (_check_and_publish_posts clk b)))
                 = ids (posts b)).
  { exact (tick_row_ids _ _ _ _ _ HF). }
  assert (Hkeep : Forall2 (fun p q => Post.id q = Post.id p
                             /\ (Post.is_posted p = true -> q = p))
                    (posts b) (posts (snd (_check_and_publish_posts clk b)))).
  { eapply Forall2_impl; [exact HF|]. intros p q Hpq. cbv beta.
    unfold tick_row in Hpq.
    destruct (Post.is_posted p) eqn:Hp; cbn [negb andb] in Hpq.
    - subst q. auto.
    - split; [|discriminate].
      destruct (is_due (now clk) p); [|now subst q].
      destruct Hpq as (k0 & _ & _ & ->).
      destruct (telegram b k0); [apply publish_update_id | reflexivity]. }
  split; [assumption|]. split; [apply Hfr|].
  split; [now rewrite Hids|]. split.
  { intros q Hq Hi. apply list_elem_of_In, list_elem_of_lookup in Hq as [j Hj].
    eapply Forall2_lookup_r in Hkeep as (p0 & Hp0 & Hid & Hsame); eauto.
    assert (Hpp : Post.is_posted p0 = true).
    { apply Hposted; [|congruence].
      apply list_elem_of_In, list_elem_of_lookup. eauto. }
    rewrite (Hsame Hpp). exact Hpp. }
  split.
  { intros q Hq Hpq. apply list_elem_of_In, list_elem_of_lookup in Hq as [j Hj].
    eapply Forall2_lookup_l in Hkeep as (q' & Hq' & _ & Hsame); eauto.
    rewrite (Hsame Hpq) in Hq'.
    apply list_elem_of_In, list_elem_of_lookup. eauto. }
  split; [apply (tick_log clk b)|].
  rewrite In_ids. intros (q & Hq & Hi).
  apply filter_In in Hq as [Hq _].
  apply In_order_by, filter_In in Hq as [Hq Hun]. unfold unposted in Hun.
  rewrite (Hposted q Hq Hi) in Hun. discriminate.
Qed.

Lemma run_ticks_leave_posted (clks : list clock) :
  forall (b : bot) (i : Z),
  NoDup (ids (posts b)) ->
  (forall q, In q (posts b) -> Post.id q = i -> Post.is_posted q = true) ->
  let r := run_ticks clks b in
  fst r = Ok tt
  /\ (forall q, In q (posts b) -> Post.is_posted q = true ->
      In q (posts (snd r)))
  /\ log (snd r)
     = log b ++ map (publish_request (target_chat_id b)) (published_by clks b)
  /\ ~ In i (ids (published_by clks b)).
Proof.
  induction clks as [|clk clks IH]; intros b i Hnd Hposted; cbv zeta.
  { cbn. split; [reflexivity|]. split; [auto|].
    split; [now rewrite app_nil_r | intros []]. }
  unfold run_ticks. cbn [for_each published_by]. unfold bind, after.
  destruct (tick_leaves_posted clk b i Hnd Hposted)
    as (Hr & Ht & Hnd1 & Hp1 & Hk1 & Hlog1 & Hs1).
  destruct (_check_and_publish_posts clk b) as [r1 b1].
  cbn [fst snd] in *. subst r1.
  destruct (IH b1 i Hnd1 Hp1) as (Hr2 & Hk2 & Hlog2 & Hs2).
  unfold run_ticks in Hr2, Hk2, Hlog2.
  split; [assumption|]. split; [auto|]. split.
  - rewrite Hlog2, Hlog1, Ht, map_app, app_assoc. reflexivity.
  - rewrite ids_app, in_app_iff. tauto.
Qed.

Lemma filter_id_absent (l : list Post.t) (i : Z) :
  ~ In i (ids l) -> List.filter (fun q => Post.id q =? i) l = [].
Proof.
  induction l as [|a l IH]; intros H; [reflexivity|]. cbn in *.
  destruct (Z.eqb_spec (Post.id a) i) as [E|E]; [tauto|]. apply IH. tauto.
Qed.

Lemma filter_id_unique (l : list Post.t) (p : Post.t) :
  NoDup (ids l) -> In p l ->
  List.filter (fun q => Post.id q =? Post.id p) l = [p].
Proof.
  induction l as [|a l IH]; intros Hnd Hin; [destruct Hin|].
  cbn [ids map] in Hnd. apply NoDup_cons in Hnd as [Ha Hnd].
  rewrite list_elem_of_In in Ha. cbn [List.filter]. destruct Hin as [->|Hin].
  - rewrite Z.eqb_refl. f_equal. now apply filter_id_absent.
  - destruct (Z.eqb_spec (Post.id a) (Post.id p)) as [E|_]; [|now apply IH].
    exfalso. apply Ha. rewrite E. apply In_ids. eauto.
Qed.


(** X10. A one-time post that is due is passed to [_publish_post] once by
    the tick and, the request being accepted, marked as posted; whatever
    ticks follow, its row stays as it is and none of them passes a row
    of its id to [_publish_post] again: what the ticks send is the list of
    the requests for the rows they pass. *)
Theorem one_time_post_sent_once (b : bot) (p : Post.t) (clk : clock)
    (later : list clock) :
  NoDup (ids (posts b)) ->
  In p (posts b) ->
  Post.is_posted p = false ->
  Post.is_recurring p = false ->
  is_due (now clk) p = true ->
  (forall k, telegram b k = true) ->
  let b1 := after (_check_and_publish_posts clk) b in
  let b2 := after (run_ticks later) b1 in
  log b1
  = log b ++ map (publish_request (target_chat_id b)) (due_posts (now clk) b)
  /\ List.filter (fun q => Post.id q =? Post.id p) (due_posts (now clk) b)
     = [p]
  /\ In (with_posted true p) (posts b1)
  /\ In (with_posted true p) (posts b2)
  /\ log b2
     = log b1
       ++ map (publish_request (target_chat_id b)) (published_by later b1)
  /\ List.filter (fun q => Post.id q =? Post.id p) (published_by later b1)
     = [].
Proof.
  intros Hnd Hin Hun Hone Hdue Hok. cbv zeta.
  split; [apply tick_log|]. split.
  { destruct (due_posts_spec (now clk) b) as (Hperm & _).
    apply filter_id_unique.
    - unfold ids. change (map Post.id ?l) with (Post.id <$> l).
      rewrite Hperm. change (Post.id <$> ?l) with (ids l).
      now apply NoDup_ids_filter.
    - apply list_elem_of_In. rewrite Hperm. apply list_elem_of_In, filter_In.
      split; [assumption|]. unfold unposted. now rewrite Hun, Hdue. }
  unfold after.
  destruct (tick_rows clk b Hnd) as (_ & Hfr & _ & HF).
  assert (Hids : ids (posts (snd (_check_and_publish_posts clk b)))
                 = ids (posts b)).
  { exact (tick_row_ids _ _ _ _ _ HF). }
  apply list_elem_of_In, list_elem_of_lookup in Hin as [j Hj].
  pose proof HF as HF'.
  eapply Forall2_lookup_l in HF' as (p' & Hj' & Hrow); eauto.
  unfold tick_row in Hrow. rewrite Hun, Hdue in Hrow. cbn [negb andb] in Hrow.
  destruct Hrow as (k & Hk & Hlk & Hp'). rewrite Hok in Hp'.
  unfold publish_update in Hp'. rewrite Hone in Hp'. subst p'.
  assert (Hin1 : In (with_posted true p)
                   (posts (snd (_check_and_publish_posts clk b))))
    by (apply list_elem_of_In, list_elem_of_lookup; eauto).
  split; [assumption|].
  destruct (run_ticks_leave_posted later
              (snd (_check_and_publish_posts clk b)) (Post.id p))
    as (_ & Hkeep & Hlog & Hsent).
  { now rewrite Hids. }
  { intros q Hq Hi.
    assert (q = with_posted true p); [|now subst q].
    apply (ids_unique (posts (snd (_check_and_publish_posts clk b))));
      [now rewrite Hids | now apply list_elem_of_In
      | now apply list_elem_of_In | exact Hi]. }
  split; [apply Hkeep; [assumption | reflexivity]|].
  split; [destruct Hfr as (Ft & _); now rewrite Hlog, Ft|].
  now apply filter_id_absent.
Qed.

End PublishedOnce.

Lemma one_time_post_sent_once_witness :
  let b := sample_bot [one_time_post; future_post] in
  let b1 := after (_check_and_publish_posts (lib := AsciiLib.lib) sample_clock) b in
  let b2 := after (run_ticks (lib := AsciiLib.lib) [sample_clock; sample_clock])
              b1 in
  log b1
  = log b
    ++ map (publish_request (target_chat_id b))
         (due_posts (lib := AsciiLib.lib) (now sample_clock) b)
  /\ List.filter (fun q => Post.id q =? Post.id one_time_post)
       (due_posts (lib := AsciiLib.lib) (now sample_clock) b)
     = [one_time_post]
  /\ In (with_posted true one_time_post) (posts b1)
  /\ In (with_posted true one_time_post) (posts b2)
  /\ log b2
     = log b1
       ++ map (publish_request (target_chat_id b))
            (published_by (lib := AsciiLib.lib) [sample_clock; sample_clock]
               b1)
  /\ List.filter (fun q => Post.id q =? Post.id one_time_post)
       (published_by (lib := AsciiLib.lib) [sample_clock; sample_clock] b1)
     = [].
Proof.
  apply (one_time_post_sent_once (lib := AsciiLib.lib)
           (sample_bot [one_time_post; future_post]) one_time_post sample_clock
           [sample_clock; sample_clock]).
  - vm_compute. repeat constructor; intros H; inversion H; subst;
      match goal with H : _ ∈ _ |- _ => inversion H end.
  - left. reflexivity.
  - reflexivity.
  - reflexivity.
  - vm_compute. reflexivity.
  - reflexivity.
Defined.

(** ** The one instant without a next weekday *)

Section NextWeekdayOverflow.

(** X11. On a valid instant [_get_next_weekday] can only fail with
    [OverflowError], and it does so exactly on the instants of
    9999-12-31, the last day a [datetime] can hold; on every other
    instant it returns. *)
Theorem next_weekday_overflow_only_last_day (T : datetime) :
  valid_datetime T = true ->
  (_get_next_weekday T = Raise OverflowError
   <-> dt_date T = mkdate 9999 12 31)
  /\ (forall e, _get_next_weekday T = Raise e -> e = OverflowError)
  /\ (dt_date T <> mkdate 9999 12 31 ->
      exists R, _get_next_weekday T = Ok R).
Proof.
  intros Hv.
  assert (Hlast : dt_date T = mkdate 9999 12 31 ->
                  _get_next_weekday T = Raise OverflowError).
  { intros E. unfold _get_next_weekday.
    rewrite add_days_overflow; [reflexivity|].
    unfold toordinal. unfold dt_date in E. injection E as -> -> ->.
    change (_ymd2ord 9999 12 31) with _MAXORDINAL. lia. }
  assert (Hother : dt_date T <> mkdate 9999 12 31 ->
                   exists R, _get_next_weekday T = Ok R).
  { intros Hne. destruct (get_next_weekday_spec T Hv Hne) as (R & HR & _).
    eauto. }
  destruct (Z.eq_dec (toordinal T) _MAXORDINAL) as [Emax|Nmax].
  - pose proof (toordinal_max T Hv Emax) as E.
    split; [split; [intros _; exact E | exact Hlast]|].
    split; [|intros Hne; contradiction].
    intros e He. rewrite (Hlast E) in He. congruence.
  - assert (Hne : dt_date T <> mkdate 9999 12 31).
    { intros E. apply Nmax. unfold toordinal. unfold dt_date in E.
      injection E as -> -> ->. reflexivity. }
    destruct (Hother Hne) as [R HR].
    split; [split; [rewrite HR; discriminate | intros E; contradiction]|].
    split; [|intros _; eauto].
    intros e He. rewrite HR in He. discriminate.
Qed.

End NextWeekdayOverflow.

Lemma next_weekday_overflow_only_last_day_witness :
  (_get_next_weekday last_day_0900 = Raise OverflowError
   <-> dt_date last_day_0900 = mkdate 9999 12 31)
  /\ (forall e, _get_next_weekday last_day_0900 = Raise e -> e = OverflowError)
  /\ (dt_date last_day_0900 <> mkdate 9999 12 31 ->
      exists R, _get_next_weekday last_day_0900 = Ok R).
Proof.
  apply (next_weekday_overflow_only_last_day last_day_0900). reflexivity.
Defined.

(** ** The handlers: groups, strangers, lists and deletions *)

Section Gate.

Context {lib : PyLib}.
Variable clk : clock.

Lemma set_log_set_log (b : bot) (l k : list effect) :
  set_log (set_log b l) k = set_log b k.
Proof. reflexivity. Qed.

Lemma only_sends_ret {A} (a : A) : only_sends (ret a).
Proof. intros b. exists []. cbn. rewrite app_nil_r. now destruct b. Qed.

Lemma only_sends_lift {A} (r : res A) : only_sends (lift r).
Proof. intros b. exists []. cbn. rewrite app_nil_r. now destruct b. Qed.

Lemma only_sends_gets {A} (f : bot -> A) : only_sends (gets f).
Proof. intros b. exists []. cbn. rewrite app_nil_r. now destruct b. Qed.

Lemma only_sends_make_request (e : effect) : only_sends (make_request e).
Proof. intros b. exists [e]. reflexivity. Qed.

Lemma only_sends_start_timer (chat_id : string) (user_id : Z) :
  only_sends (start_timer chat_id user_id).
Proof. intros b. eexists. reflexivity. Qed.

Lemma only_sends_bind {A B} (m : M A) (k : A -> M B) :
  only_sends m -> (forall a, only_sends (k a)) -> only_sends (bind m k).
Proof.
  intros Hm Hk b. unfold bind. destruct (Hm b) as [l Hl].
  destruct (m b) as [[a|e|] b1]; cbn [snd] in Hl; subst b1;
    [|exists l; reflexivity|exists l; reflexivity].
  destruct (Hk a (set_log b (log b ++ l))) as [l' Hl'].
  exists (l ++ l'). rewrite Hl'. cbn [log set_log]. now rewrite app_assoc.
Qed.

Lemma only_sends_try_except {A} (m : M A) (h : exn -> M A) :
  only_sends m -> (forall e, only_sends (h e)) -> only_sends (try_except m h).
Proof.
  intros Hm Hh b. unfold try_except. destruct (Hm b) as [l Hl].
  destruct (m b) as [[a|e|] b1]; cbn [snd] in Hl; subst b1;
    [exists l; reflexivity| |exists l; reflexivity].
  destruct (Hh e (set_log b (log b ++ l))) as [l' Hl'].
  exists (l ++ l'). rewrite Hl'. cbn [log set_log]. now rewrite app_assoc.
Qed.

Lemma only_sends_for_each {A} (l : list A) (body : A -> M unit) :
  (forall x, only_sends (body x)) -> only_sends (for_each l body).
Proof.
  intros Hb. induction l as [|x l IH]; cbn [for_each];
    [apply only_sends_ret|].
  apply only_sends_bind; [apply Hb | intros _; exact IH].
Qed.

Lemma only_sends_if {A} (c : bool) (m k : M A) :
  only_sends m -> only_sends k -> only_sends (if c then m else k).
Proof. now destruct c. Qed.

Lemma show_post_sends (chat_id : string) (p : Post.t) :
  only_sends (show_post chat_id p).
Proof.
  unfold show_post, send_photo, send_message.
  repeat first
    [ apply only_sends_ret | apply only_sends_make_request
    | apply only_sends_bind; [|intros ?] | apply only_sends_if ].
Qed.

Lemma show_posts_list_sends (chat_id : string) (user_id : Z) :
  only_sends (show_posts_list chat_id user_id).
Proof.
  unfold show_posts_list, get_posts, send_message.
  apply only_sends_if; [apply only_sends_ret|].
  apply only_sends_bind; [apply only_sends_gets|]. intros ps.
  destruct ps as [|p ps];
    repeat first
      [ apply only_sends_ret | apply only_sends_make_request
      | apply show_post_sends
      | apply only_sends_bind; [|intros ?] | apply only_sends_if
      | apply only_sends_for_each; intros ? ].
Qed.

Lemma show_posts_list_group (chat_id : string) (user_id : Z) (b : bot) :
  is_group chat_id = true -> show_posts_list chat_id user_id b = (Ok tt, b).
Proof. intros H. unfold show_posts_list. now rewrite H. Qed.

Lemma set_log_same (b : bot) : set_log b (log b) = b.
Proof. now destruct b. Qed.

(** X12. In a group or channel the buttons that manage posts do nothing:
    for "add_new", "delete_...", "confirm_delete_...", "cancel_delete_..."
    and "back_to_list" the query is answered and nothing else is sent; no
    post is deleted or changed, nobody is authorized, and no session but
    the sender's is touched. *)
Theorem group_chat_management_is_silent (b : bot) (q : callback_query) :
  is_group (cq_chat_id q) = true ->
  is_widget_callback (cq_data q) = false ->
  let r := process_callback_query clk q b in
  fst r = Ok tt
  /\ posts (snd r) = posts b
  /\ sqlite_sequence (snd r) = sqlite_sequence b
  /\ log (snd r) = log b ++ [answerCallbackQuery (cq_id q) None]
  /\ authorized_users (snd r) = authorized_users b
  /\ (forall u, u <> cq_from_id q ->
      user_states (snd r) !! u = user_states b !! u).
Proof.
  destruct q as [query_id data chat_id user_id message_id].
  cbn [cq_chat_id cq_data cq_id cq_from_id]. intros Hg Hw. cbv zeta.
  unfold process_callback_query.
  cbn [cq_chat_id cq_data cq_id cq_from_id cq_message_id].
  unfold bind at 1, make_request. rewrite Hg.
  destruct data; try discriminate Hw; cbn [is_delete_callback andb];
    try (cbn; repeat split; reflexivity).
  - (* add_new *)
    unfold bind, is_user_authorized, gets. cbn [is_widget_callback negb andb].
    destruct (bool_decide _); cbn [negb];
      [unfold dispatch_callback, start_add_post_flow; rewrite Hg|];
      cbn; repeat split; reflexivity.
  - (* back_to_list *)
    unfold bind, is_user_authorized, gets. cbn [is_widget_callback negb andb].
    destruct (bool_decide _); cbn [negb];
      [|cbn; repeat split; reflexivity].
    unfold dispatch_callback, bind, discard_session, modify.
    rewrite show_posts_list_group by assumption.
    cbn. repeat split; try reflexivity.
    intros u Hu. now apply lookup_delete_ne.
Qed.

Lemma bind_gets {A B} (f : bot -> A) (k : A -> M B) (b : bot) :
  bind (gets f) k b = k (f b) b.
Proof. reflexivity. Qed.

Lemma calendar_edit_sends (chat_id : string) (message_id : Z) (text : message)
    (cal : res keyboard) :
  only_sends
    (let* calendar_markup := lift cal in
     edit_message_text chat_id message_id text (Some calendar_markup) ;; pass).
Proof.
  unfold edit_message_text.
  repeat first
    [ apply only_sends_ret | apply only_sends_make_request | apply only_sends_lift
    | apply only_sends_bind; [|intros ?] ].
Qed.

(** The handlers of the edit flow do nothing for a user who is not
    editing a time. *)
Lemma edit_time_confirm_idle (chat_id : string) (user_id message_id : Z)
    (hour minute : Z) (b : bot) :
  user_states b !! user_id = None
  \/ user_states b !! user_id = Some password_session ->
  _handle_edit_time_confirm clk chat_id user_id message_id hour minute b
  = (Ok tt, b).
Proof.
  intros Hs. unfold _handle_edit_time_confirm, lookup_session.
  rewrite bind_gets. now destruct Hs as [-> | ->].
Qed.

Lemma edit_time_confirm_now_idle (chat_id : string) (user_id message_id : Z)
    (b : bot) :
  user_states b !! user_id = None
  \/ user_states b !! user_id = Some password_session ->
  _handle_edit_time_confirm_now clk chat_id user_id message_id b = (Ok tt, b).
Proof.
  intros Hs. unfold _handle_edit_time_confirm_now, lookup_session.
  rewrite bind_gets. now destruct Hs as [-> | ->].
Qed.

Lemma calendar_edit_confirm_idle (chat_id : string) (user_id message_id : Z)
    (year month day : Z) (b : bot) :
  user_states b !! user_id = None
  \/ user_states b !! user_id = Some password_session ->
  _handle_calendar_edit_confirm chat_id user_id message_id year month day b
  = (Ok tt, b).
Proof.
  intros Hs. unfold _handle_calendar_edit_confirm, lookup_session.
  rewrite bind_gets. now destruct Hs as [-> | ->].
Qed.

(** The widget buttons pressed by a user with no session, or with the
    session of the access gate: the handler only sends, or drops the
    session and sends. *)
Lemma dispatch_without_draft (query_id chat_id : string)
    (user_id message_id : Z) (c : callback) (b : bot) :
  user_states b !! user_id = None
  \/ user_states b !! user_id = Some password_session ->
  is_widget_callback c = true ->
  exists l,
    snd (dispatch_callback clk query_id chat_id user_id message_id c b)
    = set_log b (log b ++ l)
    \/ snd (dispatch_callback clk query_id chat_id user_id message_id c b)
       = set_log (set_user_states b (delete user_id (user_states b)))
           (log b ++ l).
Proof.
  intros Hs Hw.
  assert (Hnone : forall b0 : bot, exists l : list effect,
            b0 = set_log b0 (log b0 ++ l) \/ False).
  { intros b0. exists []. left. rewrite app_nil_r. now destruct b0. }
  assert (Hsend : forall m : M unit, only_sends m ->
            exists l, snd (m b) = set_log b (log b ++ l)
                      \/ snd (m b)
                         = set_log (set_user_states b
                                      (delete user_id (user_states b)))
                             (log b ++ l)).
  { intros m Hm. destruct (Hm b) as [l Hl]. exists l. now left. }
  assert (Hdrop : exists l,
            snd ((discard_session user_id ;; show_posts_list chat_id user_id) b)
            = set_log b (log b ++ l)
            \/ snd ((discard_session user_id ;; show_posts_list chat_id user_id) b)
               = set_log (set_user_states b (delete user_id (user_states b)))
                   (log b ++ l)).
  { unfold bind, discard_session, modify.
    destruct (show_posts_list_sends chat_id user_id
                (set_user_states b (delete user_id (user_states b))))
      as [l Hl].
    exists l. right. exact Hl. }
  assert (Hdraft : (user_states b !! user_id) ≫= post_data = None)
    by (destruct Hs as [-> | ->]; reflexivity).
  destruct c; try discriminate Hw; unfold dispatch_callback.
  - (* recurring_yes *)
    unfold finish_add_post, lookup_session. rewrite bind_gets.
    exists []. left. rewrite app_nil_r, set_log_same.
    now destruct Hs as [-> | ->].
  - (* recurring_no *)
    unfold finish_add_post, lookup_session. rewrite bind_gets.
    exists []. left. rewrite app_nil_r, set_log_same.
    now destruct Hs as [-> | ->].
  - (* skip_text *)
    unfold lookup_session. rewrite bind_gets, Hdraft.
    apply Hsend.
    apply only_sends_bind; [apply only_sends_make_request|].
    intros _. apply only_sends_ret.
  - (* skip_photo *)
    unfold lookup_session. rewrite bind_gets, Hdraft.
    apply Hsend.
    apply only_sends_bind; [apply only_sends_make_request|].
    intros _. apply only_sends_ret.
  - (* cal_nav_ *) apply Hsend, calendar_edit_sends.
  - (* cal_day_ *) apply Hsend, calendar_edit_sends.
  - (* cal_confirm_ *)
    unfold lookup_session. rewrite bind_gets, Hdraft.
    rewrite calendar_edit_confirm_idle by exact Hs.
    exists []. left. cbn [snd]. rewrite app_nil_r. now destruct b.
  - (* cal_cancel *)
    unfold lookup_session. rewrite bind_gets, Hdraft. exact Hdrop.
  - (* cal_ignore *) apply Hsend, only_sends_ret.
  - apply Hsend. unfold edit_message_text.
    apply only_sends_bind; [apply only_sends_make_request|].
    intros _. apply only_sends_ret.
  - apply Hsend. unfold edit_message_text.
    apply only_sends_bind; [apply only_sends_make_request|].
    intros _. apply only_sends_ret.
  - apply Hsend. unfold edit_message_text.
    apply only_sends_bind; [apply only_sends_make_request|].
    intros _. apply only_sends_ret.
  - apply Hsend. unfold edit_message_text.
    apply only_sends_bind; [apply only_sends_make_request|].
    intros _. apply only_sends_ret.
  - (* time_quick_ *)
    unfold _handle_time_confirm, lookup_session. rewrite bind_gets.
    assert (Hb : b = set_log b (log b ++ []))
      by (rewrite app_nil_r; now destruct b).
    exists []. left. rewrite <- Hb.
    destruct Hs as [Hs|Hs]; rewrite Hs; [reflexivity|].
    cbn [post_data password_session].
    rewrite edit_time_confirm_idle by (right; exact Hs). reflexivity.
  - (* time_quick_now *)
    unfold _handle_time_confirm_now, lookup_session. rewrite bind_gets.
    assert (Hb : b = set_log b (log b ++ []))
      by (rewrite app_nil_r; now destruct b).
    exists []. left. rewrite <- Hb.
    destruct Hs as [Hs|Hs]; rewrite Hs; [reflexivity|].
    cbn [post_data password_session].
    rewrite edit_time_confirm_now_idle by (right; exact Hs). reflexivity.
  - (* time_confirm_ *)
    unfold _handle_time_confirm, lookup_session. rewrite bind_gets.
    assert (Hb : b = set_log b (log b ++ []))
      by (rewrite app_nil_r; now destruct b).
    exists []. left. rewrite <- Hb.
    destruct Hs as [Hs|Hs]; rewrite Hs; [reflexivity|].
    cbn [post_data password_session].
    rewrite edit_time_confirm_idle by (right; exact Hs). reflexivity.
  - (* time_cancel *)
    unfold lookup_session. rewrite bind_gets, Hdraft. exact Hdrop.
  - (* time_ignore *) apply Hsend, only_sends_ret.
Qed.

(** X13. A user who is not authorized and has no session, or only the
    session of the access gate, cannot change the store by pressing
    buttons, whatever button it is and whether or not the handler raises:
    the posts and the authorized users are as before, the sessions of the
    other users are untouched, and the user is still a stranger
    afterwards. *)
Theorem outsider_cannot_change_store (b : bot) (q : callback_query) :
  outsider b (cq_from_id q) ->
  let b' := after (process_callback_query clk q) b in
  posts b' = posts b
  /\ sqlite_sequence b' = sqlite_sequence b
  /\ authorized_users b' = authorized_users b
  /\ outsider b' (cq_from_id q)
  /\ (forall u, u <> cq_from_id q ->
      user_states b' !! u = user_states b !! u).
Proof.
  destruct q as [query_id data chat_id user_id message_id].
  cbn [cq_from_id]. intros [Hna Hs]. cbv zeta. unfold after.
  remember (snd (process_callback_query clk
                   (CallbackQuery query_id data chat_id user_id message_id) b))
    as b' eqn:Hb'.
  unfold process_callback_query in Hb'.
  cbn [cq_chat_id cq_data cq_id cq_from_id cq_message_id] in Hb'.
  unfold bind at 1, make_request in Hb'.
  set (b0 := set_log b (log b ++ [answerCallbackQuery query_id None])) in Hb'.
  assert (Hquiet : posts b0 = posts b
                   /\ sqlite_sequence b0 = sqlite_sequence b
                   /\ authorized_users b0 = authorized_users b
                   /\ outsider b0 user_id
                   /\ (forall u, u <> user_id ->
                       user_states b0 !! u = user_states b !! u)).
  { split; [reflexivity|]. split; [reflexivity|]. split; [reflexivity|].
    split; [split; [exact Hna | exact Hs]|]. intros u Hu. reflexivity. }
  destruct (is_delete_callback data && is_group chat_id);
    [subst b'; exact Hquiet|].
  unfold is_user_authorized in Hb'. rewrite bind_gets in Hb'.
  cbn [authorized_users b0 set_log] in Hb'.
  rewrite bool_decide_eq_false_2 in Hb' by exact Hna. cbn [negb] in Hb'.
  destruct (is_widget_callback data) eqn:Hw; cbn [negb andb] in Hb'.
  - destruct (dispatch_without_draft query_id chat_id user_id message_id
                data b0 Hs Hw) as [l [Hl|Hl]]; rewrite Hl in Hb'; subst b'.
    + split; [reflexivity|]. split; [reflexivity|]. split; [reflexivity|].
      split; [split; [exact Hna | exact Hs]|]. intros u Hu. reflexivity.
    + cbn [posts sqlite_sequence authorized_users user_states set_log
             set_user_states b0].
      split; [reflexivity|]. split; [reflexivity|]. split; [reflexivity|].
      split.
      * split; [exact Hna|]. left. apply lookup_delete_eq.
      * intros u Hu. now apply lookup_delete_ne.
  - destruct (is_group chat_id) eqn:Hg; [subst b'; exact Hquiet|].
    unfold _handle_unauthorized_user in Hb'. rewrite Hg in Hb'.
    cbn in Hb'. subst b'. cbn.
    split; [reflexivity|]. split; [reflexivity|]. split; [reflexivity|].
    split.
    + split; [exact Hna|]. right. apply lookup_insert_eq.
    + intros u Hu. now apply lookup_insert_ne.
Qed.

Lemma offered_app (l k : list effect) : offered (l ++ k) = offered l ++ offered k.
Proof. unfold offered. apply flat_map_app. Qed.

Lemma show_post_run (chat_id : string) (p : Post.t) (b : bot) :
  exists l,
    show_post chat_id p b = (Ok tt, set_log b (log b ++ l))
    /\ offered l = [delete_ (Post.id p)]
    /\ Forall (fun e => effect_chat e = Some chat_id) l.
Proof.
  unfold show_post.
  destruct (truthy_bytes (Post.photo_data p) && nonempty (Post.content p));
    [|destruct (truthy_bytes (Post.photo_data p))];
    eexists; (split; [cbn; rewrite <- ?app_assoc; reflexivity|]);
    (split; [reflexivity | repeat constructor]).
Qed.

Lemma for_each_show_post (chat_id : string) (ps : list Post.t) (b : bot) :
  exists l,
    for_each ps (show_post chat_id) b = (Ok tt, set_log b (log b ++ l))
    /\ offered l = map (fun p => delete_ (Post.id p)) ps
    /\ Forall (fun e => effect_chat e = Some chat_id) l.
Proof.
  revert b. induction ps as [|p ps IH]; intros b.
  { exists []. cbn. rewrite app_nil_r, set_log_same. repeat split. constructor. }
  cbn [for_each]. unfold bind.
  destruct (show_post_run chat_id p b) as (l1 & -> & Ho1 & Hc1).
  destruct (IH (set_log b (log b ++ l1))) as (l2 & -> & Ho2 & Hc2).
  exists (l1 ++ l2). cbn [log set_log]. rewrite set_log_set_log, app_assoc.
  split; [reflexivity|]. split.
  - rewrite offered_app, Ho1, Ho2. reflexivity.
  - apply Forall_app. split; assumption.
Qed.

(** X14. In a private chat [show_posts_list] changes nothing but the log
    and writes to that chat only.  It lists the unposted posts in the
    order of their instants, at most ten of them: the buttons it offers
    are one "delete" button per post shown, carrying the id of that post,
    and the "add new" button at the end; with no unposted post it sends
    one message and no button. *)
Theorem posts_list_buttons (b : bot) (chat_id : string) (user_id : Z) :
  is_group chat_id = false ->
  exists ps l,
    get_posts false b = (Ok ps, b)
    /\ show_posts_list chat_id user_id b = (Ok tt, set_log b (log b ++ l))
    /\ Forall (fun e => effect_chat e = Some chat_id) l
    /\ (ps = [] -> l = [sendMessage chat_id M_no_posts None])
    /\ (ps <> [] ->
        offered l
        = map (fun p => delete_ (Post.id p)) (take 10 ps) ++ [add_new]
        /\ head l
           = Some (sendMessage chat_id (M_list_header (Z.of_nat (length ps)))
                     None)).
Proof.
  intros Hg. unfold show_posts_list. rewrite Hg.
  unfold get_posts at 2. rewrite bind_gets.
  remember (order_by_scheduled_time
              (List.filter (fun p => negb (Post.is_posted p)) (posts b)))
    as ps eqn:Eps.
  assert (Hget : get_posts false b = (Ok ps, b))
    by (unfold get_posts, gets; now rewrite Eps).
  clear Eps. exists ps. destruct ps as [|p0 ps0].
  { eexists. split; [assumption|]. split; [reflexivity|].
    split; [repeat constructor|]. split; [reflexivity | congruence]. }
  cbv iota. set (ps := p0 :: ps0) in *.
  unfold bind at 1, send_message, make_request.
  set (b1 := set_log b
               (log b ++ [sendMessage chat_id
                            (M_list_header (Z.of_nat (length ps))) None])).
  unfold bind at 1.
  destruct (for_each_show_post chat_id (take 10 ps) b1) as (l & -> & Ho & Hc).
  set (tail := if 10 <? Z.of_nat (length ps)
               then [sendMessage chat_id
                       (M_remaining (Z.of_nat (length ps) - 10)) None]
               else []).
  exists ([sendMessage chat_id (M_list_header (Z.of_nat (length ps))) None]
          ++ l ++ tail
          ++ [sendMessage chat_id M_create_new
                (Some [[Button L_add_new_post add_new]])]).
  split; [assumption|]. split.
  { unfold tail. destruct (10 <? Z.of_nat (length ps)); cbn;
      unfold b1; cbn [log set_log]; rewrite <- ?app_assoc; reflexivity. }
  split.
  { apply Forall_app. split; [repeat constructor|].
    apply Forall_app. split; [assumption|].
    apply Forall_app. split; [|repeat constructor].
    unfold tail. destruct (10 <? Z.of_nat (length ps)); repeat constructor. }
  split; [intros E; discriminate E|].
  intros _. split; [|reflexivity].
  rewrite !offered_app, Ho.
  replace (offered tail) with (@nil callback)
    by (unfold tail; now destruct (10 <? Z.of_nat (length ps))).
  reflexivity.
Qed.

Lemma posts_with_id_run (post_id : Z) (b : bot) :
  exists found,
    posts_with_id post_id b = (Ok found, b)
    /\ (found = [] <-> ~ In post_id (ids (posts b)))
    /\ (forall p, In p found <-> In p (posts b) /\ Post.id p = post_id).
Proof.
  unfold posts_with_id, get_posts. rewrite bind_gets. eexists.
  split; [reflexivity|].
  assert (Hin : forall p,
            In p (List.filter (fun p => Post.id p =? post_id)
                    (order_by_scheduled_time (posts b)))
            <-> In p (posts b) /\ Post.id p = post_id).
  { intros p. now rewrite filter_In, In_order_by, Z.eqb_eq. }
  split; [|exact Hin].
  rewrite In_ids. split.
  - intros E (p & Hp & Hid). assert (H : In p []); [|destruct H].
    rewrite <- E. apply Hin. auto.
  - intros Hno.
    destruct (List.filter _ (order_by_scheduled_time (posts b))) as [|p l] eqn:E;
      [reflexivity|].
    exfalso. apply Hno. exists p. apply Hin. now left.
Qed.

(** X15. Deleting a post takes two buttons, pressed by an authorized
    user in a private chat, for an id that fits a 64-bit integer.
    "delete_<id>" changes nothing: when a row
    has the id it offers "confirm_delete_<id>" and "cancel_delete_<id>"
    for that same id, else it says that the post is not found.
    "confirm_delete_<id>" then removes exactly the rows of that id and
    starts the timer that lists the posts again; pressed for an id that
    no row has, it reports the failure and changes no row. *)
Theorem delete_takes_two_steps (b : bot) (query_id query_id' chat_id : string)
    (user_id message_id message_id' post_id : Z) :
  is_group chat_id = false ->
  user_id ∈ authorized_users b ->
  sqlite_int post_id = true ->
  let r1 := process_callback_query clk
              (CallbackQuery query_id (delete_ post_id) chat_id user_id
                 message_id) b in
  let r2 := process_callback_query clk
              (CallbackQuery query_id' (confirm_delete_ post_id) chat_id
                 user_id message_id') (snd r1) in
  fst r1 = Ok tt /\ fst r2 = Ok tt
  /\ posts (snd r1) = posts b
  /\ user_states (snd r2) = user_states b
  /\ posts (snd r2)
     = List.filter (fun p => negb (Post.id p =? post_id)) (posts b)
  /\ (In post_id (ids (posts b)) ->
      (exists text,
         log (snd r1)
         = log b ++ [answerCallbackQuery query_id None;
                     editMessageText chat_id message_id text
                       (Some [[Button L_yes_delete (confirm_delete_ post_id);
                               Button L_cancel (cancel_delete_ post_id)]])])
      /\ log (snd r2)
         = log (snd r1)
           ++ [answerCallbackQuery query_id' None;
               editMessageText chat_id message_id' (M_deleted post_id) None;
               Timer_show_posts_list chat_id user_id])
  /\ (~ In post_id (ids (posts b)) ->
      log (snd r1)
      = log b ++ [answerCallbackQuery query_id None;
                  editMessageText chat_id message_id (M_not_found post_id)
                    None]
      /\ posts (snd r2) = posts b
      /\ log (snd r2)
         = log (snd r1)
           ++ [answerCallbackQuery query_id' None;
               editMessageText chat_id message_id' (M_delete_failed post_id)
                 None]).
Proof.
  intros Hg Hauth Hint. cbv zeta.
  assert (Hstep1 : exists found,
            (found = [] <-> ~ In post_id (ids (posts b)))
            /\ process_callback_query clk
                 (CallbackQuery query_id (delete_ post_id) chat_id user_id
                    message_id) b
               = (Ok tt,
                  set_log b
                    (log b
                     ++ [answerCallbackQuery query_id None;
                         match found with
                         | [] => editMessageText chat_id message_id
                                   (M_not_found post_id) None
                         | post :: _ =>
                             editMessageText chat_id message_id
                               (M_delete_confirm post)
                               (Some [[Button L_yes_delete
                                         (confirm_delete_ post_id);
                                       Button L_cancel
                                         (cancel_delete_ post_id)]])
                         end]))).
  { unfold process_callback_query.
    cbn [cq_chat_id cq_data cq_id cq_from_id cq_message_id].
    unfold bind at 1, make_request. rewrite Hg.
    cbn [is_delete_callback andb].
    unfold is_user_authorized. rewrite bind_gets.
    cbn [authorized_users set_log].
    rewrite bool_decide_eq_true_2 by exact Hauth.
    cbn [is_widget_callback negb andb].
    unfold dispatch_callback, handle_delete_post, bind at 1.
    destruct (posts_with_id_run post_id
                (set_log b (log b ++ [answerCallbackQuery query_id None])))
      as (found & -> & Hempty & _).
    exists found. split; [exact Hempty|].
    destruct found as [|post found]; cbn; rewrite <- app_assoc; reflexivity. }
  destruct Hstep1 as (found & Hempty & ->). cbn [fst snd].
  set (b1 := set_log b _).
  assert (Hstep2 : process_callback_query clk
                     (CallbackQuery query_id' (confirm_delete_ post_id) chat_id
                        user_id message_id') b1
                   = (Ok tt,
                      Bot (target_chat_id b)
                        (List.filter (fun p => negb (Post.id p =? post_id))
                           (posts b))
                        (sqlite_sequence b) (authorized_users b)
                        (user_states b)
                        (log b1
                         ++ answerCallbackQuery query_id' None
                            :: (if existsb (fun p => Post.id p =? post_id)
                                     (posts b)
                                then [editMessageText chat_id message_id'
                                        (M_deleted post_id) None;
                                      Timer_show_posts_list chat_id user_id]
                                else [editMessageText chat_id message_id'
                                        (M_delete_failed post_id) None]))
                        (telegram b))).
  { unfold process_callback_query.
    cbn [cq_chat_id cq_data cq_id cq_from_id cq_message_id].
    unfold bind at 1, make_request. rewrite Hg.
    cbn [is_delete_callback andb].
    unfold is_user_authorized. rewrite bind_gets.
    cbn [authorized_users set_log b1].
    rewrite bool_decide_eq_true_2 by exact Hauth.
    cbn [is_widget_callback negb andb].
    unfold dispatch_callback, bind at 1, delete_post. rewrite Hint.
    cbn [posts set_log b1].
    destruct (existsb (fun p => Post.id p =? post_id) (posts b));
      unfold start_timer, modify; cbn; rewrite <- !app_assoc; reflexivity. }
  rewrite Hstep2. cbn [fst snd posts user_states log].
  split; [reflexivity|]. split; [reflexivity|]. split; [reflexivity|].
  split; [reflexivity|]. split; [reflexivity|]. split.
  - intros Hin.
    assert (Hex : existsb (fun p => Post.id p =? post_id) (posts b) = true)
      by (now apply existsb_id).
    rewrite Hex. split; [|reflexivity].
    destruct found as [|post found]; [exfalso; now apply Hempty|].
    eexists. reflexivity.
  - intros Hno.
    assert (Hex : existsb (fun p => Post.id p =? post_id) (posts b) = false).
    { destruct (existsb _ (posts b)) eqn:E; [|reflexivity].
      apply existsb_id in E. contradiction. }
    rewrite Hex. apply Hempty in Hno as Hf. subst found.
    split; [reflexivity|]. split; [|reflexivity].
    now apply not_In_ids_filter.
Qed.

End Gate.

Lemma group_chat_management_is_silent_witness :
  let b := managed_bot in
  let q := CallbackQuery "q1" (confirm_delete_ 1) "-1001" 7 5 in
  let r := process_callback_query (lib := AsciiLib.lib) sample_clock q b in
  fst r = Ok tt
  /\ posts (snd r) = posts b
  /\ sqlite_sequence (snd r) = sqlite_sequence b
  /\ log (snd r) = log b ++ [answerCallbackQuery (cq_id q) None]
  /\ authorized_users (snd r) = authorized_users b
  /\ (forall u, u <> cq_from_id q ->
      user_states (snd r) !! u = user_states b !! u).
Proof.
  apply (group_chat_management_is_silent (lib := AsciiLib.lib) sample_clock
           managed_bot (CallbackQuery "q1" (confirm_delete_ 1) "-1001" 7 5));
    reflexivity.
Defined.

Lemma outsider_cannot_change_store_witness :
  let b := sample_bot [one_time_post] in
  let q := CallbackQuery "q1" (confirm_delete_ 1) "42" 7 5 in
  let b' := after (process_callback_query (lib := AsciiLib.lib) sample_clock q)
              b in
  posts b' = posts b
  /\ sqlite_sequence b' = sqlite_sequence b
  /\ authorized_users b' = authorized_users b
  /\ outsider b' (cq_from_id q)
  /\ (forall u, u <> cq_from_id q ->
      user_states b' !! u = user_states b !! u).
Proof.
  apply (outsider_cannot_change_store (lib := AsciiLib.lib) sample_clock
           (sample_bot [one_time_post])
           (CallbackQuery "q1" (confirm_delete_ 1) "42" 7 5)).
  split; [apply not_elem_of_empty | left; reflexivity].
Defined.

(** A stranger who presses "confirm_delete_1" in a private chat is asked
    for the password, and post 1 is still there. *)
Example stranger_presses_delete :
  let b' := after (process_callback_query (lib := AsciiLib.lib) sample_clock
                     (CallbackQuery "q1" (confirm_delete_ 1) "42" 7 5))
              (sample_bot [one_time_post]) in
  posts b' = [one_time_post]
  /\ user_states b' !! 7 = Some password_session
  /\ log b' = [answerCallbackQuery "q1" None;
               sendMessage "42" M_access_required None].
Proof. repeat split; vm_compute; reflexivity. Qed.

Lemma posts_list_buttons_witness :
  exists ps l,
    get_posts false managed_bot = (Ok ps, managed_bot)
    /\ show_posts_list "42" 7 managed_bot
       = (Ok tt, set_log managed_bot (log managed_bot ++ l))
    /\ Forall (fun e => effect_chat e = Some "42"%string) l
    /\ (ps = [] -> l = [sendMessage "42" M_no_posts None])
    /\ (ps <> [] ->
        offered l
        = map (fun p => delete_ (Post.id p)) (take 10 ps) ++ [add_new]
        /\ head l
           = Some (sendMessage "42" (M_list_header (Z.of_nat (length ps)))
                     None)).
Proof.
  apply (posts_list_buttons managed_bot "42" 7). reflexivity.
Defined.

(** Twelve posts of one instant: the list offers the first ten in rowid
    order. *)
Example posts_list_tied :
  offered
    (log (after (show_posts_list "42" 7)
            (sample_bot
               (map (fun i => Post.mk i "p" None None
                                (Text "2024-01-05T09:00:00") false false
                                "2024-01-01 08:00:00")
                  (seqZ 1 12)))))
  = map delete_ (seqZ 1 10) ++ [add_new].
Proof. vm_compute. reflexivity. Qed.

Lemma delete_takes_two_steps_witness :
  let b := managed_bot in
  let r1 := process_callback_query (lib := AsciiLib.lib) sample_clock
              (CallbackQuery "q1" (delete_ 1) "42" 7 5) b in
  let r2 := process_callback_query (lib := AsciiLib.lib) sample_clock
              (CallbackQuery "q2" (confirm_delete_ 1) "42" 7 6) (snd r1) in
  fst r1 = Ok tt /\ fst r2 = Ok tt
  /\ posts (snd r1) = posts b
  /\ user_states (snd r2) = user_states b
  /\ posts (snd r2)
     = List.filter (fun p => negb (Post.id p =? 1)) (posts b)
  /\ (In 1 (ids (posts b)) ->
      (exists text,
         log (snd r1)
         = log b ++ [answerCallbackQuery "q1" None;
                     editMessageText "42" 5 text
                       (Some [[Button L_yes_delete (confirm_delete_ 1);
                               Button L_cancel (cancel_delete_ 1)]])])
      /\ log (snd r2)
         = log (snd r1)
           ++ [answerCallbackQuery "q2" None;
               editMessageText "42" 6 (M_deleted 1) None;
               Timer_show_posts_list "42" 7])
  /\ (~ In 1 (ids (posts b)) ->
      log (snd r1)
      = log b ++ [answerCallbackQuery "q1" None;
                  editMessageText "42" 5 (M_not_found 1) None]
      /\ posts (snd r2) = posts b
      /\ log (snd r2)
         = log (snd r1)
           ++ [answerCallbackQuery "q2" None;
               editMessageText "42" 6 (M_delete_failed 1) None]).
Proof.
  apply (delete_takes_two_steps (lib := AsciiLib.lib) sample_clock managed_bot
           "q1" "q2" "42" 7 5 6 1);
    [reflexivity | vm_compute; reflexivity | reflexivity].
Defined.

(** The confirmation for an id that does not fit: the query is answered,
    then binding the id raises, and no row goes. *)
Example confirm_delete_too_large :
  process_callback_query (lib := AsciiLib.lib) sample_clock
    (CallbackQuery "q2" (confirm_delete_ 9223372036854775808) "42" 7 6)
    managed_bot
  = (Raise OverflowError,
     set_log managed_bot
       (log managed_bot ++ [answerCallbackQuery "q2" None])).
Proof. vm_compute. reflexivity. Qed.

(** On the sample table the two steps leave post 2 alone. *)
Example delete_post_one :
  let r1 := process_callback_query (lib := AsciiLib.lib) sample_clock
              (CallbackQuery "q1" (delete_ 1) "42" 7 5) managed_bot in
  let r2 := process_callback_query (lib := AsciiLib.lib) sample_clock
              (CallbackQuery "q2" (confirm_delete_ 1) "42" 7 6) (snd r1) in
  posts (snd r1) = [one_time_post; recurring_post]
  /\ posts (snd r2) = [recurring_post].
Proof. split; vm_compute; reflexivity. Qed.

(** ** The wizard, from the first button to the stored post *)

Section Wizard.

Context {lib : PyLib}.
Variable _handle_password_attempt : string -> Z -> string -> M unit.
Variable process_command : string -> Z -> string -> M unit.

Lemma bind_modify {B} (f : bot -> bot) (k : unit -> M B) (b : bot) :
  bind (modify f) k b = k tt (f b).
Proof. reflexivity. Qed.

Lemma bind_make_request {B} (e : effect) (k : bool -> M B) (b : bot) :
  bind (make_request e) k b
  = k (telegram b (length (log b))) (set_log b (log b ++ [e])).
Proof. reflexivity. Qed.

Lemma bind_ret {A B} (a : A) (k : A -> M B) (b : bot) : bind (ret a) k b = k a b.
Proof. reflexivity. Qed.

Lemma bind_run {A B} (m : M A) (k : A -> M B) (b b' : bot) (a : A) :
  m b = (Ok a, b') -> bind m k b = k a b'.
Proof. intros H. unfold bind. now rewrite H. Qed.

Lemma handle_edit_message_idle (chat_id : string) (user_id : Z)
    (message_text : string) (photo_data : option bytes)
    (photo_filename : option string) (b : bot) (u : user_state) :
  user_states b !! user_id = Some u ->
  is_editing (state u) = false ->
  _handle_edit_message chat_id user_id message_text photo_data photo_filename b
  = (Ok false, b).
Proof.
  intros Hu He. unfold _handle_edit_message, lookup_session.
  rewrite bind_gets, Hu, He. reflexivity.
Qed.

Lemma wizard_at_set_log (b0 b : bot) (user_id : Z) (u : user_state)
    (l : list effect) :
  wizard_at b0 b user_id u -> wizard_at b0 (set_log b l) user_id u.
Proof. intros H. exact H. Qed.

Lemma wizard_at_only_sends {A} (m : M A) (b0 b : bot) (user_id : Z)
    (u : user_state) :
  only_sends m -> wizard_at b0 b user_id u ->
  wizard_at b0 (snd (m b)) user_id u.
Proof. intros Hm H. destruct (Hm b) as [l ->]. exact H. Qed.

Lemma wizard_at_mutate (b0 b : bot) (user_id : Z) (u : user_state)
    (f : user_state -> user_state) :
  wizard_at b0 b user_id u ->
  wizard_at b0 (set_user_states b (alter f user_id (user_states b))) user_id
    (f u).
Proof.
  intros (Hp & Hs & Ha & Hu). repeat split; try assumption.
  cbn [user_states set_user_states]. rewrite Hu. apply alter_insert_eq.
Qed.

Lemma wizard_at_eq (b0 b : bot) (user_id : Z) (u u' : user_state) :
  wizard_at b0 b user_id u -> u = u' -> wizard_at b0 b user_id u'.
Proof. now intros H <-. Qed.

Lemma wizard_at_lookup (b0 b : bot) (user_id : Z) (u : user_state) :
  wizard_at b0 b user_id u -> user_states b !! user_id = Some u.
Proof. intros (_ & _ & _ & ->). apply lookup_insert_eq. Qed.

(** Step 1: the "add_new" button of an authorized user in a private chat
    opens a fresh wizard session, in place of any session there was. *)
Lemma wizard_start (clk : clock) (b : bot) (query_id chat_id : string)
    (user_id message_id : Z) :
  is_group chat_id = false ->
  user_id ∈ authorized_users b ->
  wizard_at b
    (snd (process_callback_query clk
            (CallbackQuery query_id add_new chat_id user_id message_id) b))
    user_id (wizard_session waiting_for_content Draft.empty).
Proof.
  intros Hg Hauth. unfold process_callback_query.
  cbn [cq_chat_id cq_data cq_id cq_from_id cq_message_id].
  rewrite bind_make_request. cbn [is_delete_callback andb].
  unfold is_user_authorized. rewrite bind_gets.
  cbn [authorized_users set_log].
  rewrite bool_decide_eq_true_2 by exact Hauth.
  cbn [is_widget_callback negb andb].
  unfold dispatch_callback, start_add_post_flow. rewrite Hg.
  rewrite bind_modify. unfold send_message. rewrite bind_make_request.
  repeat split.
Qed.

(** Step 2: a text at the first step is recorded as the content. *)
Lemma wizard_text (clk : clock) (b0 b : bot) (chat_id : string) (user_id : Z)
    (message_text : string) (photo_data : option bytes)
    (photo_filename : option string) (d : Draft.t) :
  wizard_at b0 b user_id (wizard_session waiting_for_content d) ->
  wizard_at b0
    (snd (process_message _handle_password_attempt process_command clk chat_id
            user_id message_text photo_data photo_filename b))
    user_id
    (wizard_session waiting_for_photo
       (draft_set_content
          (if says message_text "skip" then ""%string else message_text) d)).
Proof.
  intros Hw. pose proof (wizard_at_lookup _ _ _ _ Hw) as Hu.
  unfold process_message, lookup_session. rewrite bind_gets, Hu.
  cbn [state wizard_session].
  rewrite (bind_run _ _ _ _ _
             (handle_edit_message_idle chat_id user_id message_text photo_data
                photo_filename b _ Hu eq_refl)).
  cbn [post_data getitem wizard_session]. rewrite bind_ret.
  unfold mutate_session. rewrite !bind_modify.
  unfold send_message. rewrite bind_make_request.
  apply wizard_at_set_log.
  eapply wizard_at_eq;
    [apply wizard_at_mutate, wizard_at_mutate, Hw | reflexivity].
Qed.

Lemma show_calendar_sends (clk : clock) (chat_id : string) (user_id : Z)
    (text : message) :
  only_sends (_show_calendar_for_scheduling clk chat_id user_id text).
Proof.
  unfold _show_calendar_for_scheduling, send_message.
  repeat first
    [ apply only_sends_ret | apply only_sends_make_request | apply only_sends_lift
    | apply only_sends_bind; [|intros ?] ].
Qed.

Lemma show_time_picker_sends (clk : clock) (chat_id : string) (user_id : Z)
    (selected_date : date) (message_id : option Z) :
  only_sends
    (_show_time_picker_for_scheduling clk chat_id user_id selected_date
       message_id).
Proof.
  unfold _show_time_picker_for_scheduling, send_message, edit_message_text.
  cbv zeta.
  repeat first
    [ apply only_sends_ret | apply only_sends_make_request
    | apply only_sends_bind; [|intros ?] | apply only_sends_if ].
Qed.

(** A widget button reaches the [if]/[elif] chain whoever presses it. *)
Lemma widget_callback_dispatch (clk : clock) (b : bot)
    (query_id chat_id : string) (user_id message_id : Z) (c : callback) :
  is_widget_callback c = true ->
  process_callback_query clk
    (CallbackQuery query_id c chat_id user_id message_id) b
  = dispatch_callback clk query_id chat_id user_id message_id c
      (set_log b (log b ++ [answerCallbackQuery query_id None])).
Proof.
  intros Hw. unfold process_callback_query.
  cbn [cq_chat_id cq_data cq_id cq_from_id cq_message_id].
  rewrite bind_make_request.
  replace (is_delete_callback c) with false by (now destruct c).
  cbn [andb]. unfold is_user_authorized. rewrite bind_gets, Hw. reflexivity.
Qed.

(** Step 3, by the button: "skip_photo" moves on to the calendar. *)
Lemma wizard_skip_photo (clk : clock) (b0 b : bot) (query_id chat_id : string)
    (user_id message_id : Z) (st : state_name) (d : Draft.t) :
  wizard_at b0 b user_id (wizard_session st d) ->
  wizard_at b0
    (snd (process_callback_query clk
            (CallbackQuery query_id skip_photo chat_id user_id message_id) b))
    user_id (wizard_session waiting_for_schedule d).
Proof.
  intros Hw. rewrite widget_callback_dispatch by reflexivity.
  apply (wizard_at_set_log _ _ _ _
           (log b ++ [answerCallbackQuery query_id None])) in Hw.
  pose proof (wizard_at_lookup _ _ _ _ Hw) as Hu.
  unfold dispatch_callback, lookup_session. rewrite bind_gets, Hu.
  cbn [mbind option_bind post_data wizard_session].
  unfold mutate_session. rewrite bind_modify.
  apply wizard_at_only_sends; [apply show_calendar_sends|].
  eapply wizard_at_eq; [apply wizard_at_mutate, Hw | reflexivity].
Qed.

(** Step 3, by a message: a photo is recorded with its file name,
    ["photo.jpg"] when there is none. *)
Lemma wizard_photo (clk : clock) (b0 b : bot) (chat_id : string) (user_id : Z)
    (message_text : string) (photo : bytes) (photo_filename : option string)
    (d : Draft.t) :
  photo <> [] ->
  wizard_at b0 b user_id (wizard_session waiting_for_photo d) ->
  wizard_at b0
    (snd (process_message _handle_password_attempt process_command clk chat_id
            user_id message_text (Some photo) photo_filename b))
    user_id
    (wizard_session waiting_for_schedule
       (draft_set_photo photo
          (if truthy_str photo_filename then default photo_filename ""%string
           else "photo.jpg"%string) d)).
Proof.
  intros Hph Hw. pose proof (wizard_at_lookup _ _ _ _ Hw) as Hu.
  unfold process_message, lookup_session. rewrite bind_gets, Hu.
  cbn [state wizard_session].
  rewrite (bind_run _ _ _ _ _
             (handle_edit_message_idle chat_id user_id message_text
                (Some photo) photo_filename b _ Hu eq_refl)).
  cbn [post_data getitem wizard_session]. rewrite bind_ret.
  replace (truthy_bytes (Some photo)) with true
    by (destruct photo; [contradiction | reflexivity]).
  unfold mutate_session. rewrite !bind_modify.
  apply wizard_at_only_sends; [apply show_calendar_sends|].
  eapply wizard_at_eq;
    [apply wizard_at_mutate, wizard_at_mutate, Hw | reflexivity].
Qed.

(** Step 4: "cal_confirm_<y>_<m>_<d>" records the date as text. *)
Lemma wizard_date (clk : clock) (b0 b : bot) (query_id chat_id : string)
    (user_id message_id year month day : Z) (st : state_name) (d : Draft.t) :
  wizard_at b0 b user_id (wizard_session st d) ->
  wizard_at b0
    (snd (process_callback_query clk
            (CallbackQuery query_id (cal_confirm_ year month day) chat_id
               user_id message_id) b))
    user_id
    (wizard_session st
       (draft_set_selected_date (format_ymd year month day) d)).
Proof.
  intros Hw. rewrite widget_callback_dispatch by reflexivity.
  apply (wizard_at_set_log _ _ _ _
           (log b ++ [answerCallbackQuery query_id None])) in Hw.
  pose proof (wizard_at_lookup _ _ _ _ Hw) as Hu.
  unfold dispatch_callback, lookup_session. rewrite bind_gets, Hu.
  cbn [mbind option_bind post_data wizard_session].
  unfold mutate_session. rewrite bind_modify.
  apply wizard_at_only_sends.
  { apply only_sends_bind; [apply only_sends_lift|].
    intros sd. apply show_time_picker_sends. }
  eapply wizard_at_eq; [apply wizard_at_mutate, Hw | reflexivity].
Qed.

(** Step 5: a time that is not in the past is recorded with the date, in
    ISO format, and the recurrence step is next. *)
Lemma wizard_time (clk : clock) (b0 b : bot) (chat_id : string)
    (user_id message_id hour minute : Z) (st : state_name) (d : Draft.t)
    (s : string) (date_obj candidate : datetime) :
  wizard_at b0 b user_id (wizard_session st d) ->
  Draft.selected_date d = Some s ->
  s <> ""%string ->
  strptime_ymd s = Some date_obj ->
  replace_hour_minute date_obj hour minute = Ok candidate ->
  dt_lt candidate (now clk) = Ok false ->
  _handle_time_confirm clk chat_id user_id message_id hour minute b
  = (Ok tt,
     set_log
       (set_user_states b
          (alter (set_state waiting_for_recurring) user_id
             (alter (mutate_draft
                       (draft_set_scheduled_time (isoformat candidate)))
                user_id (user_states b))))
       (log b ++ [editMessageText chat_id message_id (M_step4 candidate)
                    (Some recurring_markup)]))
  /\ wizard_at b0
       (snd (_handle_time_confirm clk chat_id user_id message_id hour minute b))
       user_id
       (wizard_session waiting_for_recurring
          (draft_set_scheduled_time (isoformat candidate) d)).
Proof.
  intros Hw Hsel Hs Hparse Hrep Hlt.
  pose proof (wizard_at_lookup _ _ _ _ Hw) as Hu.
  assert (Hrun : _handle_time_confirm clk chat_id user_id message_id hour
                   minute b
                 = (Ok tt,
                    set_log
                      (set_user_states b
                         (alter (set_state waiting_for_recurring) user_id
                            (alter (mutate_draft
                                      (draft_set_scheduled_time
                                         (isoformat candidate)))
                               user_id (user_states b))))
                      (log b ++ [editMessageText chat_id message_id
                                   (M_step4 candidate)
                                   (Some recurring_markup)]))).
  { unfold _handle_time_confirm, lookup_session. rewrite bind_gets, Hu.
    cbn [post_data wizard_session]. rewrite Hsel.
    assert (Ht : truthy_str (Some s) = true)
      by (destruct s; [congruence|reflexivity]).
    rewrite Ht. cbn [negb default].
    unfold try_except, bind, lift. rewrite Hparse. cbn [or_raise].
    rewrite Hrep, Hlt. reflexivity. }
  split; [exact Hrun|]. rewrite Hrun. cbn [snd].
  apply wizard_at_set_log.
  exact (wizard_at_mutate b0
           (set_user_states b
              (alter (mutate_draft
                        (draft_set_scheduled_time (isoformat candidate)))
                 user_id (user_states b)))
           user_id _ (set_state waiting_for_recurring)
           (wizard_at_mutate b0 b user_id _
              (mutate_draft (draft_set_scheduled_time (isoformat candidate)))
              Hw)).
Qed.

(** Step 6: the commit of a draft that has text or a photo, and an
    instant. *)
Lemma wizard_commit (clk : clock) (b0 b : bot) (query_id chat_id : string)
    (user_id message_id : Z) (is_recurring : bool) (st : state_name)
    (d : Draft.t) (t : string) :
  wizard_at b0 b user_id (wizard_session st d) ->
  truthy_str (Draft.content d) = true
  \/ truthy_bytes (Draft.photo_data d) = true ->
  Draft.scheduled_time d = Some t ->
  let b' := snd (process_callback_query clk
                   (CallbackQuery query_id
                      (if is_recurring then recurring_yes else recurring_no)
                      chat_id user_id message_id) b) in
  posts b'
  = posts b0
    ++ [committed_row (rowid_max (posts b0) (sqlite_sequence b0) + 1) d t
          is_recurring (current_timestamp clk)]
  /\ user_states b' = delete user_id (user_states b0)
  /\ authorized_users b' = authorized_users b0.
Proof.
  intros Hw Hsome Ht. cbv zeta.
  rewrite widget_callback_dispatch by (now destruct is_recurring).
  apply (wizard_at_set_log _ _ _ _
           (log b ++ [answerCallbackQuery query_id None])) in Hw.
  pose proof (wizard_at_lookup _ _ _ _ Hw) as Hu.
  set (b1 := set_log b (log b ++ [answerCallbackQuery query_id None])) in *.
  assert (Hd : dispatch_callback clk query_id chat_id user_id message_id
                 (if is_recurring then recurring_yes else recurring_no) b1
               = finish_add_post clk chat_id user_id is_recurring b1)
    by (now destruct is_recurring).
  rewrite Hd. clear Hd.
  unfold finish_add_post, lookup_session. rewrite bind_gets, Hu.
  cbn [post_data getitem wizard_session]. rewrite bind_ret.
  replace (negb (truthy_str (Draft.content d))
           && negb (truthy_bytes (Draft.photo_data d))) with false
    by (destruct Hsome as [-> | ->]; [reflexivity | now rewrite andb_false_r]).
  unfold try_except, bind, getitem, add_post, del_session. rewrite Ht.
  unfold ret. cbn [user_states]. rewrite Hu.
  destruct Hw as (Hp & Hs & Ha & Hus).
  unfold lift, send_message, make_request.
  destruct (fromisoformat t) as [display_time|];
    cbn [or_raise fst snd posts user_states authorized_users set_log
           set_user_states];
    rewrite Hp, Hs, Hus, delete_insert_eq; repeat split; assumption.
Qed.

(** X16. The wizard stores what was entered.  An authorized user in a
    private chat presses "add_new", sends a text that is not "skip",
    skips the photo, confirms a date in the calendar and a time that is
    not in the past, and answers the recurrence question: the table gets
    one new row, unposted, with the text as content, no photo, the date
    and time in ISO format as the scheduled instant and the recurring
    flag as answered; the session is gone; nothing else in the store has
    changed. *)
Theorem wizard_creates_the_post (b : bot) (chat_id : string) (user_id : Z)
    (message_text : string) (year month day hour minute : Z)
    (is_recurring : bool) (q1 q3 q4 q5 q6 : string) (m1 m3 m4 m5 m6 : Z)
    (c1 c2 c3 c4 c5 c6 : clock) (date_obj candidate : datetime) :
  is_group chat_id = false ->
  user_id ∈ authorized_users b ->
  message_text <> ""%string ->
  says message_text "skip" = false ->
  strptime_ymd (format_ymd year month day) = Some date_obj ->
  replace_hour_minute date_obj hour minute = Ok candidate ->
  dt_lt candidate (now c5) = Ok false ->
  let b1 := after (process_callback_query c1
                     (CallbackQuery q1 add_new chat_id user_id m1)) b in
  let b2 := after (process_message _handle_password_attempt process_command c2
                     chat_id user_id message_text None None) b1 in
  let b3 := after (process_callback_query c3
                     (CallbackQuery q3 skip_photo chat_id user_id m3)) b2 in
  let b4 := after (process_callback_query c4
                     (CallbackQuery q4 (cal_confirm_ year month day) chat_id
                        user_id m4)) b3 in
  let b5 := after (process_callback_query c5
                     (CallbackQuery q5 (time_confirm_ hour minute) chat_id
                        user_id m5)) b4 in
  let b6 := after (process_callback_query c6
                     (CallbackQuery q6
                        (if is_recurring then recurring_yes else recurring_no)
                        chat_id user_id m6)) b5 in
  posts b6
  = posts b
    ++ [Post.mk (rowid_max (posts b) (sqlite_sequence b) + 1) message_text
          None None (Text (isoformat candidate)) is_recurring false
          (current_timestamp c6)]
  /\ user_states b6 = delete user_id (user_states b)
  /\ authorized_users b6 = authorized_users b
  /\ user_states b5 !! user_id
     = Some (wizard_session waiting_for_recurring
               (Draft.mk (Some message_text) None None
                  (Some (format_ymd year month day))
                  (Some (isoformat candidate)))).
Proof.
  intros Hg Hauth Htext Hskip Hparse Hrep Hlt. cbv zeta. unfold after.
  pose proof (wizard_start c1 b q1 chat_id user_id m1 Hg Hauth) as H1.
  set (b1 := snd (process_callback_query c1
                    (CallbackQuery q1 add_new chat_id user_id m1) b)) in *.
  pose proof (wizard_text c2 b b1 chat_id user_id message_text None None _ H1)
    as H2.
  rewrite Hskip in H2.
  set (b2 := snd (process_message _handle_password_attempt process_command c2
                    chat_id user_id message_text None None b1)) in *.
  pose proof (wizard_skip_photo c3 b b2 q3 chat_id user_id m3 _ _ H2) as H3.
  set (b3 := snd (process_callback_query c3
                    (CallbackQuery q3 skip_photo chat_id user_id m3) b2)) in *.
  pose proof (wizard_date c4 b b3 q4 chat_id user_id m4 year month day _ _ H3)
    as H4.
  set (b4 := snd (process_callback_query c4
                    (CallbackQuery q4 (cal_confirm_ year month day) chat_id
                       user_id m4) b3)) in *.
  assert (Hne : format_ymd year month day <> ""%string).
  { unfold format_ymd. destruct (pretty year); discriminate. }
  assert (H5 : wizard_at b
                 (snd (process_callback_query c5
                         (CallbackQuery q5 (time_confirm_ hour minute) chat_id
                            user_id m5) b4))
                 user_id
                 (wizard_session waiting_for_recurring
                    (Draft.mk (Some message_text) None None
                       (Some (format_ymd year month day))
                       (Some (isoformat candidate))))).
  { rewrite widget_callback_dispatch by reflexivity.
    apply (wizard_at_set_log _ _ _ _
             (log b4 ++ [answerCallbackQuery q5 None])) in H4.
    exact (proj2 (wizard_time c5 b _ chat_id user_id m5 hour minute _ _ _ _ _
                    H4 eq_refl Hne Hparse Hrep Hlt)). }
  set (b5 := snd (process_callback_query c5
                    (CallbackQuery q5 (time_confirm_ hour minute) chat_id
                       user_id m5) b4)) in *.
  destruct (wizard_commit c6 b b5 q6 chat_id user_id m6 is_recurring _ _
              (isoformat candidate) H5) as (Hposts & Hus & Ha).
  { left. cbn. destruct message_text; [contradiction | reflexivity]. }
  { reflexivity. }
  split; [exact Hposts|]. split; [exact Hus|]. split; [exact Ha|].
  now apply wizard_at_lookup in H5.
Qed.

End Wizard.

Lemma wizard_creates_the_post_witness :
  let b := managed_bot in
  let candidate := mkdatetime 2024 1 8 9 0 0 0 None in
  let b1 := after (process_callback_query (lib := AsciiLib.lib) sample_clock
                     (CallbackQuery "q1" add_new "42" 7 1)) b in
  let b2 := after (process_message (lib := AsciiLib.lib) no_password_attempt
                     no_command sample_clock "42" 7 "hello" None None) b1 in
  let b3 := after (process_callback_query (lib := AsciiLib.lib) sample_clock
                     (CallbackQuery "q3" skip_photo "42" 7 3)) b2 in
  let b4 := after (process_callback_query (lib := AsciiLib.lib) sample_clock
                     (CallbackQuery "q4" (cal_confirm_ 2024 1 8) "42" 7 4)) b3 in
  let b5 := after (process_callback_query (lib := AsciiLib.lib) sample_clock
                     (CallbackQuery "q5" (time_confirm_ 9 0) "42" 7 5)) b4 in
  let b6 := after (process_callback_query (lib := AsciiLib.lib) sample_clock
                     (CallbackQuery "q6"
                        (if true then recurring_yes else recurring_no)
                        "42" 7 6)) b5 in
  posts b6
  = posts b
    ++ [Post.mk (rowid_max (posts b) (sqlite_sequence b) + 1) "hello"
          None None (Text (AsciiLib.print_iso candidate)) true false
          (current_timestamp sample_clock)]
  /\ user_states b6 = delete 7 (user_states b)
  /\ authorized_users b6 = authorized_users b
  /\ user_states b5 !! 7
     = Some (wizard_session waiting_for_recurring
               (Draft.mk (Some "hello"%string) None None
                  (Some (format_ymd 2024 1 8))
                  (Some (AsciiLib.print_iso candidate)))).
Proof.
  apply (wizard_creates_the_post (lib := AsciiLib.lib) no_password_attempt
           no_command managed_bot "42" 7 "hello" 2024 1 8 9 0 true
           "q1" "q3" "q4" "q5" "q6" 1 3 4 5 6
           sample_clock sample_clock sample_clock sample_clock sample_clock
           sample_clock (mkdatetime 2024 1 8 0 0 0 0 None)
           (mkdatetime 2024 1 8 9 0 0 0 None));
    try (vm_compute; reflexivity).
  discriminate.
Defined.

(** The same run, evaluated: post 3 is stored for Monday 8 January 2024 at
    09:00. *)
Example wizard_sample_run :
  let b1 := after (process_callback_query (lib := AsciiLib.lib) sample_clock
                     (CallbackQuery "q1" add_new "42" 7 1)) managed_bot in
  let b2 := after (process_message (lib := AsciiLib.lib) no_password_attempt
                     no_command sample_clock "42" 7 "hello" None None) b1 in
  let b3 := after (process_callback_query (lib := AsciiLib.lib) sample_clock
                     (CallbackQuery "q3" skip_photo "42" 7 3)) b2 in
  let b4 := after (process_callback_query (lib := AsciiLib.lib) sample_clock
                     (CallbackQuery "q4" (cal_confirm_ 2024 1 8) "42" 7 4)) b3 in
  let b5 := after (process_callback_query (lib := AsciiLib.lib) sample_clock
                     (CallbackQuery "q5" (time_confirm_ 9 0) "42" 7 5)) b4 in
  let b6 := after (process_callback_query (lib := AsciiLib.lib) sample_clock
                     (CallbackQuery "q6" recurring_yes "42" 7 6)) b5 in
  posts b6
  = [one_time_post; recurring_post;
     Post.mk 3 "hello" None None (Text "2024-01-08T09:00:00") true false
       "2024-01-05 09:00:30"].
Proof. vm_compute; reflexivity. Qed.

(** ** An invariant of the sessions *)

Section Ready.

Context {lib : PyLib}.

Lemma keeps_ready_only_sends {A} (m : M A) : only_sends m -> keeps_ready m.
Proof. intros Hm b Hb. destruct (Hm b) as [l ->]. exact Hb. Qed.

Lemma keeps_ready_ret {A} (a : A) : keeps_ready (ret a).
Proof. intros b Hb. exact Hb. Qed.

Lemma keeps_ready_raise {A} (e : exn) : keeps_ready (@raise A e).
Proof. intros b Hb. exact Hb. Qed.

Lemma keeps_ready_lift {A} (r : res A) : keeps_ready (lift r).
Proof. intros b Hb. exact Hb. Qed.

Lemma keeps_ready_gets {A} (f : bot -> A) : keeps_ready (gets f).
Proof. intros b Hb. exact Hb. Qed.

Lemma keeps_ready_getitem {A} (o : option A) : keeps_ready (getitem o).
Proof. destruct o; intros b Hb; exact Hb. Qed.

Lemma keeps_ready_make_request (e : effect) : keeps_ready (make_request e).
Proof. intros b Hb. exact Hb. Qed.

Lemma keeps_ready_bind {A B} (m : M A) (k : A -> M B) :
  keeps_ready m -> (forall a, keeps_ready (k a)) -> keeps_ready (bind m k).
Proof.
  intros Hm Hk b Hb. unfold bind. specialize (Hm b Hb).
  destruct (m b) as [[a|e|] b1]; cbn [snd] in *; [now apply Hk | exact Hm..].
Qed.

Lemma keeps_ready_try_except {A} (m : M A) (h : exn -> M A) :
  keeps_ready m -> (forall e, keeps_ready (h e)) ->
  keeps_ready (try_except m h).
Proof.
  intros Hm Hh b Hb. unfold try_except. specialize (Hm b Hb).
  destruct (m b) as [[a|e|] b1]; cbn [snd] in *; [exact Hm | now apply Hh | exact Hm].
Qed.

Lemma keeps_ready_for_each {A} (l : list A) (body : A -> M unit) :
  (forall x, keeps_ready (body x)) -> keeps_ready (for_each l body).
Proof.
  intros Hb. induction l as [|x l IH]; cbn [for_each];
    [apply keeps_ready_ret|].
  apply keeps_ready_bind; [apply Hb | intros _; exact IH].
Qed.

(** The primitives that write sessions or the store. *)
Lemma keeps_ready_mutate (user_id : Z) (f : user_state -> user_state) :
  (forall u, recurrence_ready u -> recurrence_ready (f u)) ->
  keeps_ready (mutate_session user_id f).
Proof.
  intros Hf b Hb uid u. cbn [mutate_session modify snd user_states
                               set_user_states].
  rewrite lookup_alter. destruct (decide (user_id = uid)) as [->|Hne].
  - destruct (user_states b !! uid) as [u0|] eqn:E; cbn; [|discriminate].
    intros [= <-]. apply Hf. now apply (Hb uid).
  - apply Hb.
Qed.

Lemma keeps_ready_insert (user_id : Z) (u : user_state) :
  recurrence_ready u ->
  keeps_ready
    (modify (fun b => set_user_states b (<[user_id := u]> (user_states b)))).
Proof.
  intros Hu b Hb uid u'. cbn [modify snd user_states set_user_states].
  rewrite lookup_insert. destruct (decide (user_id = uid)) as [->|Hne].
  - intros [= <-]. exact Hu.
  - apply Hb.
Qed.

Lemma sessions_ready_delete (b : bot) (user_id : Z) :
  sessions_ready b ->
  sessions_ready (set_user_states b (delete user_id (user_states b))).
Proof.
  intros Hb uid u. cbn [user_states set_user_states].
  rewrite lookup_delete. destruct (decide (user_id = uid)); [discriminate|].
  apply Hb.
Qed.

Lemma keeps_ready_del_session (user_id : Z) :
  keeps_ready (del_session user_id).
Proof.
  intros b Hb. unfold del_session.
  destruct (user_states b !! user_id); cbn [snd];
    [now apply sessions_ready_delete | exact Hb].
Qed.

Lemma keeps_ready_discard_session (user_id : Z) :
  keeps_ready (discard_session user_id).
Proof. intros b Hb. now apply sessions_ready_delete. Qed.

Lemma keeps_ready_add_post (content : string) (photo_data : option bytes)
    (photo_filename : option string) (scheduled_time : string)
    (is_recurring : bool) (created : string) :
  keeps_ready
    (add_post content photo_data photo_filename scheduled_time is_recurring
       created).
Proof. intros b Hb. exact Hb. Qed.

Lemma keeps_ready_update_post (post_id : Z) (kw : Fields.t) :
  keeps_ready (update_post post_id kw).
Proof.
  intros b Hb. unfold update_post. destruct (Fields.is_empty kw); exact Hb.
Qed.

Lemma keeps_ready_delete_post (post_id : Z) : keeps_ready (delete_post post_id).
Proof.
  intros b Hb. unfold delete_post. destruct (sqlite_int post_id); exact Hb.
Qed.

Lemma keeps_ready_start_timer (chat_id : string) (user_id : Z) :
  keeps_ready (start_timer chat_id user_id).
Proof. intros b Hb. exact Hb. Qed.

(** What the handlers do to a session, but for the step to the recurrence
    question. *)
Lemma ready_set_state (st : state_name) (u : user_state) :
  st <> waiting_for_recurring -> recurrence_ready (set_state st u).
Proof. intros Hst H. cbn in H. congruence. Qed.

Lemma ready_mutate_draft (f : Draft.t -> Draft.t) (u : user_state) :
  (forall d t, Draft.scheduled_time d = Some t ->
     exists t', Draft.scheduled_time (f d) = Some t') ->
  recurrence_ready u -> recurrence_ready (mutate_draft f u).
Proof.
  intros Hf Hu Hst. cbn in Hst. destruct (Hu Hst) as (d & t & Hd & Ht).
  destruct (Hf d t Ht) as [t' Ht'].
  exists (f d), t'. cbn. rewrite Hd. split; [reflexivity | assumption].
Qed.

Lemma ready_set_selected_date (s : string) (u : user_state) :
  recurrence_ready u -> recurrence_ready (set_selected_date s u).
Proof. intros Hu Hst. exact (Hu Hst). Qed.

Lemma keeps_ready_send_message (chat_id : string) (text : message)
    (reply_markup : option keyboard) :
  keeps_ready (send_message chat_id text reply_markup).
Proof. apply keeps_ready_make_request. Qed.

Lemma keeps_ready_send_photo (chat_id : string) (photo : bytes)
    (caption : message) (filename : option string) :
  keeps_ready (send_photo chat_id photo caption filename).
Proof. apply keeps_ready_make_request. Qed.

Lemma keeps_ready_edit_message_text (chat_id : string) (message_id : Z)
    (text : message) (reply_markup : option keyboard) :
  keeps_ready (edit_message_text chat_id message_id text reply_markup).
Proof. apply keeps_ready_make_request. Qed.

Lemma keeps_ready_lookup_session (user_id : Z) :
  keeps_ready (lookup_session user_id).
Proof. apply keeps_ready_gets. Qed.

Lemma keeps_ready_is_user_authorized (user_id : Z) :
  keeps_ready (is_user_authorized user_id).
Proof. apply keeps_ready_gets. Qed.

Lemma keeps_ready_show_posts_list (chat_id : string) (user_id : Z) :
  keeps_ready (show_posts_list chat_id user_id).
Proof. apply keeps_ready_only_sends, show_posts_list_sends. Qed.

Lemma keeps_ready_show_calendar (clk : clock) (chat_id : string) (user_id : Z)
    (text : message) :
  keeps_ready (_show_calendar_for_scheduling clk chat_id user_id text).
Proof. apply keeps_ready_only_sends, show_calendar_sends. Qed.

Lemma keeps_ready_show_time_picker (clk : clock) (chat_id : string)
    (user_id : Z) (selected_date : date) (message_id : option Z) :
  keeps_ready
    (_show_time_picker_for_scheduling clk chat_id user_id selected_date
       message_id).
Proof. apply keeps_ready_only_sends, show_time_picker_sends. Qed.

Lemma keeps_ready_set_state (user_id : Z) (st : state_name) :
  st <> waiting_for_recurring ->
  keeps_ready (mutate_session user_id (set_state st)).
Proof.
  intros Hst. apply keeps_ready_mutate. intros u _. now apply ready_set_state.
Qed.

Lemma keeps_ready_set_content (user_id : Z) (c : string) :
  keeps_ready (mutate_session user_id (mutate_draft (draft_set_content c))).
Proof.
  apply keeps_ready_mutate. intros u. apply ready_mutate_draft.
  intros d t Ht. exists t. exact Ht.
Qed.

Lemma keeps_ready_set_photo (user_id : Z) (ph : bytes) (fn : string) :
  keeps_ready (mutate_session user_id (mutate_draft (draft_set_photo ph fn))).
Proof.
  apply keeps_ready_mutate. intros u. apply ready_mutate_draft.
  intros d t Ht. exists t. exact Ht.
Qed.

Lemma keeps_ready_set_draft_date (user_id : Z) (s : string) :
  keeps_ready
    (mutate_session user_id (mutate_draft (draft_set_selected_date s))).
Proof.
  apply keeps_ready_mutate. intros u. apply ready_mutate_draft.
  intros d t Ht. exists t. exact Ht.
Qed.

Lemma keeps_ready_set_selected_date (user_id : Z) (s : string) :
  keeps_ready (mutate_session user_id (set_selected_date s)).
Proof. apply keeps_ready_mutate. intros u. apply ready_set_selected_date. Qed.

#[local] Hint Resolve keeps_ready_ret keeps_ready_raise keeps_ready_lift
  keeps_ready_gets keeps_ready_getitem keeps_ready_make_request
  keeps_ready_bind keeps_ready_try_except keeps_ready_for_each
  keeps_ready_del_session keeps_ready_discard_session keeps_ready_add_post
  keeps_ready_update_post keeps_ready_delete_post keeps_ready_start_timer
  keeps_ready_send_message keeps_ready_send_photo
  keeps_ready_edit_message_text keeps_ready_lookup_session
  keeps_ready_is_user_authorized keeps_ready_show_posts_list
  keeps_ready_show_calendar keeps_ready_show_time_picker
  keeps_ready_set_content keeps_ready_set_photo keeps_ready_set_draft_date
  keeps_ready_set_selected_date : ready.

#[local] Hint Extern 1 (keeps_ready (mutate_session _ (set_state _))) =>
  apply keeps_ready_set_state; discriminate : ready.

#[local] Hint Extern 3 (keeps_ready (match ?x with _ => _ end)) =>
  destruct x : ready.

Lemma keeps_ready_handle_unauthorized_user (chat_id : string) (user_id : Z) :
  keeps_ready (_handle_unauthorized_user chat_id user_id).
Proof.
  unfold _handle_unauthorized_user.
  destruct (negb (is_group chat_id)); [|apply keeps_ready_ret].
  apply keeps_ready_bind; [|auto with ready].
  apply keeps_ready_insert. intros H. discriminate H.
Qed.

Lemma keeps_ready_start_add_post_flow (chat_id : string) (user_id : Z) :
  keeps_ready (start_add_post_flow chat_id user_id).
Proof.
  unfold start_add_post_flow.
  destruct (is_group chat_id); [apply keeps_ready_ret|].
  apply keeps_ready_bind; [|auto with ready].
  apply keeps_ready_insert. intros H. discriminate H.
Qed.

Lemma keeps_ready_posts_with_id (post_id : Z) :
  keeps_ready (posts_with_id post_id).
Proof. unfold posts_with_id, get_posts. auto with ready. Qed.

Lemma keeps_ready_handle_delete_post (chat_id : string)
    (user_id message_id post_id : Z) :
  keeps_ready (handle_delete_post chat_id user_id message_id post_id).
Proof.
  unfold handle_delete_post.
  apply keeps_ready_bind; [apply keeps_ready_posts_with_id|].
  intros ps. auto 10 with ready.
Qed.

Lemma keeps_ready_finish_add_post (clk : clock) (chat_id : string)
    (user_id : Z) (is_recurring : bool) :
  keeps_ready (finish_add_post clk chat_id user_id is_recurring).
Proof. unfold finish_add_post. auto 20 with ready. Qed.

(** The two handlers that enter the recurrence step write the instant
    first, on a session that holds a draft. *)
Lemma try_except_ready {A} (m : M A) (h : exn -> M A) (b : bot) :
  sessions_ready (snd (m b)) ->
  (forall e, keeps_ready (h e)) ->
  sessions_ready (snd (try_except m h b)).
Proof.
  intros Hm Hh. unfold try_except.
  destruct (m b) as [[a|e|] b']; cbn [snd] in *; auto.
  now apply Hh.
Qed.

Lemma bind_lift_ready {A B} (r : res A) (k : A -> M B) (b : bot) :
  sessions_ready b ->
  (forall a, r = Ok a -> sessions_ready (snd (k a b))) ->
  sessions_ready (snd (bind (lift r) k b)).
Proof.
  intros Hb Hk. unfold bind, lift. destruct r as [a|e|]; cbn [snd]; auto.
Qed.

Lemma schedule_ready (user_id : Z) (t : string) (k : M unit) (b : bot)
    (u : user_state) (d : Draft.t) :
  sessions_ready b ->
  user_states b !! user_id = Some u ->
  post_data u = Some d ->
  keeps_ready k ->
  sessions_ready
    (snd ((mutate_session user_id (mutate_draft (draft_set_scheduled_time t)) ;;
           mutate_session user_id (set_state waiting_for_recurring) ;;
           k) b)).
Proof.
  intros Hb Hu Hd Hk. unfold mutate_session. rewrite !bind_modify.
  apply Hk. intros uid u'. cbn [user_states set_user_states].
  destruct (decide (user_id = uid)) as [->|Hne].
  - rewrite !lookup_alter_eq, Hu. cbn [fmap option_fmap option_map].
    intros E _. injection E as E. subst u'.
    exists (draft_set_scheduled_time t d), t.
    cbn [post_data set_state mutate_draft]. rewrite Hd. split; reflexivity.
  - rewrite !lookup_alter_ne by exact Hne. apply Hb.
Qed.

Lemma keeps_ready_handle_edit_time_confirm_now (clk : clock)
    (chat_id : string) (user_id message_id : Z) :
  keeps_ready (_handle_edit_time_confirm_now clk chat_id user_id message_id).
Proof. unfold _handle_edit_time_confirm_now. auto 20 with ready. Qed.

Lemma keeps_ready_handle_edit_time_confirm (clk : clock) (chat_id : string)
    (user_id message_id hour minute : Z) :
  keeps_ready
    (_handle_edit_time_confirm clk chat_id user_id message_id hour minute).
Proof. unfold _handle_edit_time_confirm. auto 30 with ready. Qed.

Lemma keeps_ready_handle_calendar_edit_confirm (chat_id : string)
    (user_id message_id year month day : Z) :
  keeps_ready
    (_handle_calendar_edit_confirm chat_id user_id message_id year month day).
Proof.
  unfold _handle_calendar_edit_confirm.
  apply keeps_ready_bind; [auto with ready|]. intros [u|]; [|auto with ready].
  destruct u as [[] pd pid mid sel]; try apply keeps_ready_ret.
  apply keeps_ready_bind; [auto with ready|]. intros _.
  apply keeps_ready_bind; [auto with ready|]. intros selected_date.
  apply keeps_ready_bind; [auto with ready|]. intros post_id.
  apply keeps_ready_bind; [apply keeps_ready_posts_with_id|]. intros ps.
  match goal with
  | |- keeps_ready (let '(_, _) := ?x in _) => destruct x
  end.
  auto with ready.
Qed.

Lemma keeps_ready_handle_time_confirm_now (clk : clock) (chat_id : string)
    (user_id message_id : Z) :
  keeps_ready (_handle_time_confirm_now clk chat_id user_id message_id).
Proof.
  intros b Hb. unfold _handle_time_confirm_now, lookup_session.
  rewrite bind_gets. destruct (user_states b !! user_id) as [u|] eqn:Hu;
    [|exact Hb].
  destruct (post_data u) as [d|] eqn:Hd.
  - cbv zeta. apply (schedule_ready _ _ _ _ u d); auto with ready.
  - now apply keeps_ready_handle_edit_time_confirm_now.
Qed.

Lemma keeps_ready_handle_time_confirm (clk : clock) (chat_id : string)
    (user_id message_id hour minute : Z) :
  keeps_ready (_handle_time_confirm clk chat_id user_id message_id hour minute).
Proof.
  intros b Hb. unfold _handle_time_confirm, lookup_session.
  rewrite bind_gets. destruct (user_states b !! user_id) as [u|] eqn:Hu;
    [|exact Hb].
  destruct (post_data u) as [d|] eqn:Hd.
  - cbv zeta. destruct (negb (truthy_str (Draft.selected_date d))).
    + assert (H : keeps_ready
        (edit_message_text chat_id message_id M_no_date_selected None ;; pass))
        by auto with ready.
      exact (H b Hb).
    + apply try_except_ready; [|auto with ready].
      apply bind_lift_ready; [exact Hb|]. intros date_obj _.
      apply bind_lift_ready; [exact Hb|]. intros scheduled_datetime _.
      apply bind_lift_ready; [exact Hb|]. intros [|] _.
      * assert (H : keeps_ready
          (edit_message_text chat_id message_id M_past_time None ;; pass))
          by auto with ready.
        exact (H b Hb).
      * apply (schedule_ready _ _ _ _ u d); auto with ready.
  - now apply keeps_ready_handle_edit_time_confirm.
Qed.

#[local] Hint Resolve keeps_ready_handle_unauthorized_user
  keeps_ready_start_add_post_flow keeps_ready_handle_delete_post
  keeps_ready_finish_add_post keeps_ready_handle_calendar_edit_confirm
  keeps_ready_handle_time_confirm_now keeps_ready_handle_time_confirm : ready.

Lemma keeps_ready_dispatch_callback (clk : clock) (query_id chat_id : string)
    (user_id message_id : Z) (callback_data : callback) :
  keeps_ready
    (dispatch_callback clk query_id chat_id user_id message_id callback_data).
Proof.
  unfold dispatch_callback. destruct callback_data; auto 20 with ready.
Qed.

Lemma keeps_ready_handle_edit_message (chat_id : string) (user_id : Z)
    (message_text : string) (photo_data : option bytes)
    (photo_filename : option string) :
  keeps_ready
    (_handle_edit_message chat_id user_id message_text photo_data
       photo_filename).
Proof.
  unfold _handle_edit_message.
  apply keeps_ready_bind; [auto with ready|]. intros [u|]; [|auto with ready].
  destruct (negb (is_editing (state u))); [auto with ready|].
  apply keeps_ready_bind; [auto with ready|]. intros post_id. cbv zeta.
  destruct (state u); destruct (says message_text "delete");
    auto 20 with ready.
Qed.

Section Messages.

Variable _handle_password_attempt : string -> Z -> string -> M unit.
Variable process_command : string -> Z -> string -> M unit.
Variable clk : clock.

Hypothesis password_attempt_ready :
  forall chat_id user_id text,
    keeps_ready (_handle_password_attempt chat_id user_id text).
Hypothesis process_command_ready :
  forall chat_id user_id text,
    keeps_ready (process_command chat_id user_id text).

Lemma keeps_ready_process_message (chat_id : string) (user_id : Z)
    (message_text : string) (photo_data : option bytes)
    (photo_filename : option string) :
  keeps_ready
    (process_message _handle_password_attempt process_command clk chat_id
       user_id message_text photo_data photo_filename).
Proof.
  unfold process_message.
  apply keeps_ready_bind; [auto with ready|]. intros user_state.
  match goal with |- keeps_ready (if ?c then _ else _) => destruct c end;
    [apply password_attempt_ready|].
  apply keeps_ready_bind; [apply keeps_ready_handle_edit_message|].
  intros [|]; [auto with ready|].
  destruct user_state as [u|].
  - cbv zeta. apply keeps_ready_bind; [auto with ready|]. intros d.
    destruct (state u); auto 20 with ready.
  - destruct (String.prefix "/" message_text);
      [apply process_command_ready|auto 20 with ready].
Qed.

End Messages.

(** X17. No button press brings a session to the recurrence step without
    a scheduled instant: if every session that waits for the recurrence
    answer holds a draft with its instant before [process_callback_query]
    handles a query, whatever the button, the user and the chat, the same
    holds afterwards. *)
Theorem callback_keeps_sessions_ready (clk : clock) (q : callback_query)
    (b : bot) :
  sessions_ready b ->
  sessions_ready (after (process_callback_query clk q) b).
Proof.
  revert b. change (keeps_ready (process_callback_query clk q)).
  unfold process_callback_query. cbv zeta.
  apply keeps_ready_bind; [auto with ready|]. intros _.
  destruct (is_delete_callback (cq_data q) && is_group (cq_chat_id q));
    [auto with ready|].
  apply keeps_ready_bind; [auto with ready|]. intros authorized.
  destruct (negb (is_widget_callback (cq_data q)) && negb authorized).
  - destruct (is_group (cq_chat_id q)); auto with ready.
  - apply keeps_ready_dispatch_callback.
Qed.

(** X18. No message that [process_message] handles itself does either:
    for a message from a user whose session is not the password prompt,
    or from a user without a session when it is not a command, the
    sessions of the recurrence step hold their instant afterwards as
    before, whatever the text, the photo, the user and the chat, and
    whatever the password check and the command table are. *)
Theorem message_keeps_sessions_ready
    (_handle_password_attempt process_command : string -> Z -> string -> M unit)
    (clk : clock) (chat_id : string) (user_id : Z) (message_text : string)
    (photo_data : option bytes) (photo_filename : option string) (b : bot) :
  handled_message b user_id message_text ->
  sessions_ready b ->
  sessions_ready
    (after (process_message _handle_password_attempt process_command clk
              chat_id user_id message_text photo_data photo_filename) b).
Proof.
  intros Hh Hb.
  assert (E : process_message _handle_password_attempt process_command clk
                chat_id user_id message_text photo_data photo_filename b
              = process_message no_password_attempt no_command clk
                  chat_id user_id message_text photo_data photo_filename b).
  { unfold handled_message in Hh. unfold process_message, lookup_session.
    rewrite !bind_gets.
    destruct (user_states b !! user_id) as [u|].
    - destruct (state u); try reflexivity. contradiction.
    - destruct (String.prefix "/" message_text); [discriminate Hh|].
      reflexivity. }
  unfold after. rewrite E.
  apply (keeps_ready_process_message no_password_attempt no_command clk);
    [intros c i t b' Hb'; exact Hb' | intros c i t b' Hb'; exact Hb'
    | exact Hb].
Qed.

End Ready.

Lemma wizard_bot_ready (u : user_state) :
  recurrence_ready u -> sessions_ready (wizard_bot u).
Proof.
  intros Hu uid u' H. cbn [wizard_bot user_states] in H.
  apply lookup_singleton_Some in H as [_ <-]. exact Hu.
Qed.

Lemma callback_keeps_sessions_ready_witness :
  sessions_ready
    (after (process_callback_query (lib := AsciiLib.lib) sample_clock
              (CallbackQuery "q" (time_confirm_ 10 0) "42" 7 5))
       (wizard_bot picking_time)).
Proof.
  apply (callback_keeps_sessions_ready (lib := AsciiLib.lib) sample_clock
           (CallbackQuery "q" (time_confirm_ 10 0) "42" 7 5)
           (wizard_bot picking_time)).
  apply wizard_bot_ready. intros H. discriminate H.
Defined.

(** The press of that witness, evaluated: the session moves to the
    recurrence step with the instant 2024-01-05T10:00:00 in its draft. *)
Example time_confirm_sample :
  user_states
    (after (process_callback_query (lib := AsciiLib.lib) sample_clock
              (CallbackQuery "q" (time_confirm_ 10 0) "42" 7 5))
       (wizard_bot picking_time)) !! 7
  = Some (wizard_session waiting_for_recurring
            (Draft.mk (Some "hello"%string) None None
               (Some "2024-01-05"%string)
               (Some "2024-01-05T10:00:00"%string))).
Proof. vm_compute. reflexivity. Qed.

Lemma two_wizards_ready : sessions_ready two_wizards_bot.
Proof.
  intros uid u H. cbn [two_wizards_bot user_states] in H.
  apply lookup_insert_Some in H as [[_ <-]|[_ H]].
  - intros _. eexists _, _. split; reflexivity.
  - apply lookup_singleton_Some in H as [_ <-]. intros H. discriminate H.
Qed.

Lemma message_keeps_sessions_ready_witness :
  sessions_ready
    (after (process_message (lib := AsciiLib.lib) no_password_attempt
              no_command sample_clock "42" 8 "hello" None None)
       two_wizards_bot).
Proof.
  apply (message_keeps_sessions_ready (lib := AsciiLib.lib)
           no_password_attempt no_command sample_clock "42" 8 "hello" None
           None two_wizards_bot).
  - vm_compute. discriminate.
  - exact two_wizards_ready.
Defined.

(** That message and the answer of the other user, evaluated: user 8
    moves to the photo step while user 7 still waits for the recurrence
    answer with the instant; the answer "yes" of user 7 then stores the
    post for that instant and ends the session. *)
Example two_wizards_sample :
  let b1 := after (process_message (lib := AsciiLib.lib) no_password_attempt
                     no_command sample_clock "42" 8 "hello" None None)
              two_wizards_bot in
  let b2 := after (process_message (lib := AsciiLib.lib) no_password_attempt
                     no_command sample_clock "42" 7 "yes" None None) b1 in
  user_states b1 !! 7 = Some answering
  /\ (state <$> user_states b1 !! 8) = Some waiting_for_photo
  /\ user_states b2 !! 7 = None
  /\ map Post.scheduled_time (posts b2) = [Text "2024-01-08T09:00:00"]
  /\ map Post.is_recurring (posts b2) = [true].
Proof. repeat split; vm_compute; reflexivity. Qed.


(** ** The month grid of the calendar *)

Section CalendarGrid.

Lemma weeks_of_concat (fuel : nat) (days : list Z) :
  (length days <= fuel)%nat -> concat (PyCalendar.weeks_of fuel days) = days.
Proof.
  revert days. induction fuel as [|fuel IH]; intros days Hl.
  - destruct days; [reflexivity | cbn in Hl; lia].
  - cbn [PyCalendar.weeks_of]. destruct days as [|d0 days']; [reflexivity|].
    cbn [concat]. rewrite IH; [apply take_drop|].
    rewrite length_drop. cbn [length] in *. lia.
Qed.

Lemma weeks_of_rows (fuel : nat) (days : list Z) (n : nat) :
  length days = (7 * n)%nat ->
  Forall (fun week => length week = 7%nat) (PyCalendar.weeks_of fuel days).
Proof.
  revert days n. induction fuel as [|fuel IH]; intros days n Hl;
    [constructor|].
  cbn [PyCalendar.weeks_of]. destruct days as [|d0 days']; [constructor|].
  destruct n as [|n]; [cbn in Hl; lia|]. constructor.
  - rewrite length_take. lia.
  - apply (IH _ n). rewrite length_drop. lia.
Qed.

(** In a grid of rows of seven, the cell at position [i] in reading order
    is in row [i / 7], column [i mod 7]. *)
Lemma rows_of_seven_lookup {A} (rows : list (list A)) (i : nat) (x : A) :
  Forall (fun row => length row = 7%nat) rows ->
  concat rows !! i = Some x ->
  exists row, rows !! (i / 7)%nat = Some row /\ row !! (i mod 7)%nat = Some x.
Proof.
  intros HF. revert i. induction HF as [|row rows Hrow HF IH]; intros i Hi;
    [discriminate|].
  cbn [concat] in Hi. destruct (decide (i < 7)%nat) as [Hlt|Hge].
  - rewrite lookup_app_l in Hi by lia.
    exists row. rewrite Nat.div_small, Nat.mod_small by exact Hlt.
    split; [reflexivity | exact Hi].
  - rewrite lookup_app_r in Hi by lia. rewrite Hrow in Hi.
    destruct (IH _ Hi) as (row' & Hr & Hc). exists row'.
    replace i with ((i - 7) + 1 * 7)%nat at 1 2 by lia.
    rewrite Nat.div_add, Nat.Div0.mod_add by lia.
    replace ((i - 7) / 7 + 1)%nat with (S ((i - 7) / 7)) by lia.
    split; [exact Hr | exact Hc].
Qed.

(** The month grid, spelled out: the days of the month in order, after as
    many padding entries as the weekday of the first, in whole weeks. *)
Lemma monthcalendar_grid (year month : Z) :
  MINYEAR <= year <= MAXYEAR -> 1 <= month <= 12 ->
  let first := date_weekday (mkdate year month 1) in
  exists (k : nat) (cal : list (list Z)),
    PyCalendar.monthcalendar year month = Ok cal
    /\ (k < 7)%nat
    /\ Forall (fun week => length week = 7%nat) cal
    /\ concat cal
       = replicate (Z.to_nat first) 0
         ++ seqZ 1 (_days_in_month year month) ++ replicate k 0.
Proof.
  intros Hy Hm first.
  pose proof (days_in_month_ge_28 year month Hm) as H28.
  assert (Hf : 0 <= first < 7) by (apply Z.mod_pos_bound; lia).
  unfold PyCalendar.monthcalendar, PyCalendar.itermonthdays,
    PyCalendar.monthrange, PyCalendar.weekday.
  replace ((1 <=? month) && (month <=? 12)) with true
    by (symmetry; apply andb_true_intro; split; apply Z.leb_le; lia).
  replace ((MINYEAR <=? year) && (year <=? MAXYEAR)) with true
    by (symmetry; apply andb_true_intro; split; apply Z.leb_le; lia).
  rewrite date_new_checked.
  2:{ unfold check_date_fields.
      repeat (apply andb_true_intro; split); apply Z.leb_le; lia. }
  cbn [res_bind]. rewrite mdays_days_in_month. fold first.
  rewrite (Z.mod_small first 7) by exact Hf.
  set (nd := _days_in_month year month) in *.
  set (after := (0 - first - nd) mod 7).
  assert (Ha : 0 <= after < 7) by (apply Z.mod_pos_bound; lia).
  set (days := replicate (Z.to_nat first) 0 ++ seqZ 1 nd
               ++ replicate (Z.to_nat after) 0).
  assert (Hlen : length days
                 = (7 * Z.to_nat ((first + nd + after) / 7))%nat).
  { unfold days. rewrite !length_app, !length_replicate, length_seqZ.
    assert (E : first + nd + after = 7 * ((first + nd + after) / 7)).
    { apply Z.div_exact; [lia|]. unfold after.
      rewrite <- Zplus_mod_idemp_r, Zmod_mod, Zplus_mod_idemp_r.
      replace (first + nd + (0 - first - nd)) with 0 by lia. reflexivity. }
    assert (0 <= (first + nd + after) / 7) by (apply Z.div_pos; lia).
    lia. }
  exists (Z.to_nat after), (PyCalendar.weeks_of (length days) days).
  split; [reflexivity|]. split; [lia|]. split.
  - exact (weeks_of_rows _ _ _ Hlen).
  - apply weeks_of_concat. apply Nat.le_refl.
Qed.

(** The weekday of a day of the month, from the weekday of the first. *)
Lemma weekday_in_month (year month day : Z) :
  (date_weekday (mkdate year month 1) + day - 1) mod 7
  = date_weekday (mkdate year month day).
Proof.
  unfold date_weekday, date_toordinal, _ymd2ord. cbn [d_year d_month d_day].
  replace (_ + day - 1) with
    ((_days_before_year year + _days_before_month year month + 1 + 6) mod 7
     + (day - 1)) by lia.
  rewrite Zplus_mod_idemp_l. f_equal. lia.
Qed.

Lemma map_replicate {A B} (f : A -> B) (n : nat) (x : A) :
  map f (replicate n x) = replicate n (f x).
Proof.
  induction n as [|n IH]; [reflexivity|]. cbn [replicate map].
  now rewrite IH.
Qed.

Lemma rows_of_seven_length {A} (rows : list (list A)) :
  Forall (fun row => length row = 7%nat) rows ->
  length (concat rows) = (7 * length rows)%nat.
Proof.
  induction 1 as [|row rows Hrow HF IH]; [reflexivity|].
  cbn [concat length]. rewrite length_app, Hrow, IH. lia.
Qed.

Lemma generate_calendar_cells (today : date) (year month : Z)
    (selected_day : option Z) (cal : list (list Z)) :
  MINYEAR <= year <= MAXYEAR -> 1 <= month <= 12 ->
  PyCalendar.monthcalendar year month = Ok cal ->
  exists nav,
    generate_calendar today year month selected_day
    = Ok ([nav; weekday_row]
          ++ map (map (grid_cell today year month selected_day)) cal
          ++ [control_row year month selected_day]).
Proof.
  intros Hy Hm Hcal.
  destruct (monthcalendar_days year month Hy Hm) as (cal' & Hcal' & Hdays).
  rewrite Hcal in Hcal'. injection Hcal' as <-.
  eexists. unfold generate_calendar. cbv zeta. unfold month_names_index.
  replace ((-12 <=? month - 1) && (month - 1 <=? 11)) with true
    by (symmetry; apply andb_true_intro; split; apply Z.leb_le; lia).
  cbn [res_bind]. rewrite Hcal. cbn [res_bind].
  rewrite (res_map_total _ (map (grid_cell today year month selected_day))).
  - cbn [res_bind]. reflexivity.
  - intros week Hw. apply res_map_total. intros day Hd.
    apply day_cell_total; eauto.
Qed.

(** X19. The calendar of a month of a representable year shows four to six
    week rows of seven cells each.  Read row by row, the cells are blanks
    up to the weekday of the first, then the cells of the days 1 to the
    last in order, then fewer than seven blanks; so each day appears once,
    and it stands in the column of its weekday (Monday first, as in the
    header row). *)
Theorem calendar_grid (today : date) (year month : Z)
    (selected_day : option Z) :
  MINYEAR <= year <= MAXYEAR -> 1 <= month <= 12 ->
  exists nav weeks (k : nat),
    generate_calendar today year month selected_day
    = Ok ([nav; weekday_row] ++ weeks
          ++ [control_row year month selected_day])
    /\ Forall (fun row => length row = 7%nat) weeks
    /\ (4 <= length weeks <= 6)%nat
    /\ (k < 7)%nat
    /\ concat weeks
       = replicate (Z.to_nat (date_weekday (mkdate year month 1)))
           (Button L_blank cal_ignore)
         ++ map (grid_cell today year month selected_day)
              (seqZ 1 (_days_in_month year month))
         ++ replicate k (Button L_blank cal_ignore)
    /\ forall day, 1 <= day <= _days_in_month year month ->
         exists r row,
           weeks !! r = Some row
           /\ row !! Z.to_nat (date_weekday (mkdate year month day))
              = Some (grid_cell today year month selected_day day).
Proof.
  intros Hy Hm.
  destruct (monthcalendar_grid year month Hy Hm) as (k & cal & Hcal & Hk & Hrows & Hcat).
  destruct (generate_calendar_cells today year month selected_day cal Hy Hm Hcal)
    as (nav & Hgen).
  pose proof (days_in_month_ge_28 year month Hm) as H28.
  pose proof (days_in_month_le_31 year month) as H31.
  set (first := date_weekday (mkdate year month 1)) in *.
  assert (Hf : 0 <= first < 7) by (apply Z.mod_pos_bound; lia).
  set (cell := grid_cell today year month selected_day) in *.
  assert (Hrows' : Forall (fun row => length row = 7%nat) (map (map cell) cal)).
  { apply Forall_map. eapply Forall_impl; [exact Hrows|].
    intros week Hw. cbn. now rewrite length_map. }
  assert (Hcat' : concat (map (map cell) cal)
                  = replicate (Z.to_nat first) (Button L_blank cal_ignore)
                    ++ map cell (seqZ 1 (_days_in_month year month))
                    ++ replicate k (Button L_blank cal_ignore)).
  { rewrite <- concat_map, Hcat, !map_app, !map_replicate. reflexivity. }
  exists nav, (map (map cell) cal), k.
  split; [exact Hgen|]. split; [exact Hrows'|]. split.
  { pose proof (rows_of_seven_length _ Hrows') as Hl. rewrite Hcat' in Hl.
    rewrite !length_app, !length_replicate, length_map, length_seqZ in Hl.
    lia. }
  split; [exact Hk|]. split; [exact Hcat'|].
  intros day Hd.
  set (i := (Z.to_nat first + Z.to_nat (day - 1))%nat).
  assert (Hi : concat (map (map cell) cal) !! i = Some (cell day)).
  { rewrite Hcat'. rewrite lookup_app_r by (rewrite length_replicate; lia).
    rewrite length_replicate.
    replace (i - Z.to_nat first)%nat with (Z.to_nat (day - 1)) by lia.
    rewrite lookup_app_l by (rewrite length_map, length_seqZ; lia).
    rewrite list_lookup_fmap, lookup_seqZ_lt by lia. cbn. f_equal. f_equal.
    lia. }
  destruct (rows_of_seven_lookup _ _ _ Hrows' Hi) as (row & Hr & Hc).
  exists (i / 7)%nat, row. split; [exact Hr|].
  rewrite <- weekday_in_month. fold first.
  replace (Z.to_nat ((first + day - 1) mod 7)) with (i mod 7)%nat; [exact Hc|].
  unfold i. rewrite Z2Nat.inj_mod by lia. f_equal. lia.
Qed.

End CalendarGrid.

Lemma calendar_grid_witness :
  exists nav weeks (k : nat),
    generate_calendar (mkdate 2024 1 10) 2024 2 (Some 15)
    = Ok ([nav; weekday_row] ++ weeks ++ [control_row 2024 2 (Some 15)])
    /\ Forall (fun row => length row = 7%nat) weeks
    /\ (4 <= length weeks <= 6)%nat
    /\ (k < 7)%nat
    /\ concat weeks
       = replicate (Z.to_nat (date_weekday (mkdate 2024 2 1)))
           (Button L_blank cal_ignore)
         ++ map (grid_cell (mkdate 2024 1 10) 2024 2 (Some 15))
              (seqZ 1 (_days_in_month 2024 2))
         ++ replicate k (Button L_blank cal_ignore)
    /\ forall day, 1 <= day <= _days_in_month 2024 2 ->
         exists r row,
           weeks !! r = Some row
           /\ row !! Z.to_nat (date_weekday (mkdate 2024 2 day))
              = Some (grid_cell (mkdate 2024 1 10) 2024 2 (Some 15) day).
Proof.
  apply (calendar_grid (mkdate 2024 1 10) 2024 2
           (Some 15)); unfold MINYEAR, MAXYEAR; lia.
Defined.


(** ** Calendar navigation *)

Section CalendarNavigation.

Context {lib : PyLib}.
Variable clk : clock.

Lemma res_map_raises {A B} (f : A -> res B) (z x : A) (c : B) (e : exn)
    (n : nat) (l : list A) :
  f z = Ok c -> f x = Raise e ->
  res_map f (replicate n z ++ x :: l) = Raise e.
Proof.
  intros Hz Hx. induction n as [|n IH]; cbn [replicate app res_map].
  - now rewrite Hx.
  - rewrite Hz. cbn [res_bind]. now rewrite IH.
Qed.

Lemma weeks_of_first (days : list Z) :
  days <> [] ->
  PyCalendar.weeks_of (length days) days
  = take 7 days :: PyCalendar.weeks_of (length days - 1) (drop 7 days).
Proof.
  destruct days as [|d0 days']; [contradiction|]. intros _.
  cbn [length PyCalendar.weeks_of]. f_equal. f_equal. lia.
Qed.

(** Outside the years of [datetime.date] the month grid still exists
    ([calendar] folds the year into its 400-year cycle), and the first day
    cell raises. *)
Lemma generate_calendar_outside_years (today : date) (year month : Z)
    (selected_day : option Z) :
  ~ MINYEAR <= year <= MAXYEAR -> 1 <= month <= 12 ->
  generate_calendar today year month selected_day
  = Raise (if c_int year then ValueError else OverflowError).
Proof.
  intros Hy Hm. pose proof (days_in_month_ge_28 year month Hm) as H28.
  unfold generate_calendar. cbv zeta. unfold month_names_index.
  replace ((-12 <=? month - 1) && (month - 1 <=? 11)) with true
    by (symmetry; apply andb_true_intro; split; apply Z.leb_le; lia).
  cbn [res_bind].
  unfold PyCalendar.monthcalendar, PyCalendar.itermonthdays,
    PyCalendar.monthrange, PyCalendar.weekday.
  replace ((1 <=? month) && (month <=? 12)) with true
    by (symmetry; apply andb_true_intro; split; apply Z.leb_le; lia).
  replace ((MINYEAR <=? year) && (year <=? MAXYEAR)) with false.
  2:{ symmetry. apply andb_false_iff.
      destruct (Z.leb_spec MINYEAR year); [right|left; reflexivity].
      apply Z.leb_gt. lia. }
  assert (Hc : 2000 <= 2000 + year mod 400 < 2400)
    by (pose proof (Z.mod_pos_bound year 400); lia).
  rewrite date_new_checked.
  2:{ unfold check_date_fields.
      pose proof (days_in_month_ge_28 (2000 + year mod 400) month Hm).
      unfold MINYEAR, MAXYEAR.
      repeat (apply andb_true_intro; split); apply Z.leb_le; lia. }
  cbn [res_bind]. rewrite mdays_days_in_month.
  set (first := date_weekday (mkdate (2000 + year mod 400) month 1)).
  assert (Hf : 0 <= first < 7) by (apply Z.mod_pos_bound; lia).
  rewrite (Z.mod_small first 7) by exact Hf.
  set (nd := _days_in_month year month) in *.
  rewrite (seqZ_cons 1 nd) by lia.
  set (tail := seqZ (Z.succ 1) (Z.pred nd)
               ++ replicate (Z.to_nat ((0 - first - nd) mod 7)) 0).
  change ((1 :: seqZ (Z.succ 1) (Z.pred nd))
          ++ replicate (Z.to_nat ((0 - first - nd) mod 7)) 0)
    with (1 :: tail).
  rewrite weeks_of_first by (destruct (Z.to_nat first); discriminate).
  rewrite take_app_ge by (rewrite length_replicate; lia).
  rewrite length_replicate.
  replace (7 - Z.to_nat first)%nat with (S (6 - Z.to_nat first)) by lia.
  cbn [take res_map].
  rewrite (res_map_raises _ 0 1 (Button L_blank cal_ignore)
             (if c_int year then ValueError else OverflowError));
    [reflexivity|reflexivity|].
  unfold day_cell, date_new.
  replace (check_date_fields year month 1) with false.
  2:{ symmetry. unfold check_date_fields.
      destruct (Z.leb_spec MINYEAR year); [|reflexivity].
      destruct (Z.leb_spec year MAXYEAR); [lia|reflexivity]. }
  replace (c_int month) with true
    by (symmetry; unfold c_int; apply andb_true_intro; split;
        apply Z.leb_le; lia).
  rewrite andb_true_r. change (c_int 1) with true. rewrite andb_true_r.
  change (1 =? 0) with false. cbv iota.
  destruct (c_int year); reflexivity.
Qed.

(** X20. The calendar of a month of a representable year is headed by the
    row Prev, title, Next; Prev names the month before and Next the month
    after, also across the turn of the year, so the calendar that one of
    them opens, where it is rendered, leads back with the other. *)
Theorem calendar_navigation (today : date) (year month : Z)
    (selected_day : option Z) :
  MINYEAR <= year <= MAXYEAR -> 1 <= month <= 12 ->
  exists prev_year prev_month next_year next_month rows,
    generate_calendar today year month selected_day
    = Ok ([Button L_prev (cal_nav_ prev_year prev_month);
           Button (L_month_year month year) cal_ignore;
           Button L_next (cal_nav_ next_year next_month)] :: rows)
    /\ 1 <= prev_month <= 12 /\ 1 <= next_month <= 12
    /\ 12 * prev_year + prev_month = 12 * year + month - 1
    /\ 12 * next_year + next_month = 12 * year + month + 1.
Proof.
  intros Hy Hm.
  destruct (monthcalendar_days year month Hy Hm) as (cal & Hcal & Hdays).
  exists (if 1 <? month then year else year - 1),
         (if 1 <? month then month - 1 else 12),
         (if month <? 12 then year else year + 1),
         (if month <? 12 then month + 1 else 1).
  eexists. split.
  - unfold generate_calendar. cbv zeta. unfold month_names_index.
    replace ((-12 <=? month - 1) && (month - 1 <=? 11)) with true
      by (symmetry; apply andb_true_intro; split; apply Z.leb_le; lia).
    cbn [res_bind]. rewrite Hcal. cbn [res_bind].
    rewrite (res_map_total _ (map (grid_cell today year month selected_day))).
    + cbn [res_bind app]. reflexivity.
    + intros week Hw. apply res_map_total. intros day Hd.
      apply day_cell_total; eauto.
  - destruct (Z.ltb_spec 1 month), (Z.ltb_spec month 12); lia.
Qed.

(** X21. A press on a navigation button that names a month of a year
    outside 1..9999 (Prev on January of year 1, Next on December 9999) is
    answered and then fails: with [ValueError] when the year fits a C
    [int], with [OverflowError] when it does not.  The calendar message is
    not edited, and sessions and table stay. *)
Theorem navigation_outside_years (b : bot) (query_id chat_id : string)
    (user_id message_id year month : Z) :
  ~ MINYEAR <= year <= MAXYEAR -> 1 <= month <= 12 ->
  process_callback_query clk
    (CallbackQuery query_id (cal_nav_ year month) chat_id user_id message_id) b
  = (Raise (if (-2147483648 <=? year) && (year <=? 2147483647)
            then ValueError else OverflowError),
     set_log b (log b ++ [answerCallbackQuery query_id None])).
Proof.
  intros Hy Hm. unfold process_callback_query. cbv zeta.
  cbn [cq_id cq_data cq_chat_id cq_from_id cq_message_id
       is_delete_callback is_widget_callback andb negb].
  rewrite bind_make_request. unfold is_user_authorized. rewrite bind_gets.
  cbn [dispatch_callback]. unfold bind at 1, lift.
  now rewrite generate_calendar_outside_years.
Qed.

End CalendarNavigation.

Lemma calendar_navigation_witness :
  exists prev_year prev_month next_year next_month rows,
    generate_calendar (mkdate 2024 1 10) 2024 12 None
    = Ok ([Button L_prev (cal_nav_ prev_year prev_month);
           Button (L_month_year 12 2024) cal_ignore;
           Button L_next (cal_nav_ next_year next_month)] :: rows)
    /\ 1 <= prev_month <= 12 /\ 1 <= next_month <= 12
    /\ 12 * prev_year + prev_month = 12 * 2024 + 12 - 1
    /\ 12 * next_year + next_month = 12 * 2024 + 12 + 1.
Proof.
  apply (calendar_navigation (mkdate 2024 1 10) 2024 12 None);
    unfold MINYEAR, MAXYEAR; lia.
Defined.

Lemma navigation_outside_years_witness :
  process_callback_query (lib := AsciiLib.lib) sample_clock
    (CallbackQuery "q" (cal_nav_ 10000 1) "42" 7 5) managed_bot
  = (Raise (if (-2147483648 <=? 10000) && (10000 <=? 2147483647)
            then ValueError else OverflowError),
     set_log managed_bot
       (log managed_bot ++ [answerCallbackQuery "q" None])).
Proof.
  apply (navigation_outside_years (lib := AsciiLib.lib) sample_clock
           managed_bot "q" "42" 7 5 10000 1);
    unfold MINYEAR, MAXYEAR; lia.
Defined.

(** The two ways to fail, evaluated: year 10000 and year 2^31. *)
Example navigation_year_10000 :
  fst (process_callback_query (lib := AsciiLib.lib) sample_clock
         (CallbackQuery "q" (cal_nav_ 10000 1) "42" 7 5) managed_bot)
  = Raise ValueError
  /\ fst (process_callback_query (lib := AsciiLib.lib) sample_clock
            (CallbackQuery "q" (cal_nav_ 2147483648 1) "42" 7 5) managed_bot)
     = Raise OverflowError.
Proof. split; vm_compute; reflexivity. Qed.
